(** * Subscription lifecycle, billing and delivery orchestration

    A shallow embedding of the request handlers of the newspaper delivery
    back end (controllers/manager.controller.js, the customer controller
    and the deliverer controller, over the Mongoose schemas of
    models/index.js), and the properties of the specification proved or
    refuted on it.

    Conventions of the embedding.
    - A JavaScript [Number] is an exact rational ([Q]); binary rounding is
      not modelled.  Month and year are integers ([Z]).
    - A [Date] is its time value in milliseconds since the epoch, the server
      running in UTC.
    - An [ObjectId] is its 24 digit hexadecimal rendering in lower case,
      which is what [toHexString] and a template literal print; a string of a
      request is cast to it before it is compared or stored.
    - An exception is its [message]; the wording of the messages of Mongoose
      and of the JavaScript engine is given in short.
    - A collection is the list of its documents in insertion order; a handler
      is a function from the store to a response and a store.
    - The manager controller holds two copies of its handlers; the later copy
      of each (the one that opens a session) is the one embedded. *)

From Stdlib Require Import ZArith QArith Qminmax Lqa Lia List String Ascii Bool DecimalString
  DecimalZ.
From stdpp Require Import gmap strings list fin_maps.
Import ListNotations.

Local Open Scope string_scope.
Local Open Scope Z_scope.
Local Open Scope list_scope.

(** ** JavaScript values *)

Definition number := Q.
Bind Scope Q_scope with number.
Definition Date := Z.
Abbreviation ObjectId := string.

(** [a || b] on numbers: zero is falsy. *)
Definition num_or (a b : number) : number :=
  if Qeq_bool a 0%Q then b else a.

(** [Math.max(a, b)]. *)
Definition Math_max (a b : number) : number :=
  if Qle_bool a b then b else a.

(** [Number.isInteger(q) && q > 0]. *)
Definition positive_integer (q : number) : bool :=
  (Z.pos (Qden (Qred q)) =? 1) && Qle_bool 1%Q q.

Definition opt_eqb (x : option ObjectId) (y : ObjectId) : bool :=
  match x with
  | Some a => String.eqb a y
  | None => false
  end.

Definition present {A : Type} (o : option A) : bool :=
  match o with
  | Some _ => true
  | None => false
  end.

Definition mem_str (x : string) (l : list string) : bool :=
  existsb (String.eqb x) l.

(** *** Dates

    [new Date(year, monthIndex, day)] follows MakeDay, MakeDate and TimeClip
    of ECMAScript: the month index is zero based and overflows into the year,
    the day overflows into the neighbouring months, and a date out of the
    range of time values is an Invalid Date.  A [Date] is a valid date; a
    [Date] object of the code, which may be invalid, is an [option Date]. *)

Definition msPerDay : Z := 86400000.

(** Day number of the civil date [y]-[m]-[d], [m] counted from 1. *)
Definition days_from_civil (y m d : Z) : Z :=
  let y' := if m <=? 2 then y - 1 else y in
  let era := y' / 400 in
  let yoe := y' - era * 400 in
  let doy := (153 * (m + (if 2 <? m then -3 else 9)) + 2) / 5 + d - 1 in
  let doe := yoe * 365 + yoe / 4 - yoe / 100 + doy in
  era * 146097 + doe - 719468.

(** Civil date (year, month counted from 1, day) of a day number. *)
Definition civil_from_days (z : Z) : Z * Z * Z :=
  let z' := z + 719468 in
  let era := z' / 146097 in
  let doe := z' - era * 146097 in
  let yoe := (doe - doe / 1460 + doe / 36524 - doe / 146096) / 365 in
  let doy := doe - (365 * yoe + yoe / 4 - yoe / 100) in
  let mp := (5 * doy + 2) / 153 in
  let d := doy - (153 * mp + 2) / 5 + 1 in
  let m := if mp <? 10 then mp + 3 else mp - 9 in
  ((yoe + era * 400) + (if m <=? 2 then 1 else 0), m, d).

Definition MakeDay (year month date : Z) : Z :=
  let ym := year + month / 12 in
  let mn := month mod 12 in
  days_from_civil ym (mn + 1) 1 + date - 1.

(** [MakeDate(day, time)]. *)
Definition MakeDate (day time : Z) : Z := day * msPerDay + time.

(** [TimeClip]: a time value more than 8.64e15 ms away from the epoch makes
    an Invalid Date, [None]. *)
Definition TimeClip (time : Z) : option Date :=
  if Z.abs time <=? 8640000000000000 then Some time else None.

(** [new Date(year, monthIndex, day)], a [Date] object that may be an Invalid
    Date; a year in 0..99 means 1900 + year. *)
Definition new_Date (year monthIndex day : Z) : option Date :=
  let yr := if (0 <=? year) && (year <=? 99) then 1900 + year else year in
  TimeClip (MakeDate (MakeDay yr monthIndex day) 0).

(** [getFullYear], [getMonth] (zero based) and [getDate]. *)
Definition getFullYear (t : Date) : Z := fst (fst (civil_from_days (t / msPerDay))).
Definition getMonth (t : Date) : Z := snd (fst (civil_from_days (t / msPerDay))) - 1.
Definition getDate (t : Date) : Z := snd (civil_from_days (t / msPerDay)).

(** *** Number to string, [padStart] *)

Definition Z_toString (z : Z) : string := NilZero.string_of_int (Z.to_int z).

Fixpoint replicate_char (n : nat) (c : ascii) : string :=
  match n with
  | O => EmptyString
  | S k => String c (replicate_char k c)
  end.

Definition padStart (width : nat) (c : ascii) (s : string) : string :=
  replicate_char (width - String.length s) c +:+ s.

(** *** Lower case

    [String.prototype.toLowerCase] on the letters A to Z.  The letters
    outside ASCII are left as they are; none of them lowers to a letter of
    the words and digits the result is compared with. *)

Definition lower (c : ascii) : ascii :=
  let n := nat_of_ascii c in
  if ((65 <=? n) && (n <=? 90))%nat then ascii_of_nat (n + 32) else c.

Fixpoint toLowerCase (s : string) : string :=
  match s with
  | EmptyString => EmptyString
  | String c r => String (lower c) (toLowerCase r)
  end.

(** *** Object identifiers *)

Definition is_hex (c : ascii) : bool :=
  let n := nat_of_ascii c in
  ((48 <=? n) && (n <=? 57) || (97 <=? n) && (n <=? 102) || (65 <=? n) && (n <=? 70))%nat.

Fixpoint all_hex (s : string) : bool :=
  match s with
  | EmptyString => true
  | String c r => is_hex c && all_hex r
  end.

(** [mongoose.Types.ObjectId.isValid] on a string, and the cast of a request
    parameter to an [ObjectId]: identifiers are taken in their 24 digit form,
    the 12 byte form that Mongoose also accepts is not modelled. *)
Definition is_oid (s : string) : bool :=
  (String.length s =? 24)%nat && all_hex s.

(** The [ObjectId] that a string accepted by [is_oid] is cast to: the digits
    A to F are read like a to f, and [toHexString] prints them in lower
    case. *)
Definition castObjectId (s : string) : ObjectId := toLowerCase s.

(** ** HTTP responses *)

Record response := { code : Z; message : string }.



(** ** Schemas (models/index.js)

    Only the paths the handlers below read or write are kept.  A path that is
    not [required] in the schema is an [option]; a nested path, such as the
    [deliveryPreferences] of a subscription or of a request, is always an
    object, whose paths may be absent.  The [status] of a request has a
    default for new documents and is not [required]: a document whose status
    was set to [undefined] is stored without it. *)

Record Area := {
  area_id : ObjectId;
  area_managers : list ObjectId;
  area_publications : list ObjectId }.

Record User := { user_id : ObjectId; user_role : string }.

Record Publication := {
  pub_id : ObjectId;
  pub_price : number;
  pub_isActive : bool }.

Record Address := {
  addr_id : ObjectId;
  addr_userId : ObjectId;
  addr_areaId : option ObjectId;
  addr_deliveryInstructions : option string;
  addr_isActive : bool }.

Record Preferences := {
  pref_placement : option string;
  pref_additionalInstructions : option string }.

Record Subscription := {
  sub_id : ObjectId;
  sub_userId : ObjectId;
  sub_publicationId : ObjectId;
  sub_quantity : number;
  sub_startDate : option Date;
  sub_endDate : option Date;
  sub_status : string;
  sub_addressId : ObjectId;
  sub_areaId : option ObjectId;
  sub_deliveryPreferences : Preferences }.

Record ChangeRequest := {
  req_id : ObjectId;
  req_userId : ObjectId;
  req_requestType : string;
  req_subscriptionId : option ObjectId;
  req_publicationId : option ObjectId;
  req_newQuantity : option number;
  req_newAddressId : option ObjectId;
  req_deliveryPreferences : Preferences;
  req_status : option string;
  req_effectiveDate : Date;
  req_comments : option string;
  req_processedBy : option ObjectId;
  req_processedDate : option Date }.

Record DeliveryPersonnel := {
  dp_id : ObjectId;
  dp_userId : ObjectId;
  dp_areasAssigned : list ObjectId;
  dp_isActive : bool;
  dp_commissionRate : number }.

Record DeliveryRoute := {
  route_id : ObjectId;
  route_personnelId : ObjectId;
  route_areaId : ObjectId;
  route_isActive : bool }.

Record DeliverySchedule := {
  sched_id : ObjectId;
  sched_personnelId : ObjectId;
  sched_date : Date;
  sched_status : string;
  sched_areaId : option ObjectId;
  sched_routeId : option ObjectId;
  sched_notes : option string }.

Record DeliveryItem := {
  di_id : ObjectId;
  di_scheduleId : ObjectId;
  di_subscriptionId : ObjectId;
  di_addressId : ObjectId;
  di_publicationId : ObjectId;
  di_quantity : number;
  di_status : string;
  di_deliveryNotes : option string;
  di_deliveryTime : option Date;
  di_updatedAt : Date }.

Record Bill := {
  bill_id : ObjectId;
  bill_userId : ObjectId;
  bill_billDate : Date;
  bill_billMonth : Z;
  bill_billYear : Z;
  bill_totalAmount : number;
  bill_dueDate : Date;
  bill_status : string;
  bill_areaId : option ObjectId;
  bill_billNumber : string;
  bill_outstandingAmount : number }.

Record Period := { period_from : Date; period_to : Date }.

Record BillItem := {
  item_id : ObjectId;
  item_billId : ObjectId;
  item_publicationId : ObjectId;
  item_quantity : number;
  item_unitPrice : number;
  item_totalPrice : number;
  item_deliveryPeriod : Period }.

Record Payment := {
  pay_id : ObjectId;
  pay_billId : ObjectId;
  pay_userId : ObjectId;
  pay_paymentDate : Date;
  pay_amount : number;
  pay_paymentMethod : string;
  pay_referenceNumber : option string;
  pay_status : string;
  pay_receiptNumber : string }.

Record DelivererPayment := {
  dpay_id : ObjectId;
  dpay_personnelId : ObjectId;
  dpay_paymentMonth : Z;
  dpay_paymentYear : Z;
  dpay_amount : number;
  dpay_commissionRate : number;
  dpay_status : string;
  dpay_paymentMethod : string }.

(** A [CustomerActivity] entry; its free text is not modelled. *)
Record CustomerActivity := { act_userId : ObjectId; act_activityType : string }.

(** The enumerations of the schemas. *)
Definition subscription_statuses := ["Active"; "Paused"; "Cancelled"; "Suspended"].
Definition request_types := ["New"; "Update"; "Cancel"].
Definition request_statuses := ["Pending"; "Approved"; "Rejected"].
Definition payment_methods := ["Cash"; "Cheque"; "Online"; "UPI"; "Card"].
Definition activity_types :=
  ["New Subscription"; "Cancellation"; "Modification"; "Pause Request"; "Payment";
   "Address Update"].

(** ** The store *)

Record Db := {
  areas : list Area;
  users : list User;
  publications : list Publication;
  addresses : list Address;
  personnel : list DeliveryPersonnel;
  routes : list DeliveryRoute;
  subscriptions : list Subscription;
  requests : list ChangeRequest;
  schedules : list DeliverySchedule;
  deliveryItems : list DeliveryItem;
  bills : list Bill;
  billItems : list BillItem;
  payments : list Payment;
  delivererPayments : list DelivererPayment;
  activities : list CustomerActivity }.

Definition set_subscriptions (l : list Subscription) (d : Db) : Db :=
  {| areas := areas d; users := users d; publications := publications d;
     addresses := addresses d; personnel := personnel d; routes := routes d;
     subscriptions := l; requests := requests d; schedules := schedules d;
     deliveryItems := deliveryItems d; bills := bills d; billItems := billItems d;
     payments := payments d; delivererPayments := delivererPayments d;
     activities := activities d |}.

Definition set_requests (l : list ChangeRequest) (d : Db) : Db :=
  {| areas := areas d; users := users d; publications := publications d;
     addresses := addresses d; personnel := personnel d; routes := routes d;
     subscriptions := subscriptions d; requests := l; schedules := schedules d;
     deliveryItems := deliveryItems d; bills := bills d; billItems := billItems d;
     payments := payments d; delivererPayments := delivererPayments d;
     activities := activities d |}.

Definition set_schedules (l : list DeliverySchedule) (d : Db) : Db :=
  {| areas := areas d; users := users d; publications := publications d;
     addresses := addresses d; personnel := personnel d; routes := routes d;
     subscriptions := subscriptions d; requests := requests d; schedules := l;
     deliveryItems := deliveryItems d; bills := bills d; billItems := billItems d;
     payments := payments d; delivererPayments := delivererPayments d;
     activities := activities d |}.

Definition set_deliveryItems (l : list DeliveryItem) (d : Db) : Db :=
  {| areas := areas d; users := users d; publications := publications d;
     addresses := addresses d; personnel := personnel d; routes := routes d;
     subscriptions := subscriptions d; requests := requests d; schedules := schedules d;
     deliveryItems := l; bills := bills d; billItems := billItems d;
     payments := payments d; delivererPayments := delivererPayments d;
     activities := activities d |}.

Definition set_bills (l : list Bill) (d : Db) : Db :=
  {| areas := areas d; users := users d; publications := publications d;
     addresses := addresses d; personnel := personnel d; routes := routes d;
     subscriptions := subscriptions d; requests := requests d; schedules := schedules d;
     deliveryItems := deliveryItems d; bills := l; billItems := billItems d;
     payments := payments d; delivererPayments := delivererPayments d;
     activities := activities d |}.

Definition set_billItems (l : list BillItem) (d : Db) : Db :=
  {| areas := areas d; users := users d; publications := publications d;
     addresses := addresses d; personnel := personnel d; routes := routes d;
     subscriptions := subscriptions d; requests := requests d; schedules := schedules d;
     deliveryItems := deliveryItems d; bills := bills d; billItems := l;
     payments := payments d; delivererPayments := delivererPayments d;
     activities := activities d |}.

Definition set_payments (l : list Payment) (d : Db) : Db :=
  {| areas := areas d; users := users d; publications := publications d;
     addresses := addresses d; personnel := personnel d; routes := routes d;
     subscriptions := subscriptions d; requests := requests d; schedules := schedules d;
     deliveryItems := deliveryItems d; bills := bills d; billItems := billItems d;
     payments := l; delivererPayments := delivererPayments d;
     activities := activities d |}.

Definition set_delivererPayments (l : list DelivererPayment) (d : Db) : Db :=
  {| areas := areas d; users := users d; publications := publications d;
     addresses := addresses d; personnel := personnel d; routes := routes d;
     subscriptions := subscriptions d; requests := requests d; schedules := schedules d;
     deliveryItems := deliveryItems d; bills := bills d; billItems := billItems d;
     payments := payments d; delivererPayments := l;
     activities := activities d |}.

Definition set_activities (l : list CustomerActivity) (d : Db) : Db :=
  {| areas := areas d; users := users d; publications := publications d;
     addresses := addresses d; personnel := personnel d; routes := routes d;
     subscriptions := subscriptions d; requests := requests d; schedules := schedules d;
     deliveryItems := deliveryItems d; bills := bills d; billItems := billItems d;
     payments := payments d; delivererPayments := delivererPayments d;
     activities := l |}.

(** *** Collection primitives *)

Section Collections.
Context {A : Type} (id_of : A -> ObjectId).

(** [Model.findById]. *)
Definition findById (i : ObjectId) (l : list A) : option A :=
  List.find (fun d => String.eqb (id_of d) i) l.

(** Insertion of a new document; the [_id] index is unique. *)
Definition insertOne (d : A) (l : list A) : option (list A) :=
  if existsb (fun x => String.eqb (id_of x) (id_of d)) l then None
  else Some (l ++ [d]).

(** Insertion of several documents, in order. *)
Fixpoint insertMany (ds : list A) (l : list A) : option (list A) :=
  match ds with
  | [] => Some l
  | d :: r =>
      match insertOne d l with
      | Some l' => insertMany r l'
      | None => None
      end
  end.

(** [doc.save()] of a loaded document: the stored document with its [_id]
    is replaced. *)
Fixpoint replaceOne (d : A) (l : list A) : list A :=
  match l with
  | [] => []
  | x :: r => if String.eqb (id_of x) (id_of d) then d :: r else x :: replaceOne d r
  end.
End Collections.

(** ** The environment of a request

    What a handler takes from outside the store: the clock, the identifiers
    Mongoose draws for new documents, [Math.random], and what the source does
    not fix of Mongoose: two settings of the connection, and the version. *)

Record Mongoose := {
  (** [strictQuery]: a filter path that is not in the schema is dropped from
      the filter when set, and sent to the server as it is otherwise. *)
  strictQuery : bool;
  (** [ignoreUndefined]: a filter path whose value is [undefined] is left out
      of the filter when set, and sent as [null] otherwise. *)
  ignoreUndefined : bool;
  (** From version 8.10 on, [Model.create] refuses several documents with a
      session unless the call sets [ordered]; set for these versions. *)
  createGuard : bool }.

Record Env := {
  now : Date;
  fresh : nat -> ObjectId;
  random : nat -> string;
  mongoose : Mongoose }.

(** [{ _id: x }] in a filter, where [x] may be [undefined]. *)
Definition id_matches (o : Mongoose) (x : option ObjectId) (i : ObjectId) : bool :=
  match x with
  | Some a => String.eqb a i
  | None => ignoreUndefined o
  end.

(** ** Handlers as state transformers with early return and exceptions *)

Section HandlerMonad.
Context {S : Type}.

Inductive outcome (A : Type) :=
| Val (a : A) (s : S)            (* the statement completed *)
| Ret (r : response) (s : S)     (* [return res.status(..).json(..)] *)
| Throw (e : string) (s : S).    (* an exception on its way to [catch], by its message *)

Definition M (A : Type) := S -> outcome A.

Definition ret {A} (a : A) : M A := fun s => Val A a s.
Definition bind {A B} (m : M A) (k : A -> M B) : M B :=
  fun s => match m s with
           | Val _ a s' => k a s'
           | Ret _ r s' => Ret B r s'
           | Throw _ e s' => Throw B e s'
           end.
Definition respond {A} (r : response) : M A := fun s => Ret A r s.
Definition throw {A} (e : string) : M A := fun s => Throw A e s.
Definition get : M S := fun s => Val S s s.
Definition modify (f : S -> S) : M unit := fun s => Val unit tt (f s).

(** A write that the store may refuse (validation, unique index). *)
Definition try_modify (f : S -> option S) (e : string) : M unit :=
  fun s => match f s with
           | Some s' => Val unit tt s'
           | None => Throw unit e s
           end.
End HandlerMonad.

Arguments Val {S A} a s.
Arguments Ret {S A} r s.
Arguments Throw {S A} e s.

Notation "'let*' x ':=' m 'in' k" := (bind m (fun x => k))
  (at level 10, x pattern, m at level 100, k at level 200).
Notation "m ';;' k" := (bind m (fun _ => k))
  (at level 100, k at level 200, right associativity).

(** *** Transactions

    A session holds a working copy of the store.  Reads and writes that are
    given the session go to the working copy, the others to the committed
    store; [commitTransaction] publishes the working copy, and
    [abortTransaction] or the end of the session drops it. *)

Record txn := { committed : Db; working : Db }.

Definition startTransaction (d : Db) : txn := {| committed := d; working := d |}.
Definition commitTransaction : M (S := txn) unit :=
  modify (fun t => {| committed := working t; working := working t |}).
Definition abortTransaction : M (S := txn) unit :=
  modify (fun t => {| committed := committed t; working := committed t |}).
Definition in_session (f : Db -> Db) : txn -> txn :=
  fun t => {| committed := committed t; working := f (working t) |}.
Definition try_in_session (f : Db -> option Db) : txn -> option txn :=
  fun t => match f (working t) with
           | Some w => Some {| committed := committed t; working := w |}
           | None => None
           end.

(** [handleError]: the answer carries the message of the error as its
    [message]; its [error], 'Internal server error' for every error, is not
    kept. *)
Definition handleError (e : string) : response :=
  {| code := 500; message := e |}.

(** [Model.create(docs, { session })], before anything is stored: the check
    of Mongoose 8.10 and later. *)
Definition create_with_session {A : Type} (e : Env) (docs : list A) : M (S := txn) unit :=
  if createGuard (mongoose e) && (1 <? length docs)%nat then
    throw ("Cannot call `create()` with a session and multiple documents "
           +:+ "unless `ordered: true` is set")
  else ret tt.

(** [try { body } catch (error) { abortTransaction; respond } finally
    { endSession }]: whatever the body did, the store left behind is the
    committed one. *)
Definition transactional (body : M (S := txn) response) (on_error : string -> response)
    (d : Db) : response * Db :=
  match body (startTransaction d) with
  | Val r t => (r, committed t)
  | Ret r t => (r, committed t)
  | Throw e t => (on_error e, committed t)
  end.

(** [try { body } catch (error) { respond }] without a session. *)
Definition plain (body : M (S := Db) response) (on_error : string -> response)
    (d : Db) : response * Db :=
  match body d with
  | Val r d' => (r, d')
  | Ret r d' => (r, d')
  | Throw e d' => (on_error e, d')
  end.

(** ** Queries shared by the manager's handlers *)

(** [Area.find({ managers: req.user.id })] and [areas.map(area => area._id)]. *)
Definition managed_areas (manager : ObjectId) (d : Db) : list Area :=
  List.filter (fun a => mem_str manager (area_managers a)) (areas d).

Definition areaIds (manager : ObjectId) (d : Db) : list ObjectId :=
  map area_id (managed_areas manager d).

(** [{ areaId: { $in: ids } }]. *)
Definition area_in (x : option ObjectId) (ids : list ObjectId) : bool :=
  match x with
  | Some a => mem_str a ids
  | None => false
  end.

(** ** Billing generator ([generateBills], manager controller) *)

(** The literal objects the loop builds before anything is stored; their
    dates are the [Date] objects of [new Date(year, ...)]. *)
Record NewPeriod := { np_from : option Date; np_to : option Date }.

Record NewBillItem := {
  nbi_publicationId : ObjectId;
  nbi_quantity : number;
  nbi_unitPrice : number;
  nbi_totalPrice : number;
  nbi_deliveryPeriod : NewPeriod }.

Record NewBill := {
  nb_userId : ObjectId;
  nb_billDate : Date;
  nb_billMonth : Z;
  nb_billYear : Z;
  nb_totalAmount : number;
  nb_dueDate : option Date;
  nb_status : string;
  nb_areaId : option ObjectId;
  nb_billNumber : string;
  nb_outstandingAmount : number;
  nb_billItems : list NewBillItem }.

(** How a template literal prints an [areaId]. *)
Definition print_areaId (a : option ObjectId) : string :=
  match a with
  | Some i => i
  | None => "undefined"
  end.

(** [`${subscription.userId._id}-${subscription.areaId}`]. *)
Definition billKey (userId : ObjectId) (areaId : option ObjectId) : string :=
  userId +:+ "-" +:+ print_areaId areaId.

(** [`BILL-${year}${month.toString().padStart(2, '0')}-${suffix}`]. *)
Definition billNumber (month year : Z) (suffix : string) : string :=
  "BILL-" +:+ Z_toString year +:+ padStart 2 "0" (Z_toString month) +:+ "-" +:+ suffix.

Definition newBill (e : Env) (month year : Z) (n : nat) (s : Subscription) : NewBill :=
  {| nb_userId := sub_userId s;
     nb_billDate := now e;
     nb_billMonth := month;
     nb_billYear := year;
     nb_totalAmount := 0%Q;
     nb_dueDate := new_Date year month 15;
     nb_status := "Unpaid";
     nb_areaId := sub_areaId s;
     nb_billNumber := billNumber month year (random e n);
     nb_outstandingAmount := 0%Q;
     nb_billItems := [] |}.

Definition newBillItem (month year : Z) (p : Publication) (s : Subscription) : NewBillItem :=
  {| nbi_publicationId := pub_id p;
     nbi_quantity := sub_quantity s;
     nbi_unitPrice := pub_price p;
     nbi_totalPrice := (pub_price p * sub_quantity s)%Q;
     nbi_deliveryPeriod :=
       {| np_from := new_Date year (month - 1) 1; np_to := new_Date year month 0 |} |}.

(** [existingBill.totalAmount += amount; existingBill.outstandingAmount +=
    amount; existingBill.billItems.push(item)]. *)
Definition charge (it : NewBillItem) (b : NewBill) : NewBill :=
  {| nb_userId := nb_userId b;
     nb_billDate := nb_billDate b;
     nb_billMonth := nb_billMonth b;
     nb_billYear := nb_billYear b;
     nb_totalAmount := (nb_totalAmount b + nbi_totalPrice it)%Q;
     nb_dueDate := nb_dueDate b;
     nb_status := nb_status b;
     nb_areaId := nb_areaId b;
     nb_billNumber := nb_billNumber b;
     nb_outstandingAmount := (nb_outstandingAmount b + nbi_totalPrice it)%Q;
     nb_billItems := nb_billItems b ++ [it] |}.

(** The state of the loop: the array [billsToCreate], and [billItemsMap],
    whose values are references to the objects of the array, here their
    indices. *)
Definition billing_state : Type := list NewBill * gmap string nat.

(** One iteration of [for (const subscription of subscriptions)].  The two
    [populate]d paths are [null] when the referenced document is gone, and
    reading through them throws. *)
Definition bill_step (e : Env) (month year : Z) (d : Db)
    (st : billing_state) (s : Subscription) : option billing_state :=
  match findById user_id (sub_userId s) (users d),
        findById pub_id (sub_publicationId s) (publications d) with
  | Some u, Some p =>
      let key := billKey (user_id u) (sub_areaId s) in
      let '(billsToCreate, billItemsMap) := st in
      let '(billsToCreate, billItemsMap, existingBill) :=
        match billItemsMap !! key with
        | Some ref => (billsToCreate, billItemsMap, ref)
        | None =>
            let ref := length billsToCreate in
            (billsToCreate ++ [newBill e month year ref s],
             <[key := ref]> billItemsMap, ref)
        end in
      Some (alter (charge (newBillItem month year p s)) existingBill billsToCreate,
            billItemsMap)
  | _, _ => None
  end.

Fixpoint bill_loop (e : Env) (month year : Z) (d : Db)
    (st : billing_state) (subs : list Subscription) : option billing_state :=
  match subs with
  | [] => Some st
  | s :: r =>
      match bill_step e month year d st s with
      | Some st' => bill_loop e month year d st' r
      | None => None
      end
  end.

(** [Subscription.find({ areaId: { $in: areaIds }, status: 'Active' })]. *)
Definition billable_subscriptions (manager : ObjectId) (d : Db) : list Subscription :=
  List.filter
    (fun s => area_in (sub_areaId s) (areaIds manager d) && String.eqb (sub_status s) "Active")
    (subscriptions d).

(** The document [Bill.create] stores for a literal, under a new [_id] and
    with the date its [dueDate] is cast to. *)
Definition stored_bill (dueDate : Date) (i : ObjectId) (b : NewBill) : Bill :=
  {| bill_id := i;
     bill_userId := nb_userId b;
     bill_billDate := nb_billDate b;
     bill_billMonth := nb_billMonth b;
     bill_billYear := nb_billYear b;
     bill_totalAmount := nb_totalAmount b;
     bill_dueDate := dueDate;
     bill_status := nb_status b;
     bill_areaId := nb_areaId b;
     bill_billNumber := nb_billNumber b;
     bill_outstandingAmount := nb_outstandingAmount b |}.

(** The cast of the literal to a document: an Invalid Date does not cast,
    and the validation of the document fails. *)
Definition bill_doc (i : ObjectId) (b : NewBill) : option Bill :=
  match nb_dueDate b with
  | Some dueDate => Some (stored_bill dueDate i b)
  | None => None
  end.

Definition stored_billItem (period : Period) (i billId : ObjectId) (it : NewBillItem)
    : BillItem :=
  {| item_id := i;
     item_billId := billId;
     item_publicationId := nbi_publicationId it;
     item_quantity := nbi_quantity it;
     item_unitPrice := nbi_unitPrice it;
     item_totalPrice := nbi_totalPrice it;
     item_deliveryPeriod := period |}.

Definition billItem_doc (i billId : ObjectId) (it : NewBillItem) : option BillItem :=
  match np_from (nbi_deliveryPeriod it), np_to (nbi_deliveryPeriod it) with
  | Some from, Some to =>
      Some (stored_billItem {| period_from := from; period_to := to |} i billId it)
  | _, _ => None
  end.

(** Documents of a [Model.create] call, numbered from the [k]-th new
    identifier of the request. *)
Fixpoint with_ids {A B : Type} (e : Env) (k : nat) (mk : ObjectId -> A -> B)
    (l : list A) : list B :=
  match l with
  | [] => []
  | x :: r => mk (fresh e k) x :: with_ids e (S k) mk r
  end.

(** The documents, when every one of them casts. *)
Fixpoint all_cast {B : Type} (l : list (option B)) : option (list B) :=
  match l with
  | [] => Some []
  | Some y :: r =>
      match all_cast r with
      | Some ys => Some (y :: ys)
      | None => None
      end
  | None :: _ => None
  end.

(** [Bill.create(docs, { session })]: [_id] and [billNumber] are unique. *)
Fixpoint insert_bills (bs : list Bill) (l : list Bill) : option (list Bill) :=
  match bs with
  | [] => Some l
  | b :: r =>
      if existsb (fun x => String.eqb (bill_billNumber x) (bill_billNumber b)) l then None
      else match insertOne bill_id b l with
           | Some l' => insert_bills r l'
           | None => None
           end
  end.

(** [createdBills.forEach((createdBill, index) => ...)]: the items of the
    literal at [index] get the [billId] of the document at [index]. *)
Fixpoint allBillItems (created : list Bill) (billsToCreate : list NewBill)
    : list (ObjectId * NewBillItem) :=
  match created, billsToCreate with
  | c :: cr, b :: br => map (fun it => (bill_id c, it)) (nb_billItems b) ++ allBillItems cr br
  | _, _ => []
  end.

Definition generateBills (e : Env) (manager : ObjectId) (month year : Z)
    : Db -> response * Db :=
  transactional
    (let* t := get in
     let subs := billable_subscriptions manager (committed t) in
     match bill_loop e month year (committed t) ([], ∅) subs with
     | None => throw "Cannot read properties of null"
     | Some (billsToCreate, _) =>
         if (length billsToCreate =? 0)%nat then
           respond {| code := 200;
                      message := "No active subscriptions found for bill generation" |}
         else
           create_with_session e billsToCreate ;;
           match all_cast (with_ids e 0 bill_doc billsToCreate) with
           | None => throw "Bill validation failed: dueDate: Cast to date failed"
           | Some createdBills =>
               try_modify
                 (try_in_session (fun w =>
                    match insert_bills createdBills (bills w) with
                    | Some l => Some (set_bills l w)
                    | None => None
                    end))
                 "E11000 duplicate key error" ;;
               let allItems := allBillItems createdBills billsToCreate in
               create_with_session e allItems ;;
               match all_cast
                       (with_ids e (length billsToCreate)
                          (fun i x => billItem_doc i (fst x) (snd x)) allItems) with
               | None => throw "BillItem validation failed: deliveryPeriod: Cast to date failed"
               | Some items =>
                   try_modify
                     (try_in_session (fun w =>
                        match insertMany item_id items (billItems w) with
                        | Some l => Some (set_billItems l w)
                        | None => None
                        end))
                     "E11000 duplicate key error" ;;
                   commitTransaction ;;
                   ret {| code := 201; message := "Bills generated successfully" |}
               end
           end
     end)
    handleError.

(** ** Customer controller *)

Definition truthy (o : option string) : bool :=
  match o with
  | Some s => negb (String.eqb s "")
  | None => false
  end.

(** [a || b] on optional strings. *)
Definition str_or (a b : option string) : option string :=
  if truthy a then a else b.

Definition sevenDays : Z := 7 * 24 * 60 * 60 * 1000.

(** The validators of [SubscriptionSchema] that a save can fail: the
    enumeration of [status], and [startDate], which is required. *)
Definition validate_subscription (s : Subscription) : bool :=
  mem_str (sub_status s) subscription_statuses && present (sub_startDate s).

Definition save_new_subscription (s : Subscription) (d : Db) : option Db :=
  if validate_subscription s then
    match insertOne sub_id s (subscriptions d) with
    | Some l => Some (set_subscriptions l d)
    | None => None
    end
  else None.

(** The validators of the schema of the requests: the two enumerations; the
    one of [status] is not run when the request has none. *)
Definition validate_request (r : ChangeRequest) : bool :=
  mem_str (req_requestType r) request_types
  && match req_status r with
     | Some status => mem_str status request_statuses
     | None => true
     end.

Definition save_new_request (r : ChangeRequest) (d : Db) : option Db :=
  if validate_request r then
    match insertOne req_id r (requests d) with
    | Some l => Some (set_requests l d)
    | None => None
    end
  else None.

Definition log_activity (user : ObjectId) (type : string) (d : Db) : option Db :=
  if mem_str type activity_types then
    Some (set_activities (activities d ++ [{| act_userId := user; act_activityType := type |}]) d)
  else None.

(** [createSubscription]: a customer submits a request of type New. *)
Definition createSubscription (e : Env) (user : ObjectId)
    (publicationId addressId : string) (quantity : number)
    (deliveryPreferences : option Preferences) : Db -> response * Db :=
  plain
    (if negb (is_oid publicationId) then
       respond {| code := 400; message := "Invalid publication ID format" |}
     else if negb (is_oid addressId) then
       respond {| code := 400; message := "Invalid address ID format" |}
     else if negb (positive_integer quantity) then
       respond {| code := 400; message := "Quantity must be a positive integer" |}
     else
       match deliveryPreferences with
       | None => respond {| code := 400; message := "Delivery placement is required" |}
       | Some prefs =>
           if negb (truthy (pref_placement prefs)) then
             respond {| code := 400; message := "Delivery placement is required" |}
           else
             let publicationId := castObjectId publicationId in
             let addressId := castObjectId addressId in
             let* d := get in
             match List.find (fun p => String.eqb (pub_id p) publicationId && pub_isActive p)
                     (publications d) with
             | None => respond {| code := 404; message := "Publication not found or inactive" |}
             | Some publication =>
                 match List.find
                         (fun a => String.eqb (addr_id a) addressId
                                   && String.eqb (addr_userId a) user && addr_isActive a)
                         (addresses d) with
                 | None => respond {| code := 404; message := "Address not found or inactive" |}
                 | Some address =>
                     let prefs' :=
                       {| pref_placement := pref_placement prefs;
                          pref_additionalInstructions :=
                            str_or (pref_additionalInstructions prefs)
                                   (addr_deliveryInstructions address) |} in
                     let subscription :=
                       {| sub_id := fresh e 0;
                          sub_userId := user;
                          sub_publicationId := publicationId;
                          sub_quantity := quantity;
                          sub_startDate := Some (now e);
                          sub_endDate := None;
                          sub_status := "Active";
                          sub_addressId := addr_id address;
                          sub_areaId := addr_areaId address;
                          sub_deliveryPreferences := prefs' |} in
                     try_modify (save_new_subscription subscription) "save failed" ;;
                     let subscriptionRequest :=
                       {| req_id := fresh e 1;
                          req_userId := user;
                          req_requestType := "New";
                          req_subscriptionId := Some (sub_id subscription);
                          req_publicationId := Some publicationId;
                          req_newQuantity := Some quantity;
                          req_newAddressId := Some (addr_id address);
                          req_deliveryPreferences := prefs';
                          req_status := Some "Pending";
                          req_effectiveDate := now e + sevenDays;
                          req_comments := None;
                          req_processedBy := None;
                          req_processedDate := None |} in
                     try_modify (save_new_request subscriptionRequest) "save failed" ;;
                     try_modify (log_activity user "New Subscription") "save failed" ;;
                     ret {| code := 201; message := "Subscription request created successfully" |}
                 end
             end
       end)
    (fun _ => {| code := 500; message := "Error creating subscription request" |}).

(** The validators and unique indexes a [Payment] save can fail. *)
Definition save_new_payment (p : Payment) (d : Db) : option Db :=
  if mem_str (pay_paymentMethod p) payment_methods
     && negb (existsb (fun x => String.eqb (pay_receiptNumber x) (pay_receiptNumber p))
                (payments d))
  then
    match insertOne pay_id p (payments d) with
    | Some l => Some (set_payments l d)
    | None => None
    end
  else None.

(** The bill after [bill.outstandingAmount = Math.max(0, bill.outstandingAmount
    - amount)] and [bill.status = bill.outstandingAmount === 0 ? 'Paid' :
    'Partially Paid']. *)
Definition pay_bill (amount : number) (b : Bill) : Bill :=
  let outstanding := Math_max 0%Q (bill_outstandingAmount b - amount)%Q in
  {| bill_id := bill_id b;
     bill_userId := bill_userId b;
     bill_billDate := bill_billDate b;
     bill_billMonth := bill_billMonth b;
     bill_billYear := bill_billYear b;
     bill_totalAmount := bill_totalAmount b;
     bill_dueDate := bill_dueDate b;
     bill_status := if Qeq_bool outstanding 0%Q then "Paid" else "Partially Paid";
     bill_areaId := bill_areaId b;
     bill_billNumber := bill_billNumber b;
     bill_outstandingAmount := outstanding |}.

(** [Bill.findOne({ _id: billId, userId: req.user.id })]. *)
Definition find_bill (user : ObjectId) (billId : ObjectId) (d : Db) : option Bill :=
  List.find (fun b => String.eqb (bill_id b) billId && String.eqb (bill_userId b) user) (bills d).

(** [makePayment]; [amount] is [None] when the body carries no number. *)
Definition makePayment (e : Env) (user : ObjectId) (billId : string)
    (amount : option number) (paymentMethod : string) (referenceNumber : option string)
    : Db -> response * Db :=
  plain
    (if negb (is_oid billId) then throw "Cast to ObjectId failed" else
     let billId := castObjectId billId in
     let* d := get in
     match find_bill user billId d with
     | None => respond {| code := 404; message := "Bill not found" |}
     | Some bill =>
         match amount with
         | None => throw "Payment validation failed: amount is required"
         | Some amount =>
             let payment :=
               {| pay_id := fresh e 0;
                  pay_billId := billId;
                  pay_userId := user;
                  pay_paymentDate := now e;
                  pay_amount := amount;
                  pay_paymentMethod := paymentMethod;
                  pay_referenceNumber := referenceNumber;
                  pay_status := "Completed";
                  pay_receiptNumber := "RCP" +:+ Z_toString (now e) |} in
             try_modify (save_new_payment payment) "save failed" ;;
             modify (fun d => set_bills (replaceOne bill_id (pay_bill amount bill) (bills d)) d) ;;
             try_modify (log_activity user "Payment") "save failed" ;;
             ret {| code := 201; message := "Payment processed successfully" |}
         end
     end)
    (fun _ => {| code := 500; message := "Error processing payment" |}).

(** ** Deliverer controller *)

Definition set_delivery_status (e : Env) (status : string) (notes : option string)
    (i : DeliveryItem) : DeliveryItem :=
  {| di_id := di_id i;
     di_scheduleId := di_scheduleId i;
     di_subscriptionId := di_subscriptionId i;
     di_addressId := di_addressId i;
     di_publicationId := di_publicationId i;
     di_quantity := di_quantity i;
     di_status := status;
     di_deliveryNotes := notes;
     di_deliveryTime := Some (now e);
     di_updatedAt := now e |}.

(** [updateDeliveryStatus]; [deliveryPersonnel] is [req.user.deliveryPersonnel],
    [null] for a user without personnel record. *)
Definition updateDeliveryStatus (e : Env) (deliveryPersonnel : option ObjectId)
    (id : string) (status : string) (deliveryNotes : option string)
    : Db -> response * Db :=
  plain
    (if negb (mem_str status ["Delivered"; "Failed"; "Skipped"]) then
       respond {| code := 400; message := "Invalid status" |}
     else if negb (is_oid id) then throw "Cast to ObjectId failed"
     else
       let id := castObjectId id in
       let* d := get in
       match findById di_id id (deliveryItems d) with
       | None => respond {| code := 404; message := "Delivery item not found" |}
       | Some item =>
           match List.find
                   (fun s => String.eqb (sched_id s) (di_scheduleId item)
                             && opt_eqb deliveryPersonnel (sched_personnelId s))
                   (schedules d) with
           | None => respond {| code := 403; message := "Not authorized to update this delivery" |}
           | Some _ =>
               modify (fun d =>
                 set_deliveryItems
                   (replaceOne di_id (set_delivery_status e status deliveryNotes item)
                      (deliveryItems d)) d) ;;
               ret {| code := 200; message := "Delivery status updated successfully" |}
           end
       end)
    handleError.

(** ** Subscription change state machine ([handleSubscriptionRequest]) *)

(** [request.status = status; request.processedBy = req.user.id;
    request.processedDate = new Date(); request.comments = comments], where
    [status] and [comments] are [undefined] when the body has none. *)
Definition process_request (e : Env) (manager : ObjectId) (status : option string)
    (comments : option string) (r : ChangeRequest) : ChangeRequest :=
  {| req_id := req_id r;
     req_userId := req_userId r;
     req_requestType := req_requestType r;
     req_subscriptionId := req_subscriptionId r;
     req_publicationId := req_publicationId r;
     req_newQuantity := req_newQuantity r;
     req_newAddressId := req_newAddressId r;
     req_deliveryPreferences := req_deliveryPreferences r;
     req_status := status;
     req_effectiveDate := req_effectiveDate r;
     req_comments := comments;
     req_processedBy := Some manager;
     req_processedDate := Some (now e) |}.

(** [request.subscriptionId = subscription._id]. *)
Definition with_subscriptionId (s : ObjectId) (r : ChangeRequest) : ChangeRequest :=
  {| req_id := req_id r;
     req_userId := req_userId r;
     req_requestType := req_requestType r;
     req_subscriptionId := Some s;
     req_publicationId := req_publicationId r;
     req_newQuantity := req_newQuantity r;
     req_newAddressId := req_newAddressId r;
     req_deliveryPreferences := req_deliveryPreferences r;
     req_status := req_status r;
     req_effectiveDate := req_effectiveDate r;
     req_comments := req_comments r;
     req_processedBy := req_processedBy r;
     req_processedDate := req_processedDate r |}.

(** [subscription.status = 'Active'; subscription.startDate =
    request.effectiveDate]. *)
Definition activate (effectiveDate : Date) (s : Subscription) : Subscription :=
  {| sub_id := sub_id s;
     sub_userId := sub_userId s;
     sub_publicationId := sub_publicationId s;
     sub_quantity := sub_quantity s;
     sub_startDate := Some effectiveDate;
     sub_endDate := sub_endDate s;
     sub_status := "Active";
     sub_addressId := sub_addressId s;
     sub_areaId := sub_areaId s;
     sub_deliveryPreferences := sub_deliveryPreferences s |}.

(** [{ status: 'Cancelled', endDate: request.effectiveDate }]. *)
Definition cancel (effectiveDate : Date) (s : Subscription) : Subscription :=
  {| sub_id := sub_id s;
     sub_userId := sub_userId s;
     sub_publicationId := sub_publicationId s;
     sub_quantity := sub_quantity s;
     sub_startDate := sub_startDate s;
     sub_endDate := Some effectiveDate;
     sub_status := "Cancelled";
     sub_addressId := sub_addressId s;
     sub_areaId := sub_areaId s;
     sub_deliveryPreferences := sub_deliveryPreferences s |}.

(** The three conditional assignments of the Update case.  The third one is
    always made: [request.deliveryPreferences] is a nested path, an object
    even when the request was stored without preferences, so the preferences
    of the subscription are overwritten, by absent ones in that case. *)
Definition apply_update (r : ChangeRequest) (newAddress : option Address)
    (s : Subscription) : Subscription :=
  {| sub_id := sub_id s;
     sub_userId := sub_userId s;
     sub_publicationId := sub_publicationId s;
     sub_quantity :=
       match req_newQuantity r with
       | Some q => if Qeq_bool q 0%Q then sub_quantity s else q
       | None => sub_quantity s
       end;
     sub_startDate := sub_startDate s;
     sub_endDate := sub_endDate s;
     sub_status := sub_status s;
     sub_addressId :=
       match newAddress with
       | Some a => addr_id a
       | None => sub_addressId s
       end;
     sub_areaId := sub_areaId s;
     sub_deliveryPreferences :=
       {| pref_placement := pref_placement (req_deliveryPreferences r);
          pref_additionalInstructions :=
            str_or (pref_additionalInstructions (req_deliveryPreferences r))
              (match newAddress with
               | Some a => addr_deliveryInstructions a
               | None => None
               end) |} |}.

(** The Subscription the New case builds when the request carries none.
    [request.deliveryPreferences], a nested path, is never falsy, so the
    preferences are the ones of the request, with the default of the schema
    for a [placement] that is absent. *)
Definition subscription_of_request (e : Env) (r : ChangeRequest) (p : Publication)
    (address : Address) (area : Area) : Subscription :=
  {| sub_id := fresh e 0;
     sub_userId := req_userId r;
     sub_publicationId := pub_id p;
     sub_quantity :=
       match req_newQuantity r with
       | Some q => num_or q 1%Q
       | None => 1%Q
       end;
     sub_startDate := None;
     sub_endDate := None;
     sub_status := "Pending";
     sub_addressId := addr_id address;
     sub_areaId :=
       match addr_areaId address with
       | Some a => Some a
       | None => Some (area_id area)
       end;
     sub_deliveryPreferences :=
       {| pref_placement :=
            match pref_placement (req_deliveryPreferences r) with
            | Some placement => Some placement
            | None => Some "Door"
            end;
          pref_additionalInstructions :=
            pref_additionalInstructions (req_deliveryPreferences r) |} |}.

(** [subscription.save({ session })] of a loaded subscription. *)
Definition save_subscription (s : Subscription) (d : Db) : option Db :=
  if validate_subscription s then
    Some (set_subscriptions (replaceOne sub_id s (subscriptions d)) d)
  else None.

(** [request.save({ session })]. *)
Definition save_request (r : ChangeRequest) (d : Db) : option Db :=
  if validate_request r then Some (set_requests (replaceOne req_id r (requests d)) d)
  else None.

(** [populate]: the referenced document, [null] when there is none. *)
Definition populate {A : Type} (id_of : A -> ObjectId) (ref : option ObjectId) (l : list A)
    : option A :=
  match ref with
  | Some i => findById id_of i l
  | None => None
  end.

Definition areaId_of_address (a : option Address) : option ObjectId :=
  match a with
  | Some x => addr_areaId x
  | None => None
  end.

Definition areaId_of_subscription (s : option Subscription) : option ObjectId :=
  match s with
  | Some x => sub_areaId x
  | None => None
  end.

(** The area check, "Verify the request is in manager's area". *)
Definition request_area (o : Mongoose) (manager : ObjectId) (r : ChangeRequest)
    (publication : option Publication) (newAddress : option Address)
    (subscription : option Subscription) (d : Db) : M (S := txn) (option Area) :=
  if String.eqb (req_requestType r) "New" then
    match publication with
    | None => throw "Cannot read properties of null"
    | Some p =>
        ret (List.find
               (fun a =>
                  (mem_str (pub_id p) (area_publications a)
                   || id_matches o (areaId_of_address newAddress) (area_id a)
                   || id_matches o (areaId_of_subscription subscription) (area_id a))
                  && mem_str manager (area_managers a))
               (areas d))
    end
  else
    ret (List.find
           (fun a =>
              id_matches o (areaId_of_subscription subscription) (area_id a)
              && mem_str manager (area_managers a))
           (areas d)).

(** [case 'New'].  When the address of the request does not resolve, the
    handler goes for a default address through [Address.findOne]; the
    controller does not import [Address], so evaluating the name throws a
    ReferenceError, and the lines after it, down to the answer 400 'No valid
    address found for user in this area', are never reached. *)
Definition approve_new (e : Env) (r : ChangeRequest) (publication : option Publication)
    (newAddress : option Address) (subscription : option Subscription) (area : Area)
    : M (S := txn) ChangeRequest :=
  let* address :=
    match newAddress with
    | Some a => ret a
    | None => throw "Address is not defined"
    end in
  let* (subscription, r) :=
    match subscription with
    | Some s0 =>
        let* t := get in
        match findById sub_id (sub_id s0) (subscriptions (working t)) with
        | None =>
            abortTransaction ;;
            respond {| code := 404; message := "Subscription not found" |}
        | Some s => ret (s, r)
        end
    | None =>
        match publication with
        | None => throw "Cannot read properties of null"
        | Some p =>
            let s := subscription_of_request e r p address area in
            try_modify (try_in_session (save_new_subscription s))
              "Subscription validation failed" ;;
            ret (s, with_subscriptionId (sub_id s) r)
        end
    end in
  try_modify (try_in_session (save_subscription (activate (req_effectiveDate r) subscription)))
    "Subscription validation failed" ;;
  ret r.

(** [case 'Update']. *)
Definition approve_update (r : ChangeRequest) (newAddress : option Address)
    (subscription : option Subscription) : M (S := txn) ChangeRequest :=
  let* t := get in
  match populate sub_id (option_map sub_id subscription) (subscriptions (working t)) with
  | None =>
      abortTransaction ;;
      respond {| code := 404; message := "Subscription not found" |}
  | Some s =>
      try_modify (try_in_session (save_subscription (apply_update r newAddress s)))
        "Subscription validation failed" ;;
      ret r
  end.

(** [case 'Cancel']: [findByIdAndUpdate] changes nothing when no document has
    the identifier. *)
Definition approve_cancel (r : ChangeRequest) (subscription : option Subscription)
    : M (S := txn) ChangeRequest :=
  modify (in_session (fun w =>
    match populate sub_id (option_map sub_id subscription) (subscriptions w) with
    | Some s => set_subscriptions (replaceOne sub_id (cancel (req_effectiveDate r) s) (subscriptions w)) w
    | None => w
    end)) ;;
  ret r.

(** [if (status === 'Approved') { switch (request.requestType) { ... } }]. *)
Definition apply_decision (e : Env) (status : option string) (request : ChangeRequest)
    (publication : option Publication) (newAddress : option Address)
    (subscription : option Subscription) (area : Area) : M (S := txn) ChangeRequest :=
  if opt_eqb status "Approved" then
    if String.eqb (req_requestType request) "New" then
      approve_new e request publication newAddress subscription area
    else if String.eqb (req_requestType request) "Update" then
      approve_update request newAddress subscription
    else if String.eqb (req_requestType request) "Cancel" then
      approve_cancel request subscription
    else ret request
  else ret request.

(** [handleSubscriptionRequest]; [status] is the string the body gives, [None]
    when it gives none, and is taken as it comes. *)
Definition handleSubscriptionRequest (e : Env) (manager : ObjectId) (id : string)
    (status : option string) (comments : option string) : Db -> response * Db :=
  transactional
    (if negb (is_oid id) then throw "Cast to ObjectId failed" else
     let id := castObjectId id in
     let* t := get in
     let d := committed t in
     match findById req_id id (requests d) with
     | None =>
         abortTransaction ;;
         respond {| code := 404; message := "Request not found" |}
     | Some request =>
         let subscription := populate sub_id (req_subscriptionId request) (subscriptions d) in
         let publication := populate pub_id (req_publicationId request) (publications d) in
         let newAddress := populate addr_id (req_newAddressId request) (addresses d) in
         let* area :=
           request_area (mongoose e) manager request publication newAddress subscription d in
         match area with
         | None =>
             abortTransaction ;;
             respond {| code := 403; message := "Not authorized to handle this request" |}
         | Some area =>
             let request := process_request e manager status comments request in
             let* request :=
               apply_decision e status request publication newAddress subscription area in
             try_modify (try_in_session (save_request request))
               "SubscriptionChangeRequest validation failed" ;;
             commitTransaction ;;
             ret {| code := 200; message := "Subscription request handled successfully" |}
         end
     end)
    (fun _ => {| code := 500; message := "Error handling subscription request" |}).

(** ** Delivery schedule materializer ([createSchedule]) *)

(** [req.body.date] and what [new Date(date)] makes of it. *)
Inductive date_input :=
| DateMissing
| DateInvalid
| DateValue (t : Date).

Definition given (o : option string) : option string :=
  if truthy o then o else None.

(** The item of one subscription; reading through a [populate]d path that is
    [null] throws. *)
Definition deliveryItem_of (e : Env) (scheduleId : ObjectId) (d : Db) (sub : Subscription)
    : option (ObjectId -> DeliveryItem) :=
  match findById pub_id (sub_publicationId sub) (publications d),
        findById addr_id (sub_addressId sub) (addresses d) with
  | Some p, Some a =>
      Some (fun i =>
        {| di_id := i;
           di_scheduleId := scheduleId;
           di_subscriptionId := sub_id sub;
           di_addressId := addr_id a;
           di_publicationId := pub_id p;
           di_quantity := num_or (sub_quantity sub) 1%Q;
           di_status := "Pending";
           di_deliveryNotes := None;
           di_deliveryTime := None;
           di_updatedAt := now e |})
  | _, _ => None
  end.

(** [subscriptions.map(...)], [None] when an iteration throws. *)
Fixpoint map_opt {A B : Type} (f : A -> option B) (l : list A) : option (list B) :=
  match l with
  | [] => Some []
  | x :: r =>
      match f x, map_opt f r with
      | Some y, Some ys => Some (y :: ys)
      | _, _ => None
      end
  end.

(** [Subscription.find({ areaId, status: 'Active' })]. *)
Definition active_in_area (areaId : ObjectId) (d : Db) : list Subscription :=
  List.filter
    (fun s => opt_eqb (sub_areaId s) areaId && String.eqb (sub_status s) "Active")
    (subscriptions d).

Definition createSchedule (e : Env) (manager : ObjectId)
    (personnelId areaId routeId : option string) (date : date_input)
    (notes : option string) : Db -> response * Db :=
  transactional
    (match given personnelId, date, given areaId, given routeId with
     | Some personnelId, (DateInvalid | DateValue _), Some areaId, Some routeId =>
         if negb (is_oid areaId) then throw "Cast to ObjectId failed" else
         let areaId := castObjectId areaId in
         let* t := get in
         match List.find
                 (fun a => String.eqb (area_id a) areaId && mem_str manager (area_managers a))
                 (areas (working t)) with
         | None =>
             abortTransaction ;;
             respond {| code := 403;
                        message := "Not authorized to create schedule for this area" |}
         | Some _ =>
             if negb (is_oid personnelId) then throw "Cast to ObjectId failed" else
             let personnelId := castObjectId personnelId in
             match List.find
                     (fun p => String.eqb (dp_id p) personnelId
                               && mem_str areaId (dp_areasAssigned p) && dp_isActive p)
                     (personnel (working t)) with
             | None =>
                 abortTransaction ;;
                 respond {| code := 400;
                            message := "Invalid or unauthorized deliverer for this area" |}
             | Some _ =>
                 if negb (is_oid routeId) then throw "Cast to ObjectId failed" else
                 let routeId := castObjectId routeId in
                 match List.find
                         (fun r => String.eqb (route_id r) routeId
                                   && String.eqb (route_areaId r) areaId
                                   && String.eqb (route_personnelId r) personnelId
                                   && route_isActive r)
                         (routes (working t)) with
                 | None =>
                     abortTransaction ;;
                     respond {| code := 400;
                                message :=
                                  "Invalid or unauthorized route for this area and deliverer" |}
                 | Some _ =>
                     match date with
                     | DateValue day =>
                         let schedule :=
                           {| sched_id := fresh e 0;
                              sched_personnelId := personnelId;
                              sched_date := day;
                              sched_status := "Pending";
                              sched_areaId := Some areaId;
                              sched_routeId := Some routeId;
                              sched_notes := notes |} in
                         try_modify
                           (try_in_session (fun w =>
                              match insertOne sched_id schedule (schedules w) with
                              | Some l => Some (set_schedules l w)
                              | None => None
                              end))
                           "E11000 duplicate key error" ;;
                         let* t := get in
                         let subs := active_in_area areaId (working t) in
                         match map_opt (deliveryItem_of e (sched_id schedule) (working t))
                                 subs with
                         | None => throw "Cannot read properties of null"
                         | Some mk =>
                             let items := with_ids e 1 (fun i f => f i) mk in
                             (if (0 <? length items)%nat then
                                create_with_session e items ;;
                                try_modify
                                  (try_in_session (fun w =>
                                     match insertMany di_id items (deliveryItems w) with
                                     | Some l => Some (set_deliveryItems l w)
                                     | None => None
                                     end))
                                  "E11000 duplicate key error"
                              else ret tt) ;;
                             commitTransaction ;;
                             ret {| code := 201;
                                    message := "Schedule created successfully with delivery items" |}
                         end
                     | _ => throw "DeliverySchedule validation failed: date: Cast to date failed"
                     end
                 end
             end
         end
     | _, _, _, _ =>
         abortTransaction ;;
         respond {| code := 400;
                    message := "Personnel ID, date, area ID, and route ID are required" |}
     end)
    (fun _ => {| code := 500; message := "Error creating schedule" |}).

(** ** Deliverer commission calculator ([processDelivererPayments]) *)

(** The filter of [DeliveryItem.find].  ['schedule.personnelId'] is not a path
    of [DeliveryItemSchema] (an item has [scheduleId]), so no stored item has
    a value there: under [strictQuery] the clause is dropped, otherwise it
    matches no document. *)
Definition delivered_in_period (o : Mongoose) (personnelId : ObjectId)
    (startDate endDate : Date) (i : DeliveryItem) : bool :=
  strictQuery o
  && String.eqb (di_status i) "Delivered"
  && match di_deliveryTime i with
     | Some t => (startDate <=? t) && (t <=? endDate)
     | None => false
     end.

(** [deliveries.reduce((sum, delivery) => sum + (delivery.quantity *
    delivery.publicationId.price * (deliverer.commissionRate / 100)), 0)]. *)
Fixpoint reduce_commission (d : Db) (rate : number) (deliveries : list DeliveryItem)
    (sum : number) : option number :=
  match deliveries with
  | [] => Some sum
  | x :: r =>
      match findById pub_id (di_publicationId x) (publications d) with
      | Some p =>
          reduce_commission d rate r
            (sum + (di_quantity x * pub_price p * (rate / 100)))%Q
      | None => None
      end
  end.

(** A payment before it is stored. *)
Definition newDelivererPayment (month year : Z) (p : DeliveryPersonnel) (amount : number)
    (i : ObjectId) : DelivererPayment :=
  {| dpay_id := i;
     dpay_personnelId := dp_id p;
     dpay_paymentMonth := month;
     dpay_paymentYear := year;
     dpay_amount := amount;
     dpay_commissionRate := dp_commissionRate p;
     dpay_status := "Pending";
     dpay_paymentMethod := "Bank Transfer" |}.

(** [DelivererPayment.findOne({ personnelId, paymentMonth, paymentYear })]. *)
Definition existingPayment (month year : Z) (p : DeliveryPersonnel) (d : Db)
    : option DelivererPayment :=
  List.find
    (fun x => String.eqb (dpay_personnelId x) (dp_id p)
              && (dpay_paymentMonth x =? month) && (dpay_paymentYear x =? year))
    (delivererPayments d).

(** [for (const deliverer of deliverers)], [None] when an iteration throws:
    the cast of the filter of [DeliveryItem.find] fails on an Invalid Date,
    and reading through a [populate]d [publicationId] that is [null] is a
    TypeError. *)
Fixpoint payments_loop (e : Env) (month year : Z) (d : Db)
    (deliverers : list DeliveryPersonnel) (payments : list (ObjectId -> DelivererPayment))
    : option (list (ObjectId -> DelivererPayment)) :=
  match deliverers with
  | [] => Some payments
  | deliverer :: r =>
      match existingPayment month year deliverer d with
      | Some _ => payments_loop e month year d r payments
      | None =>
          match new_Date year (month - 1) 1, new_Date year month 0 with
          | Some startDate, Some endDate =>
              let deliveries :=
                List.filter
                  (delivered_in_period (mongoose e) (dp_id deliverer) startDate endDate)
                  (deliveryItems d) in
              match reduce_commission d (dp_commissionRate deliverer) deliveries 0%Q with
              | Some totalAmount =>
                  payments_loop e month year d r
                    (payments ++ [newDelivererPayment month year deliverer totalAmount])
              | None => None
              end
          | _, _ => None
          end
      end
  end.

(** [DeliveryPersonnel.find({ areasAssigned: { $in: areaIds }, isActive: true })]. *)
Definition deliverers_in (manager : ObjectId) (d : Db) : list DeliveryPersonnel :=
  List.filter
    (fun p => existsb (fun a => mem_str a (areaIds manager d)) (dp_areasAssigned p)
              && dp_isActive p)
    (personnel d).

Definition processDelivererPayments (e : Env) (manager : ObjectId) (month year : Z)
    : Db -> response * Db :=
  transactional
    (let* t := get in
     let d := committed t in
     match payments_loop e month year d (deliverers_in manager d) [] with
     | None =>
         (* the first iteration that gets to its query throws on a period that
            is not valid; with a valid period, only the reduction throws *)
         match new_Date year (month - 1) 1, new_Date year month 0 with
         | Some _, Some _ => throw "Cannot read properties of null"
         | _, _ => throw "Cast to date failed"
         end
     | Some payments =>
         let docs := with_ids e 0 (fun i f => f i) payments in
         (if (0 <? length docs)%nat then
            create_with_session e docs ;;
            try_modify
              (try_in_session (fun w =>
                 match insertMany dpay_id docs (delivererPayments w) with
                 | Some l => Some (set_delivererPayments l w)
                 | None => None
                 end))
              "E11000 duplicate key error"
          else ret tt) ;;
         commitTransaction ;;
         ret {| code := 201;
                message := Z_toString (Z.of_nat (length payments))
                           +:+ " deliverer payments processed successfully" |}
     end)
    handleError.

(** * Vocabulary of the statements *)

(** What makes the store accept the [Payment] document of a request: a
    method of the enumeration, an unused identifier, an unused receipt
    number. *)
Definition payment_accepted (e : Env) (method : string) (d : Db) : Prop :=
  mem_str method payment_methods = true /\
  ~ In (fresh e 0) (map pay_id (payments d)) /\
  ~ In ("RCP" +:+ Z_toString (now e)) (map pay_receiptNumber (payments d)).

(** * A worked scenario

    One area with its manager, one customer with an address there, one
    publication at 50 a copy; used to run the handlers on concrete input. *)

Module Scenario.

Definition oid (suffix : string) : ObjectId := "6650000000000000000000" +:+ suffix.

(** Midnight of a day, by year, month counted from 1, and day of the
    month. *)
Definition day (year month date : Z) : Date := MakeDate (MakeDay year (month - 1) date) 0.

Definition manager := oid "a1".
Definition customer := oid "c1".
Definition area := oid "e1".
Definition publication := oid "b1".
Definition address := oid "d1".
Definition subscription := oid "51".
Definition bill := oid "b0".

Definition env : Env :=
  {| now := 1718000000000;
     fresh := fun n => padStart 24 "0" (Z_toString (Z.of_nat n));
     random := fun n => "R" +:+ Z_toString (Z.of_nat n);
     mongoose := {| strictQuery := false; ignoreUndefined := false; createGuard := false |} |}.

Definition with_mongoose (o : Mongoose) : Env :=
  {| now := now env; fresh := fresh env; random := random env; mongoose := o |}.

Definition no_preferences : Preferences :=
  {| pref_placement := Some "Door"; pref_additionalInstructions := None |}.

Definition the_subscription (quantity : number) (status : string) : Subscription :=
  {| sub_id := subscription;
     sub_userId := customer;
     sub_publicationId := publication;
     sub_quantity := quantity;
     sub_startDate := Some 1717200000000;
     sub_endDate := None;
     sub_status := status;
     sub_addressId := address;
     sub_areaId := Some area;
     sub_deliveryPreferences := no_preferences |}.

(** The store before any subscription exists. *)
Definition empty_db (price : number) : Db :=
  {| areas := [{| area_id := area; area_managers := [manager];
                  area_publications := [publication] |}];
     users := [{| user_id := customer; user_role := "Customer" |};
               {| user_id := manager; user_role := "Manager" |}];
     publications := [{| pub_id := publication; pub_price := price; pub_isActive := true |}];
     addresses := [{| addr_id := address; addr_userId := customer; addr_areaId := Some area;
                      addr_deliveryInstructions := None; addr_isActive := true |}];
     personnel := [];
     routes := [];
     subscriptions := [];
     requests := [];
     schedules := [];
     deliveryItems := [];
     bills := [];
     billItems := [];
     payments := [];
     delivererPayments := [];
     activities := [] |}.

(** The customer holds one subscription of the given quantity and status. *)
Definition db (price quantity : number) (status : string) : Db :=
  set_subscriptions [the_subscription quantity status] (empty_db price).

(** A bill of 100 of the customer, nothing paid yet. *)
Definition the_bill (outstanding : number) (status : string) : Bill :=
  {| bill_id := bill;
     bill_userId := customer;
     bill_billDate := 1717200000000;
     bill_billMonth := 6;
     bill_billYear := 2024;
     bill_totalAmount := 100;
     bill_dueDate := day 2024 7 15;
     bill_status := status;
     bill_areaId := Some area;
     bill_billNumber := "BILL-202406-R0";
     bill_outstandingAmount := outstanding |}.

Definition billed_db : Db :=
  set_bills [the_bill 100 "Unpaid"] (db 50 2 "Active").

(** A deliverer with a commission of 10 percent, a route and a schedule in
    the area, and the delivery item of the subscription on that schedule. *)
Definition deliverer := oid "f1".
Definition route := oid "f2".
Definition schedule := oid "f3".
Definition item := oid "f4".

Definition the_item (status : string) (deliveryTime : option Date) : DeliveryItem :=
  {| di_id := item;
     di_scheduleId := schedule;
     di_subscriptionId := subscription;
     di_addressId := address;
     di_publicationId := publication;
     di_quantity := 2;
     di_status := status;
     di_deliveryNotes := None;
     di_deliveryTime := deliveryTime;
     di_updatedAt := 1717200000000 |}.

Definition staffed_db (quantity : number) : Db :=
  {| areas := areas (db 50 quantity "Active");
     users := users (db 50 quantity "Active");
     publications := publications (db 50 quantity "Active");
     addresses := addresses (db 50 quantity "Active");
     personnel := [{| dp_id := deliverer; dp_userId := oid "f0"; dp_areasAssigned := [area];
                      dp_isActive := true; dp_commissionRate := 10 |}];
     routes := [{| route_id := route; route_personnelId := deliverer; route_areaId := area;
                   route_isActive := true |}];
     subscriptions := subscriptions (db 50 quantity "Active");
     requests := [];
     schedules := [];
     deliveryItems := [];
     bills := [];
     billItems := [];
     payments := [];
     delivererPayments := [];
     activities := [] |}.

Definition delivery_db (status : string) (deliveryTime : option Date) : Db :=
  set_deliveryItems [the_item status deliveryTime]
    (set_schedules
       [{| sched_id := schedule; sched_personnelId := deliverer;
           sched_date := day 2024 6 10; sched_status := "Pending";
           sched_areaId := Some area; sched_routeId := Some route; sched_notes := None |}]
       (staffed_db 2)).

(** A second deliverer of the area, who has delivered nothing, next to the
    first, whose item was delivered on 10 June 2024. *)
Definition deliverer2 := oid "f5".

Definition commission_db : Db :=
  let d := delivery_db "Delivered" (Some 1717999999000) in
  {| areas := areas d; users := users d; publications := publications d;
     addresses := addresses d;
     personnel := personnel d ++
       [{| dp_id := deliverer2; dp_userId := oid "f6"; dp_areasAssigned := [area];
           dp_isActive := true; dp_commissionRate := 10 |}];
     routes := routes d; subscriptions := subscriptions d; requests := requests d;
     schedules := schedules d; deliveryItems := deliveryItems d; bills := bills d;
     billItems := billItems d; payments := payments d;
     delivererPayments := delivererPayments d; activities := activities d |}.

(** The customer submits a request for 2 copies; then the manager rejects
    it. *)
Definition request := fresh env 1.

Definition submitted : Db :=
  snd (createSubscription env customer publication address 2 (Some no_preferences)
         (empty_db 50)).

Definition rejected : Db :=
  snd (handleSubscriptionRequest env manager request (Some "Rejected") None submitted).

Definition approved : Db :=
  snd (handleSubscriptionRequest env manager request (Some "Approved") None submitted).


(** A request to cancel a subscription that is not in the store. *)
Definition cancel_request : ChangeRequest :=
  {| req_id := request;
     req_userId := customer;
     req_requestType := "Cancel";
     req_subscriptionId := Some subscription;
     req_publicationId := None;
     req_newQuantity := None;
     req_newAddressId := None;
     req_deliveryPreferences := {| pref_placement := None; pref_additionalInstructions := None |};
     req_status := Some "Pending";
     req_effectiveDate := 1718604800000;
     req_comments := None;
     req_processedBy := None;
     req_processedDate := None |}.

Definition cancel_gone : Db := set_requests [cancel_request] (empty_db 50).

End Scenario.

(** ** Vocabulary of the billing statements *)

(** The key under which the loop files a subscription, and the key of a bill
    under construction. *)
Definition sub_key (s : Subscription) : string := billKey (sub_userId s) (sub_areaId s).
Definition nb_key (b : NewBill) : string := billKey (nb_userId b) (nb_areaId b).

(** The line of a subscription: its publication, its quantity, the price of
    the publication. *)
Definition line (d : Db) (month year : Z) (s : Subscription) : option NewBillItem :=
  option_map (fun p => newBillItem month year p s)
    (findById pub_id (sub_publicationId s) (publications d)).

Definition with_key (k : string) (s : Subscription) : bool := String.eqb (sub_key s) k.

(** Sum of the [totalPrice] of lines, from 0 in the order of the lines. *)
Definition sum_lines (l : list NewBillItem) : number :=
  fold_left (fun acc it => acc + nbi_totalPrice it)%Q l 0%Q.

Definition sum_totalPrice (l : list BillItem) : number :=
  fold_left (fun acc it => acc + item_totalPrice it)%Q l 0%Q.

(** What the loop maintains, [done] being the subscriptions gone through. *)
Record billing_inv (e : Env) (month year : Z) (d : Db) (done : list Subscription)
    (st : billing_state) : Prop := {
  inv_index : forall k i, st.2 !! k = Some i ->
    exists b, st.1 !! i = Some b /\ nb_key b = k;
  inv_filed : forall i b, st.1 !! i = Some b -> st.2 !! nb_key b = Some i;
  inv_lines : forall i b, st.1 !! i = Some b ->
    map Some (nb_billItems b) = map (line d month year) (List.filter (with_key (nb_key b)) done);
  inv_amounts : forall i b, st.1 !! i = Some b ->
    nb_totalAmount b = sum_lines (nb_billItems b)
    /\ nb_outstandingAmount b = sum_lines (nb_billItems b);
  inv_header : forall i b, st.1 !! i = Some b ->
    nb_billMonth b = month /\ nb_billYear b = year
    /\ nb_dueDate b = new_Date year month 15 /\ nb_status b = "Unpaid"
    /\ nb_billNumber b = billNumber month year (random e i)
    /\ exists s, In s done /\ nb_userId b = sub_userId s /\ nb_areaId b = sub_areaId s;
  inv_covered : forall s, In s done -> exists i, st.2 !! sub_key s = Some i }.

(** The documents a handler added to the bills. *)
Definition new_bills (d d' : Db) : list Bill := skipn (length (bills d)) (bills d').

(** The calendar date of an instant: year, month counted from 1, day. *)
Definition calendar (t : Date) : Z * Z * Z := (getFullYear t, getMonth t + 1, getDate t).

(** The month after [month] of [year]. *)
Definition next_month (year month : Z) : Z * Z :=
  if month =? 12 then (year + 1, 1) else (year, month + 1).

Definition due_date_checked (year month : Z) : bool :=
  match new_Date year month 15 with
  | Some t =>
      let '(y, m, day) := calendar t in
      let '(y', m') := next_month year month in
      (y =? y') && (m =? m') && (day =? 15)
  | None => false
  end.

Definition years_checked : list Z := map (fun n => 1900 + Z.of_nat n) (seq 0 301).
Definition months_checked : list Z := map (fun n => 1 + Z.of_nat n) (seq 0 12).

(** A subscription belongs to the group of a bill: same customer, same area. *)
Definition same_group (b : Bill) (s : Subscription) : bool :=
  String.eqb (sub_userId s) (bill_userId b)
  && match sub_areaId s, bill_areaId b with
     | Some x, Some y => String.eqb x y
     | None, None => true
     | _, _ => false
     end.

(** [BillItem.find({ billId: bill._id })]. *)
Definition items_of_bill (b : Bill) (d : Db) : list BillItem :=
  List.filter (fun it => String.eqb (item_billId it) (bill_id b)) (billItems d).

(** The bill item [it] is the line of the subscription [s] for the period. *)
Definition line_of (d : Db) (month year : Z) (s : Subscription) (it : BillItem) : Prop :=
  exists p,
    findById pub_id (sub_publicationId s) (publications d) = Some p
    /\ item_publicationId it = pub_id p
    /\ item_quantity it = sub_quantity s
    /\ item_unitPrice it = pub_price p
    /\ (item_totalPrice it == item_quantity it * item_unitPrice it)%Q
    /\ new_Date year (month - 1) 1 = Some (period_from (item_deliveryPeriod it))
    /\ new_Date year month 0 = Some (period_to (item_deliveryPeriod it)).

(** Every stored bill item refers to a stored bill. *)
Definition items_refer_to_bills (d : Db) : Prop :=
  forall it, In it (billItems d) -> In (item_billId it) (map bill_id (bills d)).

(** The invariant of a bill: 0 <= outstandingAmount <= totalAmount. *)
Definition bill_invariant (b : Bill) : Prop :=
  (0 <= bill_outstandingAmount b)%Q /\ (bill_outstandingAmount b <= bill_totalAmount b)%Q.

(** No publication has a negative price, no subscription a negative
    quantity. *)
Definition amounts_nonnegative (d : Db) : Prop :=
  (forall p, In p (publications d) -> (0 <= pub_price p)%Q)
  /\ (forall s, In s (subscriptions d) -> (0 <= sub_quantity s)%Q).

(** ** Vocabulary of the scheduling statements *)

Definition new_deliveryItems (d d' : Db) : list DeliveryItem :=
  skipn (length (deliveryItems d)) (deliveryItems d').

(** The delivery item [i] is the one of subscription [s] on schedule [sch]:
    Pending, for the publication and the address of the subscription, with
    its quantity. *)
Definition item_of_subscription (sch : DeliverySchedule) (s : Subscription) (i : DeliveryItem)
    : Prop :=
  di_scheduleId i = sched_id sch
  /\ di_subscriptionId i = sub_id s
  /\ di_publicationId i = sub_publicationId s
  /\ di_addressId i = sub_addressId s
  /\ di_status i = "Pending"
  /\ di_quantity i = sub_quantity s.

(** No stored subscription has the quantity 0.  No handler stores one:
    [createSubscription] takes positive integers only, and an approval takes
    a quantity of 0 in a request for no quantity at all. *)
Definition quantities_set (d : Db) : Prop :=
  forall s, In s (subscriptions d) -> Qeq_bool (sub_quantity s) 0 = false.

(** What a schedule of the area delivers to: the Active subscriptions of
    the area. *)
Definition to_deliver (areaId : ObjectId) (s : Subscription) : bool :=
  String.eqb (sub_status s) "Active" && opt_eqb (sub_areaId s) areaId.

(** Nothing stands in the way of a schedule of the deliverer on the route in
    the area: the area is one of the manager, the deliverer is active and
    assigned to it, the route is an active one of the deliverer in the area,
    the publication and the address of every subscription to deliver are in
    the store, the identifiers drawn are new and pairwise different, and
    where [create()] refuses several documents in a session there is one
    subscription to deliver at most. *)
Definition schedule_clear (e : Env) (manager pid aid rid : ObjectId) (d : Db) : Prop :=
  (exists a, In a (areas d) /\ area_id a = aid /\ In manager (area_managers a))
  /\ (exists p, In p (personnel d) /\ dp_id p = pid /\ In aid (dp_areasAssigned p)
                /\ dp_isActive p = true)
  /\ (exists r, In r (routes d) /\ route_id r = rid /\ route_areaId r = aid
                /\ route_personnelId r = pid /\ route_isActive r = true)
  /\ (forall s, In s (subscriptions d) -> to_deliver aid s = true ->
        In (sub_publicationId s) (map pub_id (publications d))
        /\ In (sub_addressId s) (map addr_id (addresses d)))
  /\ (forall i j, fresh e i = fresh e j -> i = j)
  /\ (forall i, ~ In (fresh e i) (map sched_id (schedules d))
                /\ ~ In (fresh e i) (map di_id (deliveryItems d)))
  /\ (createGuard (mongoose e) = true ->
      (length (List.filter (to_deliver aid) (subscriptions d)) <= 1)%nat).

(** ** Vocabulary of the commission statements *)

Definition new_delivererPayments (d d' : Db) : list DelivererPayment :=
  skipn (length (delivererPayments d)) (delivererPayments d').

(** The deliverer whose schedule a delivery item is on. *)
Definition personnel_of_item (d : Db) (i : DeliveryItem) : option ObjectId :=
  option_map sched_personnelId (findById sched_id (di_scheduleId i) (schedules d)).

(** Midnight of the first and of the last day of a month. *)
Definition first_day (year month : Z) : Date := MakeDate (MakeDay year (month - 1) 1) 0.
Definition last_day (year month : Z) : Date := MakeDate (MakeDay year month 0) 0.

(** The commission the specification states for a deliverer and a period: the
    sum of quantity x price x (commissionRate / 100) over the items of that
    deliverer with status Delivered and a delivery time between the first and
    the last day of the month. *)
Definition commission_due (d : Db) (month year : Z) (p : DeliveryPersonnel) : number :=
  fold_left
    (fun sum i =>
       sum + di_quantity i
             * match findById pub_id (di_publicationId i) (publications d) with
               | Some pub => pub_price pub
               | None => 0
               end
             * (dp_commissionRate p / 100))%Q
    (List.filter
       (fun i =>
          opt_eqb (personnel_of_item d i) (dp_id p)
          && String.eqb (di_status i) "Delivered"
          && match di_deliveryTime i with
             | Some t => (first_day year month <=? t) && (t <=? last_day year month)
             | None => false
             end)
       (deliveryItems d))
    0%Q.

(** ** Vocabulary of the decision statements *)

(** The request [r'] carries the decision recorded in [r]. *)
Definition decided_like (r r' : ChangeRequest) : Prop :=
  req_id r' = req_id r
  /\ req_requestType r' = req_requestType r
  /\ req_status r' = req_status r
  /\ req_processedBy r' = req_processedBy r
  /\ req_processedDate r' = req_processedDate r
  /\ req_effectiveDate r' = req_effectiveDate r.

(** A step of a transaction that does not commit: whatever its outcome, the
    committed store is the one it started from, and it does not answer 200. *)
Definition uncommitted {A : Type} (m : M (S := txn) A) : Prop :=
  forall t,
    match m t with
    | Val _ t' => committed t' = committed t
    | Ret r t' => committed t' = committed t /\ code r <> 200
    | Throw _ t' => committed t' = committed t
    end.

(** The area check of a decision finds an area of the manager for the
    request, or none. *)
Definition area_check (o : Mongoose) (manager : ObjectId) (request : ChangeRequest) (d : Db)
    : outcome (S := txn) (option Area) :=
  request_area o manager request
    (populate pub_id (req_publicationId request) (publications d))
    (populate addr_id (req_newAddressId request) (addresses d))
    (populate sub_id (req_subscriptionId request) (subscriptions d))
    d (startTransaction d).

Definition unauthorized (o : Mongoose) (manager : ObjectId) (request : ChangeRequest) (d : Db)
    : Prop :=
  area_check o manager request d = Val None (startTransaction d).

Definition authorized_in (o : Mongoose) (manager : ObjectId) (request : ChangeRequest) (d : Db)
    (area : Area) : Prop :=
  area_check o manager request d = Val (Some area) (startTransaction d).

(** The deliverer has no payment yet for the period. *)
Definition unpaid (month year : Z) (d : Db) (p : DeliveryPersonnel) : bool :=
  negb (present (existingPayment month year p d)).

(** The payment [x] is the one of deliverer [p] for the period. *)
Definition payment_of (month year : Z) (p : DeliveryPersonnel) (x : DelivererPayment) : Prop :=
  dpay_personnelId x = dp_id p
  /\ dpay_paymentMonth x = month /\ dpay_paymentYear x = year
  /\ dpay_commissionRate x = dp_commissionRate p
  /\ dpay_status x = "Pending".

(** What makes a billing run go through: the customer and the publication of
    every subscription to bill are in the store, and the identifiers and bill
    numbers drawn for the run are new and pairwise different. *)
Definition billing_unobstructed (e : Env) (manager : ObjectId) (month year : Z) (d : Db)
    : Prop :=
  (forall s, In s (billable_subscriptions manager d) ->
     findById user_id (sub_userId s) (users d) <> None
     /\ findById pub_id (sub_publicationId s) (publications d) <> None)
  /\ (forall i j, fresh e i = fresh e j -> i = j)
  /\ (forall i, ~ In (fresh e i) (map bill_id (bills d))
                /\ ~ In (fresh e i) (map item_id (billItems d)))
  /\ (forall i j, random e i = random e j -> i = j)
  /\ (forall i, ~ In (billNumber month year (random e i)) (map bill_billNumber (bills d))).

(** What a billing run of a manager is to bill, in the words of the
    specification: the subscriptions that are Active and lie in an area that
    has the manager among its managers. *)
Definition to_bill (manager : ObjectId) (d : Db) (s : Subscription) : bool :=
  String.eqb (sub_status s) "Active"
  && existsb
       (fun a => mem_str manager (area_managers a) && opt_eqb (sub_areaId s) (area_id a))
       (areas d).

(** The format of a bill number: BILL-, the year, the month on two digits, a
    dash and a suffix. *)
Definition numbered (month year : Z) (suffix number : string) : Prop :=
  number
  = "BILL-" +:+ Z_toString year +:+ padStart 2 "0" (Z_toString month) +:+ "-" +:+ suffix.

(** Nothing stands in the way of a billing run, in terms of the store and of
    the environment alone: the customer and the publication of every
    subscription to bill are stored; the identifiers drawn for the run are
    new and pairwise different, and so are its bill numbers; the period is a
    month of the years 1900 to 2200; and there is one subscription to bill at
    most when Mongoose is of a version that refuses [Model.create] of several
    documents with a session. *)
Definition billing_clear (e : Env) (manager : ObjectId) (month year : Z) (d : Db) : Prop :=
  (forall s, In s (subscriptions d) -> to_bill manager d s = true ->
     In (sub_userId s) (map user_id (users d))
     /\ In (sub_publicationId s) (map pub_id (publications d)))
  /\ (forall i j, fresh e i = fresh e j -> i = j)
  /\ (forall i, ~ In (fresh e i) (map bill_id (bills d))
                /\ ~ In (fresh e i) (map item_id (billItems d)))
  /\ (forall i j, random e i = random e j -> i = j)
  /\ (forall i b, In b (bills d) -> ~ numbered month year (random e i) (bill_billNumber b))
  /\ 1900 <= year <= 2200 /\ 1 <= month <= 12
  /\ (createGuard (mongoose e) = true ->
      (length (List.filter (to_bill manager d) (subscriptions d)) <= 1)%nat).

(** * The other handlers

    The handlers of the three controllers that stand next to the ones above
    and work on the same documents, the middleware in front of them and the
    routes that call them. *)

(** ** Customer controller: modification and cancellation *)

(** [Subscription.findOne({ _id: id, userId: req.user.id })]. *)
Definition find_subscription (user : ObjectId) (id : ObjectId) (d : Db) : option Subscription :=
  List.find (fun s => String.eqb (sub_id s) id && String.eqb (sub_userId s) user)
    (subscriptions d).

(** The cast of an optional path to an [ObjectId], [None] when it fails. *)
Definition cast_opt (o : option string) : option (option ObjectId) :=
  match o with
  | Some a => if is_oid a then Some (Some (castObjectId a)) else None
  | None => Some None
  end.

(** [updateSubscription]: the request it builds has [requestType: 'Modify']. *)
Definition updateSubscription (e : Env) (user : ObjectId) (id : string)
    (quantity : option number) (addressId : option string) : Db -> response * Db :=
  plain
    (if negb (is_oid id) then throw "Cast to ObjectId failed" else
     let id := castObjectId id in
     let* d := get in
     match List.find
             (fun s => String.eqb (sub_id s) id && String.eqb (sub_userId s) user
                       && String.eqb (sub_status s) "Active")
             (subscriptions d) with
     | None => respond {| code := 404; message := "Active subscription not found" |}
     | Some subscription =>
         match cast_opt addressId with
         | None => throw "SubscriptionChangeRequest validation failed"
         | Some newAddressId =>
             let modificationRequest :=
               {| req_id := fresh e 0;
                  req_userId := user;
                  req_requestType := "Modify";
                  req_subscriptionId := Some (sub_id subscription);
                  req_publicationId := None;
                  req_newQuantity := quantity;
                  req_newAddressId := newAddressId;
                  req_deliveryPreferences :=
                    {| pref_placement := None; pref_additionalInstructions := None |};
                  req_status := Some "Pending";
                  req_effectiveDate := now e + sevenDays;
                  req_comments := None;
                  req_processedBy := None;
                  req_processedDate := None |} in
             try_modify (save_new_request modificationRequest) "save failed" ;;
             try_modify (log_activity user "Modification") "save failed" ;;
             ret {| code := 200; message := "Modification request created successfully" |}
         end
     end)
    (fun _ => {| code := 500; message := "Error updating subscription" |}).

(** The request [cancelSubscription] builds. *)
Definition cancellationRequest (e : Env) (user : ObjectId) (subscription : Subscription)
    : ChangeRequest :=
  {| req_id := fresh e 0;
     req_userId := user;
     req_requestType := "Cancel";
     req_subscriptionId := Some (sub_id subscription);
     req_publicationId := None;
     req_newQuantity := None;
     req_newAddressId := None;
     req_deliveryPreferences := {| pref_placement := None; pref_additionalInstructions := None |};
     req_status := Some "Pending";
     req_effectiveDate := now e + sevenDays;
     req_comments := None;
     req_processedBy := None;
     req_processedDate := None |}.

(** [cancelSubscription]. *)
Definition cancelSubscription (e : Env) (user : ObjectId) (id : string)
    : Db -> response * Db :=
  plain
    (if negb (is_oid id) then throw "Cast to ObjectId failed" else
     let id := castObjectId id in
     let* d := get in
     match find_subscription user id d with
     | None => respond {| code := 404; message := "Subscription not found" |}
     | Some subscription =>
         if String.eqb (toLowerCase (sub_status subscription)) "cancelled" then
           respond {| code := 400; message := "Subscription is already cancelled" |}
         else
           try_modify (save_new_request (cancellationRequest e user subscription))
             "save failed" ;;
           try_modify (log_activity user "Cancellation") "save failed" ;;
           ret {| code := 200; message := "Cancellation request created successfully" |}
     end)
    (fun _ => {| code := 500; message := "Error cancelling subscription" |}).

(** ** Customer controller: the details of a bill *)

(** [getBillDetails]: the answer, and the [bill] and the [items] of a 200,
    which carries no message. *)
Definition getBillDetails (user : ObjectId) (id : string) (d : Db)
    : response * option (Bill * list BillItem) :=
  if negb (is_oid id) then
    ({| code := 500; message := "Error fetching bill details" |}, None)
  else
    let id := castObjectId id in
    match find_bill user id d with
    | None => ({| code := 404; message := "Bill not found" |}, None)
    | Some bill =>
        ({| code := 200; message := "" |},
         Some (bill, List.filter (fun it => String.eqb (item_billId it) id) (billItems d)))
    end.

(** ** The collections the handlers above leave out

    [SubscriptionPause], [PaymentReminder] and [RouteAddress] documents, and
    the path [notificationPreferences.email] of the [User] documents, which
    the schema defaults to [true]; they are kept beside the store, which the
    handlers that use them reach as [main]. *)

Record SubscriptionPause := {
  pause_id : ObjectId;
  pause_subscriptionId : ObjectId;
  pause_startDate : Date;
  pause_endDate : Date;
  pause_reason : option string }.

(** A [PaymentReminder]; its [message], free text, is not modelled. *)
Record PaymentReminder := {
  rem_id : ObjectId;
  rem_billId : ObjectId;
  rem_userId : ObjectId;
  rem_reminderDate : Date;
  rem_reminderType : string;
  rem_status : string;
  rem_deliveryMethod : string }.

Record RouteAddress := {
  ra_id : ObjectId;
  ra_routeId : ObjectId;
  ra_addressId : ObjectId;
  ra_sequenceNumber : number }.

Record Store := {
  main : Db;
  pauses : list SubscriptionPause;
  reminders : list PaymentReminder;
  routeAddresses : list RouteAddress;
  emailNotifications : ObjectId -> bool }.

Definition set_main (d : Db) (st : Store) : Store :=
  {| main := d; pauses := pauses st; reminders := reminders st;
     routeAddresses := routeAddresses st; emailNotifications := emailNotifications st |}.

Definition set_pauses (l : list SubscriptionPause) (st : Store) : Store :=
  {| main := main st; pauses := l; reminders := reminders st;
     routeAddresses := routeAddresses st; emailNotifications := emailNotifications st |}.

Definition set_reminders (l : list PaymentReminder) (st : Store) : Store :=
  {| main := main st; pauses := pauses st; reminders := l;
     routeAddresses := routeAddresses st; emailNotifications := emailNotifications st |}.

Definition set_routeAddresses (l : list RouteAddress) (st : Store) : Store :=
  {| main := main st; pauses := pauses st; reminders := reminders st;
     routeAddresses := l; emailNotifications := emailNotifications st |}.

(** A write to the documents of [main]. *)
Definition in_main (f : Db -> option Db) (st : Store) : option Store :=
  match f (main st) with
  | Some d => Some (set_main d st)
  | None => None
  end.

(** [try { body } catch (error) { respond }] without a session, over the
    wider store. *)
Definition attempt (body : M (S := Store) response) (on_error : string -> response)
    (st : Store) : response * Store :=
  match body st with
  | Val r st' => (r, st')
  | Ret r st' => (r, st')
  | Throw e st' => (on_error e, st')
  end.

(** ** Customer controller: pause of a subscription *)

(** [subscription.status = status]. *)
Definition with_status (status : string) (s : Subscription) : Subscription :=
  {| sub_id := sub_id s;
     sub_userId := sub_userId s;
     sub_publicationId := sub_publicationId s;
     sub_quantity := sub_quantity s;
     sub_startDate := sub_startDate s;
     sub_endDate := sub_endDate s;
     sub_status := status;
     sub_addressId := sub_addressId s;
     sub_areaId := sub_areaId s;
     sub_deliveryPreferences := sub_deliveryPreferences s |}.

(** [Subscription.findOne({ _id: subscriptionId, userId: req.user.id, status:
    'Active' })], where [subscriptionId] comes from the body and may be
    [undefined]. *)
Definition find_active_subscription (o : Mongoose) (user : ObjectId)
    (subscriptionId : option ObjectId) (d : Db) : option Subscription :=
  List.find
    (fun s => id_matches o subscriptionId (sub_id s) && String.eqb (sub_userId s) user
              && String.eqb (sub_status s) "Active")
    (subscriptions d).

Definition save_new_pause (p : SubscriptionPause) (st : Store) : option Store :=
  match insertOne pause_id p (pauses st) with
  | Some l => Some (set_pauses l st)
  | None => None
  end.

(** [requestPause]; [startDate] and [endDate] are [new Date(startDate)] and
    [new Date(endDate)], [None] for an Invalid Date.  [subscriptionId],
    [startDate] and [endDate] are required paths of the pause: a save without
    one of them fails. *)
Definition requestPause (e : Env) (user : ObjectId) (subscriptionId : option string)
    (startDate endDate : option Date) (reason : option string)
    : Store -> response * Store :=
  attempt
    (match cast_opt subscriptionId with
     | None => throw "Cast to ObjectId failed"
     | Some subscriptionId =>
         let* st := get in
         match find_active_subscription (mongoose e) user subscriptionId (main st) with
         | None => respond {| code := 404; message := "Active subscription not found" |}
         | Some subscription =>
             match subscriptionId, startDate, endDate with
             | Some subscriptionId, Some startDate, Some endDate =>
                 let pauseRequest :=
                   {| pause_id := fresh e 0;
                      pause_subscriptionId := subscriptionId;
                      pause_startDate := startDate;
                      pause_endDate := endDate;
                      pause_reason := reason |} in
                 try_modify (save_new_pause pauseRequest) "save failed" ;;
                 try_modify (in_main (save_subscription (with_status "Paused" subscription)))
                   "save failed" ;;
                 try_modify (in_main (log_activity user "Pause Request")) "save failed" ;;
                 ret {| code := 200; message := "Pause request created successfully" |}
             | _, _, _ => throw "SubscriptionPause validation failed"
             end
         end
     end)
    (fun _ => {| code := 500; message := "Error requesting pause" |}).

(** ** Manager controller: payment reminders *)

(** [Bill.find({ areaId: { $in: areaIds }, status: { $in: ['Unpaid',
    'Partially Paid'] }, dueDate: { $lt: new Date() } })]. *)
Definition overdue (now : Date) (ids : list ObjectId) (b : Bill) : bool :=
  area_in (bill_areaId b) ids
  && mem_str (bill_status b) ["Unpaid"; "Partially Paid"]
  && (bill_dueDate b <? now).

(** [PaymentReminder.findOne({ billId: bill._id, reminderDate: { $gte: new
    Date(Date.now() - 7 * 24 * 60 * 60 * 1000) } })]. *)
Definition recentReminder (now : Date) (b : Bill) (st : Store) : option PaymentReminder :=
  List.find
    (fun x => String.eqb (rem_billId x) (bill_id b) && (now - sevenDays <=? rem_reminderDate x))
    (reminders st).

(** The reminder pushed for a bill, before it is stored. *)
Definition newReminder (e : Env) (st : Store) (b : Bill) (u : User) (i : ObjectId)
    : PaymentReminder :=
  {| rem_id := i;
     rem_billId := bill_id b;
     rem_userId := user_id u;
     rem_reminderDate := now e;
     rem_reminderType := "First Notice";
     rem_status := "Pending";
     rem_deliveryMethod := if emailNotifications st (user_id u) then "Email" else "Print" |}.

(** [for (const bill of overdueBills)], [None] when reading through the
    [populate]d [userId] throws. *)
Fixpoint reminders_loop (e : Env) (st : Store) (overdueBills : list Bill)
    (acc : list (ObjectId -> PaymentReminder)) : option (list (ObjectId -> PaymentReminder)) :=
  match overdueBills with
  | [] => Some acc
  | bill :: r =>
      match recentReminder (now e) bill st with
      | Some _ => reminders_loop e st r acc
      | None =>
          match findById user_id (bill_userId bill) (users (main st)) with
          | Some u => reminders_loop e st r (acc ++ [newReminder e st bill u])
          | None => None
          end
      end
  end.

(** [Model.create(docs)] without a session: every document is saved on its
    own, the ones the store accepts stay, and the call fails when one was
    refused. *)
Fixpoint create_each {A : Type} (id_of : A -> ObjectId) (ds : list A) (l : list A)
    : list A * bool :=
  match ds with
  | [] => (l, true)
  | x :: r =>
      match insertOne id_of x l with
      | Some l' => create_each id_of r l'
      | None => (fst (create_each id_of r l), false)
      end
  end.

Definition create_reminders (docs : list PaymentReminder) : M (S := Store) unit :=
  fun st =>
    let (l, ok) := create_each rem_id docs (reminders st) in
    if ok then Val tt (set_reminders l st)
    else Throw "E11000 duplicate key error" (set_reminders l st).

Definition create_routeAddresses (docs : list RouteAddress) : M (S := Store) unit :=
  fun st =>
    let (l, ok) := create_each ra_id docs (routeAddresses st) in
    if ok then Val tt (set_routeAddresses l st)
    else Throw "E11000 duplicate key error" (set_routeAddresses l st).

(** [sendPaymentReminders]. *)
Definition sendPaymentReminders (e : Env) (manager : ObjectId) : Store -> response * Store :=
  attempt
    (let* st := get in
     let overdueBills :=
       List.filter (overdue (now e) (areaIds manager (main st))) (bills (main st)) in
     match reminders_loop e st overdueBills [] with
     | None => throw "Cannot read properties of null"
     | Some reminders =>
         (if (0 <? length reminders)%nat then
            create_reminders (with_ids e 0 (fun i f => f i) reminders)
          else ret tt) ;;
         ret {| code := 201;
                message := Z_toString (Z.of_nat (length reminders))
                           +:+ " payment reminders created successfully" |}
     end)
    handleError.

(** ** Manager controller: delivery routes *)

Definition set_routes (l : list DeliveryRoute) (d : Db) : Db :=
  {| areas := areas d; users := users d; publications := publications d;
     addresses := addresses d; personnel := personnel d; routes := l;
     subscriptions := subscriptions d; requests := requests d; schedules := schedules d;
     deliveryItems := deliveryItems d; bills := bills d; billItems := billItems d;
     payments := payments d; delivererPayments := delivererPayments d;
     activities := activities d |}.

(** [index + 1] as a number. *)
Definition position (index : nat) : number := inject_Z (Z.of_nat index + 1).

(** The stops of a route for the entries of [addressIds] that are the address
    of an Active subscription of the area: [addressIds.filter(...).map((addr,
    index) => ...)].  The query casts the strings of [addressIds];
    [validAddressIds.includes] compares them as they are with the rendering
    of the stored identifiers. *)
Definition stops_given (routeId areaId : ObjectId) (addressIds : list (string * option number))
    (d : Db) : list (ObjectId -> RouteAddress) :=
  let subscriptions :=
    List.filter
      (fun s => opt_eqb (sub_areaId s) areaId
                && mem_str (sub_addressId s) (map (fun addr => castObjectId (fst addr)) addressIds)
                && String.eqb (sub_status s) "Active")
      (subscriptions d) in
  let validAddressIds := map sub_addressId subscriptions in
  imap
    (fun index addr i =>
       {| ra_id := i;
          ra_routeId := routeId;
          ra_addressId := castObjectId (fst addr);
          ra_sequenceNumber :=
            match snd addr with
            | Some n => num_or n (position index)
            | None => position index
            end |})
    (List.filter (fun addr => mem_str (fst addr) validAddressIds) addressIds).

(** The stops of a route for all the Active subscriptions of the area:
    [subscriptions.map((sub, index) => ...)], [None] when reading through the
    [populate]d [addressId] throws. *)
Definition stops_of_area (routeId areaId : ObjectId) (d : Db)
    : option (list (ObjectId -> RouteAddress)) :=
  option_map
    (imap (fun index a i =>
             {| ra_id := i; ra_routeId := routeId; ra_addressId := addr_id a;
                ra_sequenceNumber := position index |}))
    (map_opt (fun sub => findById addr_id (sub_addressId sub) (addresses d))
       (active_in_area areaId d)).

(** [createRoute].  An entry of [addressIds] is taken with its [addressId]
    and its [sequenceNumber], if any; [routeName], [routeDescription] and
    [optimizationCriteria] are checked as the schema checks them, and not
    kept. *)
Definition createRoute (e : Env) (manager : ObjectId)
    (personnelId routeName areaId optimizationCriteria : option string)
    (addressIds : list (string * option number)) : Store -> response * Store :=
  attempt
    (match given personnelId, given routeName, given areaId with
     | Some personnelId, Some routeName, Some areaId =>
         if negb (is_oid areaId) then throw "Cast to ObjectId failed" else
         let areaId := castObjectId areaId in
         let* st := get in
         match List.find
                 (fun a => String.eqb (area_id a) areaId && mem_str manager (area_managers a))
                 (areas (main st)) with
         | None =>
             respond {| code := 403;
                        message := "Not authorized to create route for this area" |}
         | Some _ =>
             if negb (is_oid personnelId) then throw "Cast to ObjectId failed" else
             let personnelId := castObjectId personnelId in
             match List.find
                     (fun p => String.eqb (dp_id p) personnelId
                               && mem_str areaId (dp_areasAssigned p) && dp_isActive p)
                     (personnel (main st)) with
             | None =>
                 respond {| code := 400;
                            message := "Invalid or unauthorized deliverer for this area" |}
             | Some _ =>
                 let criteria :=
                   match optimizationCriteria with
                   | Some c => c
                   | None => "Distance"
                   end in
                 if negb (mem_str criteria ["Distance"; "Time"; "Custom"]) then
                   throw "DeliveryRoute validation failed"
                 else
                   let route :=
                     {| route_id := fresh e 0;
                        route_personnelId := personnelId;
                        route_areaId := areaId;
                        route_isActive := true |} in
                   try_modify
                     (in_main (fun d =>
                        match insertOne route_id route (routes d) with
                        | Some l => Some (set_routes l d)
                        | None => None
                        end))
                     "E11000 duplicate key error" ;;
                   let* st := get in
                   let* routeAddresses :=
                     if (0 <? length addressIds)%nat then
                       if negb (forallb (fun addr => is_oid (fst addr)) addressIds) then
                         throw "Cast to ObjectId failed"
                       else ret (stops_given (route_id route) areaId addressIds (main st))
                     else
                       match stops_of_area (route_id route) areaId (main st) with
                       | Some l => ret l
                       | None => throw "Cannot read properties of null"
                       end in
                   (if (0 <? length routeAddresses)%nat then
                      create_routeAddresses (with_ids e 1 (fun i f => f i) routeAddresses)
                    else ret tt) ;;
                   ret {| code := 201; message := "Delivery route created successfully" |}
             end
         end
     | _, _, _ =>
         respond {| code := 400;
                    message := "Personnel ID, route name, and area ID are required" |}
     end)
    handleError.

(** ** Manager controller: the requests to decide *)

(** [areas.flatMap(area => area.publications)]. *)
Definition publicationIds (manager : ObjectId) (d : Db) : list ObjectId :=
  flat_map area_publications (managed_areas manager d).

(** [populate({ path: 'subscriptionId', match: { areaId: { $in: areaIds } }
    })]: [null] when the subscription is missing or in no area of the
    manager. *)
Definition populate_in_areas (ids : list ObjectId) (ref : option ObjectId) (d : Db)
    : option Subscription :=
  match populate sub_id ref (subscriptions d) with
  | Some s => if area_in (sub_areaId s) ids then Some s else None
  | None => None
  end.

(** The filter of [validRequests]. *)
Definition valid_request (manager : ObjectId) (d : Db) (q : ChangeRequest) : bool :=
  let ids := areaIds manager d in
  let subscription := populate_in_areas ids (req_subscriptionId q) d in
  if String.eqb (req_requestType q) "New" then
    let isPublicationInArea :=
      match populate pub_id (req_publicationId q) (publications d) with
      | Some p => mem_str (pub_id p) (publicationIds manager d)
      | None => false
      end in
    let isAddressInArea :=
      match populate addr_id (req_newAddressId q) (addresses d) with
      | Some a => area_in (addr_areaId a) ids
      | None => false
      end in
    isPublicationInArea || isAddressInArea
    || match subscription with
       | Some s => area_in (sub_areaId s) ids
       | None => false
       end
  else present subscription.

(** [getSubscriptionRequests]: the [requests] of its answer. *)
Definition getSubscriptionRequests (manager : ObjectId) (d : Db) : list ChangeRequest :=
  List.filter (valid_request manager d)
    (List.filter (fun q => opt_eqb (req_status q) "Pending") (requests d)).

(** ** Middleware and routes *)

(** [req.user]. *)
Record ReqUser := {
  ru_id : ObjectId;
  ru_role : string;
  ru_deliveryPersonnel : option ObjectId }.

(** What the [authorization] header gives. *)
Inductive Authorization :=
| NoToken                 (* no header, or no token after the scheme *)
| Unverified              (* [jwt.verify] throws *)
| Verified (id : string). (* the [id] of the payload *)

(** [authenticateToken]: the answer it gives itself, or [req.user]. *)
Definition authenticateToken (a : Authorization) (d : Db) : response + ReqUser :=
  match a with
  | NoToken => inl {| code := 401; message := "Access denied. No token provided." |}
  | Unverified => inl {| code := 403; message := "Invalid or expired token." |}
  | Verified id =>
      if negb (is_oid id) then inl {| code := 403; message := "Invalid or expired token." |}
      else
        match findById user_id (castObjectId id) (users d) with
        | None => inl {| code := 401; message := "User not found." |}
        | Some user =>
            let personnel :=
              List.find (fun p => String.eqb (dp_userId p) (user_id user)) (personnel d) in
            inr {| ru_id := user_id user;
                   ru_role := user_role user;
                   ru_deliveryPersonnel := option_map dp_id personnel |}
        end
  end.

(** [authorizeRole(roles)]: the answer it gives itself, or [None] for
    [next()]. *)
Definition authorizeRole (roles : list string) (user : option ReqUser) : option response :=
  match user with
  | Some u =>
      if mem_str (ru_role u) roles then None
      else Some {| code := 403; message := "Access denied. Insufficient permissions." |}
  | None => Some {| code := 403; message := "Access denied. Insufficient permissions." |}
  end.

(** [router.use(authenticateToken, authorizeRole(roles))] in front of a
    handler. *)
Definition router_use (roles : list string) (a : Authorization)
    (handler : ReqUser -> Db -> response * Db) (d : Db) : response * Db :=
  match authenticateToken a d with
  | inl r => (r, d)
  | inr u =>
      match authorizeRole roles (Some u) with
      | Some r => (r, d)
      | None => handler u d
      end
  end.

(** [router.put('/items/:id', delivererController.updateDeliveryStatus)] of
    the deliverer's routes. *)
Definition put_items (e : Env) (a : Authorization) (id : string) (status : string)
    (deliveryNotes : option string) : Db -> response * Db :=
  router_use ["Deliverer"] a
    (fun u => updateDeliveryStatus e (ru_deliveryPersonnel u) id status deliveryNotes).

(** [router.post('/bills/generate', managerController.generateBills)] of the
    manager's routes. *)
Definition post_bills_generate (e : Env) (a : Authorization) (month year : Z)
    : Db -> response * Db :=
  router_use ["Manager"] a (fun u => generateBills e (ru_id u) month year).

(** ** The operations on the store

    The handlers above that write to the store, as one type of requests;
    [perform] runs one, the handlers over [Db] on the documents of
    [main]. *)

Inductive Operation :=
| GenerateBills (manager : ObjectId) (month year : Z)
| MakePayment (user : ObjectId) (billId : string) (amount : option number)
    (paymentMethod : string) (referenceNumber : option string)
| HandleSubscriptionRequest (manager : ObjectId) (id : string)
    (status comments : option string)
| CreateSchedule (manager : ObjectId) (personnelId areaId routeId : option string)
    (date : date_input) (notes : option string)
| ProcessDelivererPayments (manager : ObjectId) (month year : Z)
| UpdateDeliveryStatus (deliveryPersonnel : option ObjectId) (id status : string)
    (deliveryNotes : option string)
| CreateSubscription (user : ObjectId) (publicationId addressId : string)
    (quantity : number) (deliveryPreferences : option Preferences)
| UpdateSubscription (user : ObjectId) (id : string) (quantity : option number)
    (addressId : option string)
| CancelSubscription (user : ObjectId) (id : string)
| RequestPause (user : ObjectId) (subscriptionId : option string)
    (startDate endDate : option Date) (reason : option string)
| SendPaymentReminders (manager : ObjectId)
| CreateRoute (manager : ObjectId)
    (personnelId routeName areaId optimizationCriteria : option string)
    (addressIds : list (string * option number)).

Definition on_main (handler : Db -> response * Db) (st : Store) : response * Store :=
  (fst (handler (main st)), set_main (snd (handler (main st))) st).

Definition perform (e : Env) (op : Operation) : Store -> response * Store :=
  match op with
  | GenerateBills manager month year => on_main (generateBills e manager month year)
  | MakePayment user billId amount paymentMethod referenceNumber =>
      on_main (makePayment e user billId amount paymentMethod referenceNumber)
  | HandleSubscriptionRequest manager id status comments =>
      on_main (handleSubscriptionRequest e manager id status comments)
  | CreateSchedule manager personnelId areaId routeId date notes =>
      on_main (createSchedule e manager personnelId areaId routeId date notes)
  | ProcessDelivererPayments manager month year =>
      on_main (processDelivererPayments e manager month year)
  | UpdateDeliveryStatus deliveryPersonnel id status deliveryNotes =>
      on_main (updateDeliveryStatus e deliveryPersonnel id status deliveryNotes)
  | CreateSubscription user publicationId addressId quantity deliveryPreferences =>
      on_main (createSubscription e user publicationId addressId quantity
                 deliveryPreferences)
  | UpdateSubscription user id quantity addressId =>
      on_main (updateSubscription e user id quantity addressId)
  | CancelSubscription user id => on_main (cancelSubscription e user id)
  | RequestPause user subscriptionId startDate endDate reason =>
      requestPause e user subscriptionId startDate endDate reason
  | SendPaymentReminders manager => sendPaymentReminders e manager
  | CreateRoute manager personnelId routeName areaId optimizationCriteria addressIds =>
      createRoute e manager personnelId routeName areaId optimizationCriteria addressIds
  end.

(** The two operations that write bills. *)
Definition writes_bills (op : Operation) : bool :=
  match op with
  | GenerateBills _ _ _ | MakePayment _ _ _ _ _ => true
  | _ => false
  end.

(** A payment, if the operation is one, is of a positive amount. *)
Definition pays_positive (op : Operation) : Prop :=
  match op with
  | MakePayment _ _ (Some amount) _ _ => (0 < amount)%Q
  | _ => True
  end.

(** ** Vocabulary of the further statements *)

(** A step of a transaction that never answers with the code [c], and whose
    value, when it completes, satisfies [ok]. *)
Definition answers_other {A : Type} (c : Z) (ok : A -> Prop) (m : M (S := txn) A) : Prop :=
  forall t,
    match m t with
    | Val a _ => ok a
    | Ret r _ => code r <> c
    | Throw _ _ => True
    end.

(** The documents a handler added to the bill items. *)
Definition new_billItems (d d' : Db) : list BillItem :=
  skipn (length (billItems d)) (billItems d').

(** The first day of [month] of [year] is [new Date(year, month - 1, 1)],
    the day after [new Date(year, month, 0)] is the first day of the month
    after, and the second date is not before the first. *)
Definition period_checked (year month : Z) : bool :=
  match new_Date year (month - 1) 1, new_Date year month 0 with
  | Some from, Some to =>
      let '(y, m, day) := calendar from in
      let '(y1, m1, day1) := calendar (to + msPerDay) in
      let '(y', m') := next_month year month in
      (y =? year) && (m =? month) && (day =? 1)
      && (y1 =? y') && (m1 =? m') && (day1 =? 1)
      && (from <=? to)
  | _, _ => false
  end.

(** What lets a route creation through its checks: well formed identifiers,
    an area of the manager, an active deliverer assigned to it, a criterion
    of the schema when one is given, and an unused identifier for the
    route.  [pid] and [aid] are the strings of the body. *)
Definition route_admitted (e : Env) (manager : ObjectId) (pid aid : string)
    (criteria : option string) (d : Db) : Prop :=
  is_oid aid = true /\ is_oid pid = true
  /\ (exists a, In a (areas d) /\ area_id a = castObjectId aid
                /\ In manager (area_managers a))
  /\ (exists p, In p (personnel d) /\ dp_id p = castObjectId pid
                /\ In (castObjectId aid) (dp_areasAssigned p)
                /\ dp_isActive p = true)
  /\ (forall c, criteria = Some c -> In c ["Distance"; "Time"; "Custom"])
  /\ ~ In (fresh e 0) (map route_id (routes d)).

(** Two reminders for one bill are more than seven days apart. *)
Definition apart (x y : PaymentReminder) : Prop :=
  rem_billId x = rem_billId y ->
  sevenDays < Z.abs (rem_reminderDate x - rem_reminderDate y).

Definition reminders_spaced (l : list PaymentReminder) : Prop := ForallOrdPairs apart l.

(** The reminder [x] is the one a run at [now e] pushes for the bill [b]. *)
Definition reminder_of (e : Env) (b : Bill) (x : PaymentReminder) : Prop :=
  rem_billId x = bill_id b
  /\ rem_userId x = bill_userId b
  /\ rem_reminderDate x = now e
  /\ rem_reminderType x = "First Notice"
  /\ rem_status x = "Pending".

(** The bill has no reminder of the last seven days. *)
Definition unreminded (now : Date) (st : Store) (b : Bill) : bool :=
  negb (present (recentReminder now b st)).

(** ** A second scenario

    The store of the first scenario with the collections beside it, empty;
    every user is notified by e-mail. *)

Module Desk.

Definition store (d : Db) : Store :=
  {| main := d; pauses := []; reminders := []; routeAddresses := [];
     emailNotifications := fun _ => true |}.

(** The deliverer of the first scenario as a user, next to the customer and
    the manager, the delivery item of the subscription still Pending. *)
Definition deliverer_user := Scenario.oid "f0".

Definition delivery_db : Db :=
  let d := Scenario.delivery_db "Pending" None in
  {| areas := areas d;
     users := users d ++ [{| user_id := deliverer_user; user_role := "Deliverer" |}];
     publications := publications d; addresses := addresses d; personnel := personnel d;
     routes := routes d; subscriptions := subscriptions d; requests := requests d;
     schedules := schedules d; deliveryItems := deliveryItems d; bills := bills d;
     billItems := billItems d; payments := payments d;
     delivererPayments := delivererPayments d; activities := activities d |}.

(** The customer takes a second subscription, delivered to the same
    address; and the store once that address is gone. *)
Definition second_subscription : Subscription :=
  {| sub_id := Scenario.oid "52";
     sub_userId := Scenario.customer;
     sub_publicationId := Scenario.publication;
     sub_quantity := 1;
     sub_startDate := Some 1717200000000;
     sub_endDate := None;
     sub_status := "Active";
     sub_addressId := Scenario.address;
     sub_areaId := Some Scenario.area;
     sub_deliveryPreferences := Scenario.no_preferences |}.

Definition two_subscriptions : Db :=
  set_subscriptions [Scenario.the_subscription 2 "Active"; second_subscription]
    (Scenario.staffed_db 2).

Definition address_lost : Db :=
  let d := Scenario.staffed_db 2 in
  {| areas := areas d; users := users d; publications := publications d;
     addresses := []; personnel := personnel d; routes := routes d;
     subscriptions := subscriptions d; requests := requests d; schedules := schedules d;
     deliveryItems := deliveryItems d; bills := bills d; billItems := billItems d;
     payments := payments d; delivererPayments := delivererPayments d;
     activities := activities d |}.

(** A second area, of another manager, a second customer and a second
    publication, at 20 a copy; and five subscriptions: two of the customer in
    the area of the manager, with one of the second customer between them,
    one that is Paused, and one in the other area. *)
Definition customer2 := Scenario.oid "c2".
Definition area2 := Scenario.oid "e2".
Definition publication2 := Scenario.oid "b2".
Definition address2 := Scenario.oid "d2".

Definition a_subscription (suffix : string) (user publication address : ObjectId)
    (quantity : number) (status : string) (area : ObjectId) : Subscription :=
  {| sub_id := Scenario.oid suffix;
     sub_userId := user;
     sub_publicationId := publication;
     sub_quantity := quantity;
     sub_startDate := Some 1717200000000;
     sub_endDate := None;
     sub_status := status;
     sub_addressId := address;
     sub_areaId := Some area;
     sub_deliveryPreferences := Scenario.no_preferences |}.

Definition five_subscriptions : list Subscription :=
  [a_subscription "51" Scenario.customer Scenario.publication Scenario.address 2 "Active"
     Scenario.area;
   a_subscription "52" customer2 Scenario.publication address2 1 "Active" Scenario.area;
   a_subscription "53" Scenario.customer publication2 Scenario.address 3 "Active"
     Scenario.area;
   a_subscription "54" Scenario.customer Scenario.publication Scenario.address 1 "Paused"
     Scenario.area;
   a_subscription "55" customer2 publication2 address2 5 "Active" area2].

Definition two_areas : Db :=
  let d := Scenario.staffed_db 2 in
  {| areas := areas d ++ [{| area_id := area2; area_managers := [Scenario.oid "a2"];
                             area_publications := [publication2] |}];
     users := users d ++ [{| user_id := customer2; user_role := "Customer" |}];
     publications := publications d
                     ++ [{| pub_id := publication2; pub_price := 20; pub_isActive := true |}];
     addresses := addresses d
                  ++ [{| addr_id := address2; addr_userId := customer2;
                         addr_areaId := Some Scenario.area; addr_deliveryInstructions := None;
                         addr_isActive := true |}];
     personnel := personnel d; routes := routes d;
     subscriptions := five_subscriptions;
     requests := requests d; schedules := schedules d;
     deliveryItems := deliveryItems d; bills := bills d; billItems := billItems d;
     payments := payments d; delivererPayments := delivererPayments d;
     activities := activities d |}.

(** A New request of the customer that names no subscription. *)
Definition orphan_request : ChangeRequest :=
  {| req_id := Scenario.request;
     req_userId := Scenario.customer;
     req_requestType := "New";
     req_subscriptionId := None;
     req_publicationId := Some Scenario.publication;
     req_newQuantity := Some 2%Q;
     req_newAddressId := Some Scenario.address;
     req_deliveryPreferences := Scenario.no_preferences;
     req_status := Some "Pending";
     req_effectiveDate := 1718604800000;
     req_comments := None;
     req_processedBy := None;
     req_processedDate := None |}.

Definition orphan : Db := set_requests [orphan_request] (Scenario.empty_db 50).

(** The bill of the first scenario, due on 15 July 2024, with a reminder of
    20 July, and the clock on 25 July and on 1 August. *)
Definition reminded : Store :=
  {| main := Scenario.billed_db;
     pauses := [];
     reminders :=
       [{| rem_id := Scenario.oid "a0"; rem_billId := Scenario.bill;
           rem_userId := Scenario.customer; rem_reminderDate := Scenario.day 2024 7 20;
           rem_reminderType := "First Notice"; rem_status := "Pending";
           rem_deliveryMethod := "Email" |}];
     routeAddresses := [];
     emailNotifications := fun _ => true |}.

(** Identifiers and bill numbers drawn from counters. *)
Definition counter (prefix : string) : Env :=
  {| now := now Scenario.env;
     fresh := fun n => prefix +:+ Z_toString (Z.of_nat n);
     random := fun n => prefix +:+ Z_toString (Z.of_nat n);
     mongoose := mongoose Scenario.env |}.

Definition at_time (t : Date) : Env :=
  {| now := t; fresh := fresh Scenario.env; random := random Scenario.env;
     mongoose := mongoose Scenario.env |}.

End Desk.

(** * Properties *)

(** ** Collections *)

Section CollectionFacts.
Context {A : Type} (id_of : A -> ObjectId).

Lemma findById_id i l x : findById id_of i l = Some x -> id_of x = i.
Proof.
  unfold findById. intros H. apply find_some in H as [_ H].
  now apply String.eqb_eq in H.
Qed.

Lemma findById_In i l x : findById id_of i l = Some x -> In x l.
Proof. unfold findById. intros H. now apply find_some in H. Qed.

(** Reading back a saved document through a filter that selects by
    identifier. *)
Lemma find_replaceOne_same (p : A -> bool) l x y :
  List.NoDup (map id_of l) ->
  List.find p l = Some x ->
  id_of y = id_of x ->
  p y = true ->
  List.find p (replaceOne id_of y l) = Some y.
Proof.
  intros Hnd Hf Hid Hp. induction l as [|h r IH]; simpl in *; [discriminate|].
  inversion Hnd as [|? ? Hnotin Hnd']; subst.
  destruct (p h) eqn:Eh.
  - inversion Hf; subst h. rewrite Hid, String.eqb_refl. simpl. now rewrite Hp.
  - destruct (String.eqb (id_of h) (id_of y)) eqn:E.
    + exfalso. apply String.eqb_eq in E. apply Hnotin.
      apply find_some in Hf as [Hin _]. rewrite E, Hid. now apply in_map.
    + simpl. rewrite Eh. now apply IH.
Qed.

(** The other documents are left as they were. *)
Lemma In_replaceOne y l z :
  In z (replaceOne id_of y l) -> z = y \/ In z l.
Proof.
  induction l as [|h r IH]; simpl; [tauto|].
  destruct (String.eqb (id_of h) (id_of y)); simpl; intuition.
Qed.

Lemma insertOne_app d l l' : insertOne id_of d l = Some l' -> l' = l ++ [d].
Proof. unfold insertOne. destruct (existsb _ l); congruence. Qed.

Lemma insertOne_fresh d l l' :
  insertOne id_of d l = Some l' -> ~ In (id_of d) (map id_of l).
Proof.
  unfold insertOne. destruct (existsb _ l) eqn:E; [discriminate|]. intros _ Hin.
  apply in_map_iff in Hin as (x & Hx & Hin).
  assert (existsb (fun x => String.eqb (id_of x) (id_of d)) l = true) as Ht.
  { apply existsb_exists. exists x. split; [assumption|]. now apply String.eqb_eq. }
  congruence.
Qed.

Lemma insertOne_ok d l :
  ~ In (id_of d) (map id_of l) -> insertOne id_of d l = Some (l ++ [d]).
Proof.
  intros Hn. unfold insertOne. destruct (existsb _ l) eqn:E; [|reflexivity].
  exfalso. apply Hn. apply existsb_exists in E as (x & Hin & Hx).
  apply String.eqb_eq in Hx. rewrite <- Hx. now apply in_map.
Qed.

Lemma insertMany_app ds : forall l l',
  insertMany id_of ds l = Some l' -> l' = l ++ ds.
Proof.
  induction ds as [|d r IH]; simpl; intros l l' H.
  - inversion H. now rewrite app_nil_r.
  - destruct (insertOne id_of d l) as [l1|] eqn:E; [|discriminate].
    apply insertOne_app in E. subst l1. apply IH in H. now rewrite <- app_assoc in H.
Qed.

Lemma insertMany_ok ds : forall l,
  List.NoDup (map id_of ds) ->
  (forall x, In x ds -> ~ In (id_of x) (map id_of l)) ->
  insertMany id_of ds l = Some (l ++ ds).
Proof.
  induction ds as [|d r IH]; simpl; intros l Hnd Hfresh.
  - now rewrite app_nil_r.
  - inversion Hnd as [|? ? Hd Hnd']; subst.
    rewrite insertOne_ok by (apply Hfresh; now left).
    rewrite IH; [now rewrite <- app_assoc|assumption|].
    intros x Hx Hin. rewrite map_app in Hin. apply in_app_or in Hin as [Hin|Hin].
    + apply (Hfresh x); [now right|assumption].
    + simpl in Hin. destruct Hin as [Heq|[]]. apply Hd. rewrite Heq. now apply in_map.
Qed.
End CollectionFacts.

Lemma find_none_all {A} (p : A -> bool) l :
  (forall x, In x l -> p x = false) -> List.find p l = None.
Proof.
  induction l as [|x r IH]; simpl; intros H; [reflexivity|].
  rewrite (H x) by now left. apply IH. intros y Hy. apply H. now right.
Qed.

Lemma mem_str_In x l : mem_str x l = true <-> In x l.
Proof.
  unfold mem_str. rewrite existsb_exists. split.
  - intros (y & Hin & Hy). apply String.eqb_eq in Hy. now subst.
  - intros Hin. exists x. split; [assumption|apply String.eqb_refl].
Qed.


(** ** Payment reconciler *)

Lemma Math_max_0 (x : number) : (Math_max 0 x == Qmax 0 x)%Q.
Proof.
  unfold Math_max. destruct (Qle_bool 0 x) eqn:E.
  - apply Qle_bool_iff in E. symmetry. now apply Q.max_r.
  - symmetry. apply Q.max_l. apply Qnot_lt_le. intros H.
    apply Qlt_le_weak, Qle_bool_iff in H. congruence.
Qed.

Lemma Math_max_0_cases (x : number) :
  ((0 <= x)%Q /\ Math_max 0 x = x) \/ ((x < 0)%Q /\ Math_max 0 x = 0%Q).
Proof.
  unfold Math_max. destruct (Qle_bool 0 x) eqn:E.
  - left. split; [now apply Qle_bool_iff|reflexivity].
  - right. split; [|reflexivity]. apply Qnot_le_lt. intros H.
    apply Qle_bool_iff in H. congruence.
Qed.

Lemma pay_bill_status amount b :
  (bill_status (pay_bill amount b) = "Paid"
   <-> (bill_outstandingAmount (pay_bill amount b) == 0)%Q)
  /\ (~ (bill_outstandingAmount (pay_bill amount b) == 0)%Q
      -> bill_status (pay_bill amount b) = "Partially Paid").
Proof.
  unfold pay_bill; simpl.
  destruct (Qeq_bool (Math_max 0 (bill_outstandingAmount b - amount)) 0) eqn:E.
  - apply Qeq_bool_iff in E. split; [tauto|]. intros H. contradiction.
  - split; [|reflexivity]. split; [discriminate|].
    intros H. apply Qeq_bool_iff in H. congruence.
Qed.

Lemma save_new_payment_ok e method d p :
  payment_accepted e method d ->
  pay_id p = fresh e 0 ->
  pay_paymentMethod p = method ->
  pay_receiptNumber p = "RCP" +:+ Z_toString (now e) ->
  save_new_payment p d = Some (set_payments (payments d ++ [p]) d).
Proof.
  intros (Hm & Hid & Hrc) Ei Em Er. unfold save_new_payment.
  rewrite Em, Hm. simpl.
  destruct (existsb _ (payments d)) eqn:Ex.
  - exfalso. apply Hrc. apply existsb_exists in Ex as (x & Hin & Hx).
    apply String.eqb_eq in Hx. rewrite Er in Hx. rewrite <- Hx. now apply in_map.
  - simpl. rewrite insertOne_ok; [reflexivity|]. now rewrite Ei.
Qed.

(** C4.  A payment that the store accepts, whatever its amount, is answered
    with 201 and leaves the bill with an outstanding amount of max(0, old
    outstanding - amount); the status is Paid exactly when that amount is 0
    and Partially Paid otherwise.  An amount above the outstanding amount is
    accepted like any other: the bill goes to 0 and Paid, and the total of the
    bill and the other bills are untouched, so the surplus is kept nowhere. *)
Theorem makePayment_reconciles e user billId amount method ref d b :
  List.NoDup (map bill_id (bills d)) ->
  is_oid billId = true ->
  find_bill user (castObjectId billId) d = Some b ->
  (0 < bill_outstandingAmount b)%Q ->
  payment_accepted e method d ->
  exists d' b',
    makePayment e user billId (Some amount) method ref d
      = ({| code := 201; message := "Payment processed successfully" |}, d')
    /\ find_bill user (castObjectId billId) d' = Some b'
    /\ (bill_outstandingAmount b' == Qmax 0 (bill_outstandingAmount b - amount))%Q
    /\ (bill_status b' = "Paid" <-> (bill_outstandingAmount b' == 0)%Q)
    /\ (~ (bill_outstandingAmount b' == 0)%Q -> bill_status b' = "Partially Paid")
    /\ ((bill_outstandingAmount b <= amount)%Q ->
        (bill_outstandingAmount b' == 0)%Q /\ bill_status b' = "Paid")
    /\ bill_totalAmount b' = bill_totalAmount b
    /\ (forall x, In x (bills d') -> x = b' \/ In x (bills d)).
Proof.
  intros Hnd Hoid Hfind _ Hacc.
  set (p := {| pay_id := fresh e 0; pay_billId := castObjectId billId; pay_userId := user;
               pay_paymentDate := now e; pay_amount := amount;
               pay_paymentMethod := method; pay_referenceNumber := ref;
               pay_status := "Completed";
               pay_receiptNumber := "RCP" +:+ Z_toString (now e) |}).
  pose proof (save_new_payment_ok e method d p Hacc eq_refl eq_refl eq_refl) as Hsave.
  eexists. exists (pay_bill amount b).
  split.
  { unfold makePayment, plain, bind, get, try_modify, modify, ret.
    rewrite Hoid. cbn [negb]. cbv beta iota zeta. rewrite Hfind. fold p. rewrite Hsave.
    unfold log_activity. simpl mem_str. cbv beta iota. reflexivity. }
  assert (Hb : String.eqb (bill_id b) (castObjectId billId)
               && String.eqb (bill_userId b) user = true).
  { unfold find_bill in Hfind. now apply find_some in Hfind. }
  split.
  { unfold find_bill in *. simpl.
    apply find_replaceOne_same with (x := b); try assumption; reflexivity. }
  split; [apply Math_max_0|].
  destruct (pay_bill_status amount b) as [Hiff Helse].
  split; [exact Hiff|]. split; [exact Helse|].
  split.
  { intros Hle.
    assert ((bill_outstandingAmount (pay_bill amount b) == 0)%Q) as H0.
    { simpl. destruct (Math_max_0_cases (bill_outstandingAmount b - amount)) as [[H1 H2]|[H1 H2]];
        rewrite H2; lra. }
    split; [exact H0|now apply Hiff]. }
  split; [reflexivity|].
  simpl. intros x Hin. now apply In_replaceOne in Hin.
Qed.

Lemma makePayment_reconciles_witness :
  exists d' b',
    makePayment Scenario.env Scenario.customer Scenario.bill (Some 150%Q) "UPI" None
      Scenario.billed_db
      = ({| code := 201; message := "Payment processed successfully" |}, d')
    /\ find_bill Scenario.customer Scenario.bill d' = Some b'
    /\ (bill_outstandingAmount b' == 0)%Q
    /\ bill_status b' = "Paid".
Proof.
  destruct (makePayment_reconciles Scenario.env Scenario.customer Scenario.bill 150%Q "UPI"
              None Scenario.billed_db (Scenario.the_bill 100 "Unpaid"))
    as (d' & b' & Hrun & Hfind & _ & _ & _ & Hover & _).
  - simpl. constructor; [intros []|constructor].
  - reflexivity.
  - reflexivity.
  - reflexivity.
  - split; [reflexivity|]. split; simpl; tauto.
  - exists d', b'. split; [exact Hrun|]. split; [exact Hfind|].
    apply Hover. simpl. discriminate.
Defined.

(** ** Delivery status updates *)

(** The claim of C10 fails: an item that is Delivered is set to Failed by the
    next update of its deliverer. *)
Lemma updateDeliveryStatus_overwrites_terminal :
  exists d',
    option_map di_status
      (findById di_id Scenario.item
         (deliveryItems (Scenario.delivery_db "Delivered" (Some 1717999999000))))
    = Some "Delivered"
    /\ updateDeliveryStatus Scenario.env (Some Scenario.deliverer) Scenario.item "Failed" None
         (Scenario.delivery_db "Delivered" (Some 1717999999000))
       = ({| code := 200; message := "Delivery status updated successfully" |}, d')
    /\ option_map di_status (findById di_id Scenario.item (deliveryItems d')) = Some "Failed".
Proof. eexists. split; [reflexivity|]. split; reflexivity. Qed.

(** C10, amended.  An update is accepted only towards Delivered, Failed or
    Skipped, and an accepted update stores the requested status whatever the
    status of the item was, Pending or not; the other items are untouched, a
    refused update changes nothing, and no item is put back to Pending. *)
Theorem updateDeliveryStatus_sets_status e dp id status notes d r d' :
  List.NoDup (map di_id (deliveryItems d)) ->
  updateDeliveryStatus e dp id status notes d = (r, d') ->
  (code r = 200 ->
   In status ["Delivered"; "Failed"; "Skipped"]
   /\ exists i i',
        findById di_id (castObjectId id) (deliveryItems d) = Some i
        /\ findById di_id (castObjectId id) (deliveryItems d') = Some i'
        /\ di_status i' = status
        /\ forall x, In x (deliveryItems d') -> x = i' \/ In x (deliveryItems d))
  /\ (code r <> 200 -> d' = d)
  /\ (forall x, In x (deliveryItems d') -> di_status x = "Pending" -> In x (deliveryItems d)).
Proof.
  intros Hnd. unfold updateDeliveryStatus, plain, bind, get, modify, ret, respond, throw.
  destruct (mem_str status ["Delivered"; "Failed"; "Skipped"]) eqn:Hst; cbn [negb];
    [|intros [= <- <-]; simpl; intuition discriminate].
  destruct (is_oid id) eqn:Hid; cbn [negb]; cbv zeta;
    [|intros [= <- <-]; simpl; intuition discriminate].
  destruct (findById di_id (castObjectId id) (deliveryItems d)) as [item|] eqn:Hitem;
    [|intros [= <- <-]; simpl; intuition discriminate].
  destruct (List.find _ (schedules d)) as [sch|];
    [|intros [= <- <-]; simpl; intuition discriminate].
  intros [= <- <-]. simpl deliveryItems.
  set (item' := set_delivery_status e status notes item).
  assert (Hin : In status ["Delivered"; "Failed"; "Skipped"]) by now apply mem_str_In.
  split; [|split].
  - intros _. split; [exact Hin|]. exists item, item'. split; [reflexivity|].
    split; [|split; [reflexivity|intros x; apply In_replaceOne]].
    unfold findById in *. apply find_replaceOne_same with (x := item); try assumption.
    + reflexivity.
    + simpl. apply find_some in Hitem. tauto.
  - simpl. congruence.
  - intros x Hx Hp. apply In_replaceOne in Hx as [->|Hx]; [|assumption].
    exfalso. simpl in Hp. rewrite Hp in Hin. simpl in Hin.
    intuition discriminate.
Qed.

Lemma updateDeliveryStatus_sets_status_witness :
  exists d' i',
    updateDeliveryStatus Scenario.env (Some Scenario.deliverer) Scenario.item "Delivered" None
      (Scenario.delivery_db "Pending" None)
      = ({| code := 200; message := "Delivery status updated successfully" |}, d')
    /\ findById di_id Scenario.item (deliveryItems d') = Some i'
    /\ di_status i' = "Delivered".
Proof.
  pose (res := updateDeliveryStatus Scenario.env (Some Scenario.deliverer) Scenario.item
                 "Delivered" None (Scenario.delivery_db "Pending" None)).
  destruct (updateDeliveryStatus_sets_status Scenario.env (Some Scenario.deliverer)
              Scenario.item "Delivered" None (Scenario.delivery_db "Pending" None)
              (fst res) (snd res)) as (Hok & _ & _).
  - simpl. constructor; [intros []|constructor].
  - apply surjective_pairing.
  - destruct (Hok eq_refl) as (_ & i & i' & _ & Hf & Hs & _).
    exists (snd res), i'. split; [reflexivity|]. split; assumption.
Defined.

(** ** Billing generator *)

Lemma charge_key it b : nb_key (charge it b) = nb_key b.
Proof. reflexivity. Qed.

Lemma sum_lines_snoc l it : sum_lines (l ++ [it]) = (sum_lines l + nbi_totalPrice it)%Q.
Proof. unfold sum_lines. now rewrite fold_left_app. Qed.

Lemma filter_snoc {A} (p : A -> bool) l x :
  List.filter p (l ++ [x]) = List.filter p l ++ (if p x then [x] else []).
Proof. rewrite List.filter_app. simpl. now destruct (p x). Qed.

Lemma billing_inv_init e month year d : billing_inv e month year d [] ([], ∅).
Proof.
  split; simpl; intros; try discriminate; try contradiction.
Qed.

(** What one iteration does, read off [bill_step]. *)
Lemma bill_step_cases e month year d bs (m : gmap string nat) s st' :
  bill_step e month year d (bs, m) s = Some st' ->
  exists it, line d month year s = Some it /\
    match m !! sub_key s with
    | Some i => st' = (alter (charge it) i bs, m)
    | None =>
        st' = (bs ++ [charge it (newBill e month year (length bs) s)],
               <[sub_key s := length bs]> m)
    end.
Proof.
  unfold bill_step, line.
  destruct (findById user_id (sub_userId s) (users d)) as [u|] eqn:Eu; [|discriminate].
  destruct (findById pub_id (sub_publicationId s) (publications d)) as [p|]; [|discriminate].
  apply findById_id in Eu. rewrite Eu. fold (sub_key s). simpl option_map.
  intros H. exists (newBillItem month year p s). split; [reflexivity|].
  destruct (m !! sub_key s) as [i|]; inversion H; subst; clear H; [reflexivity|].
  f_equal. rewrite <- (Nat.add_0_r (length bs)) at 1. now rewrite alter_app_r.
Qed.

Lemma billing_inv_step e month year d done st s st' :
  billing_inv e month year d done st ->
  bill_step e month year d st s = Some st' ->
  billing_inv e month year d (done ++ [s]) st'.
Proof.
  destruct st as [bs m]. intros [Hidx Hfiled Hlines Hamt Hhead Hcov] Hstep. simpl in *.
  apply bill_step_cases in Hstep as (it & Hit & Hst).
  destruct (m !! sub_key s) as [i0|] eqn:Em; subst st'.
  - (* the bill of the group exists *)
    destruct (Hidx _ _ Em) as (b0 & Hb0 & Hk0).
    assert (Hother : forall j b, j <> i0 -> bs !! j = Some b -> with_key (nb_key b) s = false).
    { intros j b Hne Hb. unfold with_key. apply String.eqb_neq. intros Heq.
      apply Hfiled in Hb. rewrite <- Heq, Em in Hb. congruence. }
    split; simpl.
    + intros k i Hk. destruct (Hidx _ _ Hk) as (b & Hb & Hkb).
      destruct (decide (i0 = i)) as [->|Hne].
      * exists (charge it b). rewrite list_lookup_alter_eq, Hb. now split.
      * exists b. now rewrite list_lookup_alter_ne.
    + intros i b. rewrite list_lookup_alter. case_decide as Hi.
      * subst i. rewrite Hb0. intros [= <-]. rewrite charge_key, Hk0. exact Em.
      * apply Hfiled.
    + intros i b. rewrite list_lookup_alter. case_decide as Hi.
      * subst i. rewrite Hb0. intros [= <-]. rewrite charge_key. simpl nb_billItems.
        assert (with_key (nb_key b0) s = true) as Hs
          by (unfold with_key; rewrite Hk0; apply String.eqb_refl).
        rewrite filter_snoc, Hs, !map_app, (Hlines _ _ Hb0). simpl. now rewrite Hit.
      * intros Hb. rewrite filter_snoc, (Hother i b) by auto.
        rewrite app_nil_r. eapply Hlines, Hb.
    + intros i b. rewrite list_lookup_alter. case_decide as Hi.
      * subst i. rewrite Hb0. intros [= <-]. simpl. rewrite sum_lines_snoc.
        destruct (Hamt _ _ Hb0) as [-> ->]. now split.
      * apply Hamt.
    + intros i b. rewrite list_lookup_alter. case_decide as Hi.
      * subst i. rewrite Hb0. intros [= <-]. simpl.
        destruct (Hhead _ _ Hb0) as (? & ? & ? & ? & ? & s0 & Hin & ? & ?).
        repeat (split; [assumption|]). exists s0. rewrite in_app_iff. tauto.
      * intros Hb. destruct (Hhead _ _ Hb) as (? & ? & ? & ? & ? & s0 & Hin & ? & ?).
        repeat (split; [assumption|]). exists s0. rewrite in_app_iff. tauto.
    + intros s1 Hin. apply in_app_or in Hin as [Hin|[<-|[]]]; [now apply Hcov|eauto].
  - (* a new bill is opened *)
    assert (Hold : forall j b, bs !! j = Some b -> with_key (nb_key b) s = false).
    { intros j b Hb. unfold with_key. apply String.eqb_neq. intros Heq.
      apply Hfiled in Hb. rewrite <- Heq, Em in Hb. discriminate. }
    assert (Hnone : List.filter (with_key (sub_key s)) done = []).
    { destruct (List.filter (with_key (sub_key s)) done) as [|s1 r] eqn:Ef; [reflexivity|].
      assert (In s1 (List.filter (with_key (sub_key s)) done)) as Hin by (rewrite Ef; now left).
      apply filter_In in Hin as [Hin Hk]. apply String.eqb_eq in Hk.
      destruct (Hcov _ Hin) as [i Hi]. rewrite Hk, Em in Hi. discriminate. }
    split; simpl.
    + intros k i. rewrite lookup_insert. case_decide as Hk.
      * intros [= <-]. eexists. rewrite list_lookup_middle by reflexivity.
        split; [reflexivity|]. now rewrite charge_key.
      * intros Hi. destruct (Hidx _ _ Hi) as (b & Hb & Hkb).
        exists b. split; [now apply lookup_app_l_Some|assumption].
    + intros i b Hb. apply lookup_snoc_Some in Hb as [[Hlt Hb]|[-> <-]].
      * rewrite lookup_insert_ne; [now apply Hfiled|].
        intros Heq. apply Hfiled in Hb. rewrite <- Heq, Em in Hb. discriminate.
      * rewrite charge_key. apply lookup_insert_eq.
    + intros i b Hb. apply lookup_snoc_Some in Hb as [[Hlt Hb]|[-> <-]].
      * rewrite filter_snoc, (Hold i b) by auto. rewrite app_nil_r. eapply Hlines, Hb.
      * rewrite charge_key. change (nb_key (newBill e month year (length bs) s)) with (sub_key s).
        assert (with_key (sub_key s) s = true) as Hs by apply String.eqb_refl.
        rewrite filter_snoc, Hnone, Hs. simpl. now rewrite Hit.
    + intros i b Hb. apply lookup_snoc_Some in Hb as [[Hlt Hb]|[-> <-]]; [eapply Hamt, Hb|].
      now split.
    + intros i b Hb. apply lookup_snoc_Some in Hb as [[Hlt Hb]|[-> <-]].
      * destruct (Hhead _ _ Hb) as (? & ? & ? & ? & ? & s0 & Hin & ? & ?).
        repeat (split; [assumption|]). exists s0. rewrite in_app_iff. tauto.
      * simpl. repeat (split; [reflexivity|]). exists s. rewrite in_app_iff. simpl. tauto.
    + intros s1 Hin. apply in_app_or in Hin as [Hin|[<-|[]]].
      * destruct (Hcov _ Hin) as [i Hi]. exists i. rewrite lookup_insert_ne; [assumption|].
        intros Heq. rewrite <- Heq, Em in Hi. discriminate.
      * exists (length bs). apply lookup_insert_eq.
Qed.

Lemma billing_inv_loop e month year d subs : forall done st st',
  billing_inv e month year d done st ->
  bill_loop e month year d st subs = Some st' ->
  billing_inv e month year d (done ++ subs) st'.
Proof.
  induction subs as [|s r IH]; simpl; intros done st st' Hinv Hloop.
  - inversion Hloop; subst. now rewrite app_nil_r.
  - destruct (bill_step e month year d st s) as [st1|] eqn:Hs; [|discriminate].
    replace (done ++ s :: r) with ((done ++ [s]) ++ r) by now rewrite <- app_assoc.
    eapply IH; [|exact Hloop]. eapply billing_inv_step; eassumption.
Qed.

Lemma append_inj_length (s1 : string) : forall s2 t1 t2,
  String.length s1 = String.length s2 ->
  s1 +:+ t1 = s2 +:+ t2 -> s1 = s2 /\ t1 = t2.
Proof.
  induction s1 as [|c s1 IH]; intros [|c2 s2] t1 t2 Hlen Heq; simpl in *; try discriminate.
  - now split.
  - inversion Heq; subst. destruct (IH s2 t1 t2) as [-> ->]; [now inversion Hlen|assumption|].
    now split.
Qed.

Lemma is_oid_length s : is_oid s = true -> String.length s = 24%nat.
Proof. unfold is_oid. intros H. apply andb_prop in H as [H _]. now apply Nat.eqb_eq. Qed.

(** Two keys are equal only for the same customer and the same printed area:
    the customer's identifier has a fixed width. *)
Lemma billKey_inj u1 a1 u2 a2 :
  is_oid u1 = true -> is_oid u2 = true ->
  billKey u1 a1 = billKey u2 a2 -> u1 = u2 /\ print_areaId a1 = print_areaId a2.
Proof.
  intros H1 H2 Heq. unfold billKey in Heq.
  apply append_inj_length in Heq as [Hu Hr].
  - split; [assumption|]. simpl in Hr. now inversion Hr.
  - apply is_oid_length in H1, H2. congruence.
Qed.

Lemma insert_bills_app bs : forall l l',
  insert_bills bs l = Some l' -> l' = l ++ bs.
Proof.
  induction bs as [|b r IH]; simpl; intros l l' H.
  - inversion H. now rewrite app_nil_r.
  - destruct (existsb _ l); [discriminate|].
    destruct (insertOne bill_id b l) as [l1|] eqn:E; [|discriminate].
    apply insertOne_app in E. subst l1. apply IH in H. now rewrite <- app_assoc in H.
Qed.

Lemma insert_bills_fresh bs : forall l l',
  insert_bills bs l = Some l' ->
  List.NoDup (map bill_id bs) /\ forall b, In b bs -> ~ In (bill_id b) (map bill_id l).
Proof.
  induction bs as [|b r IH]; simpl; intros l l' H.
  - split; [constructor|tauto].
  - destruct (existsb _ l); [discriminate|].
    destruct (insertOne bill_id b l) as [l1|] eqn:E; [|discriminate].
    pose proof (insertOne_fresh _ _ _ _ E) as Hb.
    apply insertOne_app in E. subst l1. apply IH in H as [Hnd Hfr].
    assert (Hr : forall x, In x r -> ~ In (bill_id x) (map bill_id l) /\ bill_id x <> bill_id b).
    { intros x Hx. specialize (Hfr x Hx). rewrite map_app, in_app_iff in Hfr. simpl in Hfr.
      split; [tauto|]. intros Heq. apply Hfr. right. left. now symmetry. }
    split.
    + constructor; [|assumption]. intros Hin. apply in_map_iff in Hin as (x & Hx & Hin).
      apply (Hr x Hin). assumption.
    + intros x [<-|Hx]; [assumption|]. now apply Hr.
Qed.

Lemma with_ids_lookup {A B} e (mk : ObjectId -> A -> B) l : forall k i,
  with_ids e k mk l !! i = mk (fresh e (k + i)) <$> l !! i.
Proof.
  induction l as [|x r IH]; intros k [|i]; simpl; try reflexivity.
  - now rewrite Nat.add_0_r.
  - rewrite IH. now rewrite Nat.add_succ_r.
Qed.

Lemma with_ids_Forall2 {A B} e (mk : ObjectId -> A -> B) l : forall k,
  List.Forall2 (fun x y => exists i, y = mk i x) l (with_ids e k mk l).
Proof.
  induction l as [|x r IH]; intros k; simpl; constructor; [eexists; reflexivity|apply IH].
Qed.

Lemma all_cast_with_ids {A B} e (mk : ObjectId -> A -> option B) (mk' : ObjectId -> A -> B) l :
  (forall i x, In x l -> mk i x = Some (mk' i x)) ->
  forall k, all_cast (with_ids e k mk l) = Some (with_ids e k mk' l).
Proof.
  induction l as [|x r IH]; intros H k; simpl; [reflexivity|].
  rewrite (H _ x (or_introl eq_refl)), IH; [reflexivity|]. intros i y Hy. apply H. now right.
Qed.

Lemma all_cast_none {A B} e (mk : ObjectId -> A -> option B) l :
  l <> [] -> (forall i x, In x l -> mk i x = None) ->
  forall k, all_cast (with_ids e k mk l) = None.
Proof.
  destruct l as [|a l]; [congruence|]. intros _ H k. simpl.
  now rewrite (H _ a (or_introl eq_refl)).
Qed.

Lemma allBillItems_lines created : forall bs x,
  In x (allBillItems created bs) -> exists nb, In nb bs /\ In (snd x) (nb_billItems nb).
Proof.
  induction created as [|c cr IH]; intros [|b br] x; simpl; try tauto.
  rewrite in_app_iff, in_map_iff. intros [(it & <- & Hit)|Hin].
  - exists b. split; [now left|assumption].
  - destruct (IH _ _ Hin) as (nb & Hnb & Hx). exists nb. split; [now right|assumption].
Qed.

Lemma allBillItems_nonempty created : forall bs,
  length created = length bs -> bs <> [] ->
  (forall nb, In nb bs -> nb_billItems nb <> []) ->
  allBillItems created bs <> [].
Proof.
  destruct created as [|c cr]; intros [|b br] Hlen Hne Hitems; simpl in *; try congruence.
  specialize (Hitems b (or_introl eq_refl)). destruct (nb_billItems b); [congruence|discriminate].
Qed.

Lemma with_ids_length {A B} e (mk : ObjectId -> A -> B) l : forall k,
  length (with_ids e k mk l) = length l.
Proof. induction l as [|x r IH]; intros k; simpl; auto. Qed.

(** The dates of the literals of the loop. *)
Lemma billing_inv_dates e month year d done st i nb :
  billing_inv e month year d done st ->
  st.1 !! i = Some nb ->
  nb_dueDate nb = new_Date year month 15
  /\ nb_billItems nb <> []
  /\ forall it, In it (nb_billItems nb) ->
       nbi_deliveryPeriod it
       = {| np_from := new_Date year (month - 1) 1; np_to := new_Date year month 0 |}.
Proof.
  intros Hinv Hnb.
  destruct (inv_header _ _ _ _ _ _ Hinv i nb Hnb) as (_ & _ & Hdue & _ & _ & s & Hs & Hu & Ha).
  pose proof (inv_lines _ _ _ _ _ _ Hinv i nb Hnb) as Hlines.
  split; [exact Hdue|]. split.
  - intros Hnil. rewrite Hnil in Hlines. simpl in Hlines. symmetry in Hlines.
    apply map_eq_nil in Hlines.
    assert (Hin : In s (List.filter (with_key (nb_key nb)) done)).
    { apply filter_In. split; [exact Hs|]. unfold with_key, sub_key, nb_key.
      rewrite Hu, Ha. apply String.eqb_refl. }
    rewrite Hlines in Hin. contradiction.
  - intros it Hit.
    assert (Hsome : In (Some it) (map Some (nb_billItems nb))) by now apply in_map.
    rewrite Hlines in Hsome. apply in_map_iff in Hsome as (s' & Hs' & _).
    unfold line in Hs'. destruct (findById pub_id _ _) as [p|]; [|discriminate].
    simpl in Hs'. inversion Hs'. reflexivity.
Qed.

(** The outcome of a billing run, read off [generateBills]: a run answered
    201 has stored the bills and the items of the literals of the loop, with
    the three dates of the period, which are valid, and has got through the
    check of [Model.create]. *)
Lemma generateBills_run e manager month year d r d' :
  generateBills e manager month year d = (r, d') ->
  (code r = 201
   /\ exists bs m due from to,
        bill_loop e month year d ([], ∅) (billable_subscriptions manager d) = Some (bs, m)
        /\ bs <> []
        /\ new_Date year month 15 = Some due
        /\ new_Date year (month - 1) 1 = Some from
        /\ new_Date year month 0 = Some to
        /\ (createGuard (mongoose e) = true ->
            (length bs <= 1)%nat
            /\ (length (allBillItems (with_ids e 0 (stored_bill due) bs) bs) <= 1)%nat)
        /\ insert_bills (with_ids e 0 (stored_bill due) bs) (bills d) = Some (bills d')
        /\ d' = set_billItems
                  (billItems d
                   ++ with_ids e (length bs)
                        (fun i x =>
                           stored_billItem {| period_from := from; period_to := to |}
                             i (fst x) (snd x))
                        (allBillItems (with_ids e 0 (stored_bill due) bs) bs))
                  (set_bills (bills d ++ with_ids e 0 (stored_bill due) bs) d))
  \/ (code r <> 201 /\ d' = d).
Proof.
  unfold generateBills, create_with_session, transactional, bind, get, try_modify,
    try_in_session, commitTransaction, modify, ret, respond, throw, startTransaction.
  simpl.
  assert (Hfail : forall x, (handleError x, d) = (r, d') -> code r <> 201 /\ d' = d).
  { intros x H. inversion H; subst. split; [discriminate|reflexivity]. }
  destruct (bill_loop e month year d ([], ∅) (billable_subscriptions manager d))
    as [[bs m]|] eqn:Hloop; [|intros H; right; eapply Hfail, H].
  pose proof (billing_inv_loop _ _ _ _ _ [] _ _ (billing_inv_init e month year d) Hloop)
    as Hinv. simpl in Hinv.
  destruct (length bs =? 0)%nat eqn:Hlen.
  { intros H. inversion H; subst. right. split; [discriminate|reflexivity]. }
  assert (Hne : bs <> []) by (intros ->; discriminate).
  destruct (createGuard (mongoose e) && (1 <? length bs)%nat) eqn:Hg1;
    [intros H; right; eapply Hfail, H|].
  assert (Hdates : forall nb, In nb bs ->
            nb_dueDate nb = new_Date year month 15
            /\ nb_billItems nb <> []
            /\ forall it, In it (nb_billItems nb) ->
                 nbi_deliveryPeriod it
                 = {| np_from := new_Date year (month - 1) 1;
                      np_to := new_Date year month 0 |}).
  { intros nb Hnb. apply list_elem_of_In, list_elem_of_lookup in Hnb as [i Hi].
    eapply (billing_inv_dates _ _ _ _ _ _ i nb Hinv). exact Hi. }
  destruct (new_Date year month 15) as [due|] eqn:Hdue.
  2:{ rewrite all_cast_none; [intros H; right; eapply Hfail, H|exact Hne|].
      intros i nb Hnb. unfold bill_doc. now rewrite (proj1 (Hdates nb Hnb)). }
  rewrite (all_cast_with_ids e bill_doc (stored_bill due)).
  2:{ intros i nb Hnb. unfold bill_doc. now rewrite (proj1 (Hdates nb Hnb)). }
  cbn [committed working].
  destruct (insert_bills (with_ids e 0 (stored_bill due) bs) (bills d)) as [l|] eqn:Hins;
    cbn [committed working billItems set_bills]; [|intros H; right; eapply Hfail, H].
  set (created := with_ids e 0 (stored_bill due) bs) in *.
  destruct (createGuard (mongoose e) && (1 <? length (allBillItems created bs))%nat) eqn:Hg2;
    [intros H; right; eapply Hfail, H|].
  assert (Hitems : forall x, In x (allBillItems created bs) ->
            nbi_deliveryPeriod (snd x)
            = {| np_from := new_Date year (month - 1) 1; np_to := new_Date year month 0 |}).
  { intros x Hx. apply allBillItems_lines in Hx as (nb & Hnb & Hit).
    now apply (proj2 (proj2 (Hdates nb Hnb))). }
  assert (Hsome : allBillItems created bs <> []).
  { apply allBillItems_nonempty; [apply with_ids_length|exact Hne|].
    intros nb Hnb. apply (Hdates nb Hnb). }
  destruct (new_Date year (month - 1) 1) as [from|] eqn:Hfrom.
  2:{ rewrite all_cast_none; [intros H; right; eapply Hfail, H|exact Hsome|].
      intros i x Hx. unfold billItem_doc. now rewrite (Hitems x Hx). }
  destruct (new_Date year month 0) as [to|] eqn:Hto.
  2:{ rewrite all_cast_none; [intros H; right; eapply Hfail, H|exact Hsome|].
      intros i x Hx. unfold billItem_doc. now rewrite (Hitems x Hx). }
  rewrite (all_cast_with_ids e (fun i x => billItem_doc i (fst x) (snd x))
             (fun i x => stored_billItem {| period_from := from; period_to := to |}
                           i (fst x) (snd x))).
  2:{ intros i x Hx. unfold billItem_doc. now rewrite (Hitems x Hx). }
  cbn [committed working billItems set_bills].
  destruct (insertMany item_id _ (billItems d)) as [l2|] eqn:Hitems2;
    cbn [committed working]; [|intros H; right; eapply Hfail, H].
  intros H. inversion H; subst. clear H. left. split; [reflexivity|].
  exists bs, m, due, from, to.
  split; [reflexivity|]. split; [exact Hne|]. do 3 (split; [reflexivity|]).
  apply insertMany_app in Hitems2. pose proof (insert_bills_app _ _ _ Hins) as Hl.
  subst l l2. split; [|split; [exact Hins|reflexivity]].
  intros Hguard. rewrite Hguard in Hg1, Hg2. simpl in Hg1, Hg2.
  apply Nat.ltb_ge in Hg1, Hg2. now split.
Qed.

Lemma skipn_length_app {A} (l r : list A) : skipn (length l) (l ++ r) = r.
Proof. induction l; simpl; auto. Qed.

Lemma generateBills_new_bills e manager month year d r d' b :
  generateBills e manager month year d = (r, d') ->
  In b (new_bills d d') ->
  code r = 201
  /\ exists bs m i nb due,
       bill_loop e month year d ([], ∅) (billable_subscriptions manager d) = Some (bs, m)
       /\ bs !! i = Some nb
       /\ new_Date year month 15 = Some due
       /\ b = stored_bill due (fresh e i) nb.
Proof.
  intros Hrun Hin.
  apply generateBills_run in Hrun
    as [(Hc & bs & m & due & from & to & Hloop & _ & Hdue & _ & _ & _ & _ & ->)|[_ ->]].
  - split; [assumption|]. exists bs, m. unfold new_bills in Hin. simpl in Hin.
    rewrite skipn_length_app in Hin. apply list_elem_of_In, list_elem_of_lookup in Hin as [i Hi].
    rewrite with_ids_lookup in Hi. destruct (bs !! i) as [nb|] eqn:Hnb; [|discriminate].
    exists i, nb, due. simpl in Hi. inversion Hi. auto.
  - unfold new_bills in Hin. rewrite skipn_all in Hin. contradiction.
Qed.

Lemma due_date_table :
  forallb (fun y => forallb (due_date_checked y) months_checked) years_checked = true.
Proof. vm_compute. reflexivity. Qed.

Lemma in_range_list base n x :
  base <= x < base + Z.of_nat n -> In x (map (fun k => base + Z.of_nat k) (seq 0 n)).
Proof.
  intros H. apply in_map_iff. exists (Z.to_nat (x - base)). split; [lia|].
  apply in_seq. lia.
Qed.

Lemma due_date_next_month year month :
  1900 <= year <= 2200 -> 1 <= month <= 12 ->
  exists due,
    new_Date year month 15 = Some due
    /\ calendar due = (fst (next_month year month), snd (next_month year month), 15).
Proof.
  intros Hy Hm. pose proof due_date_table as T.
  rewrite forallb_forall in T. specialize (T year (in_range_list 1900 301 year ltac:(lia))).
  rewrite forallb_forall in T. specialize (T month (in_range_list 1 12 month ltac:(lia))).
  unfold due_date_checked in T.
  destruct (new_Date year month 15) as [due|]; [|discriminate]. exists due.
  split; [reflexivity|].
  destruct (calendar due) as [[y m] day].
  destruct (next_month year month) as [y' m']. simpl.
  apply andb_prop in T as [T T3]. apply andb_prop in T as [T1 T2].
  apply Z.eqb_eq in T1, T2, T3. congruence.
Qed.

(** C8 against the code.  A bill created by generateBills(month, year) is due
    on [new Date(year, month, 15)], whose month index counts from 0: for a
    month 1..12 of a year 1900..2200 that is the 15th of the month after the
    billing month, never of the billing month itself. *)
Theorem generateBills_dueDate e manager month year d r d' b :
  1900 <= year <= 2200 -> 1 <= month <= 12 ->
  generateBills e manager month year d = (r, d') ->
  In b (new_bills d d') ->
  bill_billMonth b = month /\ bill_billYear b = year
  /\ Some (bill_dueDate b) = new_Date year month 15
  /\ calendar (bill_dueDate b)
     = (if month =? 12 then year + 1 else year, if month =? 12 then 1 else month + 1, 15)
  /\ calendar (bill_dueDate b) <> (year, month, 15).
Proof.
  intros Hy Hm Hrun Hin.
  destruct (generateBills_new_bills _ _ _ _ _ _ _ _ Hrun Hin)
    as (_ & bs & m & i & nb & due & Hloop & Hnb & Hdue & ->).
  apply (billing_inv_loop _ _ _ _ _ [] _ _ (billing_inv_init e month year d)) in Hloop.
  destruct (inv_header _ _ _ _ _ _ Hloop i nb Hnb) as (Hmo & Hye & _).
  destruct (due_date_next_month year month Hy Hm) as (due' & Hdue' & Hcal).
  assert (due' = due) as -> by congruence.
  simpl. rewrite Hmo, Hye, Hdue, Hcal.
  unfold next_month. repeat split; destruct (month =? 12) eqn:E; simpl; try reflexivity;
    intros [=]; lia.
Qed.

Lemma generateBills_dueDate_witness :
  exists b,
    new_bills (Scenario.db 50 2 "Active")
      (snd (generateBills Scenario.env Scenario.manager 6 2024 (Scenario.db 50 2 "Active")))
    = [b]
    /\ bill_billMonth b = 6
    /\ calendar (bill_dueDate b) = (2024, 7, 15).
Proof.
  pose (res := generateBills Scenario.env Scenario.manager 6 2024 (Scenario.db 50 2 "Active")).
  pose (b := hd (Scenario.the_bill 0 "") (bills (snd res))).
  destruct (generateBills_dueDate Scenario.env Scenario.manager 6 2024
              (Scenario.db 50 2 "Active") (fst res) (snd res) b)
    as (Hm & _ & _ & Hcal & _).
  - lia.
  - lia.
  - apply surjective_pairing.
  - vm_compute. left. reflexivity.
  - exists b. split; [vm_compute; reflexivity|]. split; [exact Hm|exact Hcal].
Defined.

Lemma Forall2_of_map {A B} (f : A -> option B) l l' :
  map Some l' = map f l -> List.Forall2 (fun x y => f x = Some y) l l'.
Proof.
  revert l'. induction l as [|x r IH]; intros [|y r'] H; simpl in H; try discriminate.
  - constructor.
  - inversion H. constructor; [congruence|now apply IH].
Qed.

Lemma Forall2_filter {A B} (R : A -> B -> Prop) (p : A -> bool) (q : B -> bool) l l' :
  List.Forall2 R l l' -> (forall x y, R x y -> p x = q y) ->
  List.Forall2 R (List.filter p l) (List.filter q l').
Proof.
  intros H Hpq. induction H as [|x y l l' Hxy H IH]; simpl; [constructor|].
  rewrite <- (Hpq x y Hxy). destruct (p x); [constructor|]; assumption.
Qed.

Lemma Forall2_chain {A B C} (P : A -> B -> Prop) (Q : B -> C -> Prop) (S : A -> C -> Prop)
    l1 l2 l3 :
  List.Forall2 P l1 l2 -> List.Forall2 Q l2 l3 ->
  (forall a b c, P a b -> Q b c -> S a c) -> List.Forall2 S l1 l3.
Proof.
  intros H12. revert l3. induction H12 as [|a b l1 l2 Hab H IH]; intros l3 H23 HS.
  - inversion H23. constructor.
  - inversion H23; subst. constructor; [eapply HS; eassumption|now apply IH].
Qed.

Lemma In_Forall2_r {A B} (R : A -> B -> Prop) l l' y :
  List.Forall2 R l l' -> In y l' -> exists x, In x l /\ R x y.
Proof.
  induction 1 as [|a b l l' Hab H IH]; simpl; [tauto|].
  intros [<-|Hin]; [exists a; tauto|]. destruct (IH Hin) as (x & Hx & HR). exists x. tauto.
Qed.

Lemma NoDup_map_lookup {A B} (f : A -> B) (l : list A) :
  (forall i j x y, l !! i = Some x -> l !! j = Some y -> f x = f y -> i = j) ->
  List.NoDup (map f l).
Proof.
  intros H. apply NoDup_ListNoDup, NoDup_alt. intros i j z Hi Hj.
  change (map f l) with (f <$> l) in Hi, Hj. rewrite list_lookup_fmap in Hi, Hj.
  destruct (l !! i) as [x|] eqn:Ex; [|discriminate].
  destruct (l !! j) as [y|] eqn:Ey; [|discriminate].
  simpl in Hi, Hj. apply (H i j x y Ex Ey). congruence.
Qed.

Lemma filter_none {A} (p : A -> bool) l :
  (forall x, In x l -> p x = false) -> List.filter p l = [].
Proof.
  induction l as [|x r IH]; simpl; intros H; [reflexivity|].
  rewrite (H x) by now left. apply IH. intros y Hy. apply H. now right.
Qed.

Lemma filter_all {A} (p : A -> bool) l :
  (forall x, In x l -> p x = true) -> List.filter p l = l.
Proof.
  induction l as [|x r IH]; simpl; intros H; [reflexivity|].
  rewrite (H x) by now left. f_equal. apply IH. intros y Hy. apply H. now right.
Qed.

Lemma allBillItems_tags created : forall bs x,
  In x (allBillItems created bs) -> In (fst x) (map bill_id created).
Proof.
  induction created as [|c cr IH]; intros [|b br] x; simpl; try tauto.
  rewrite in_app_iff, in_map_iff. intros [(it & <- & _)|Hin]; [now left|].
  right. eapply IH, Hin.
Qed.

(** The items tagged with the identifier of a created bill are the lines of
    the literal at the same index. *)
Lemma allBillItems_filter created : forall bs j c b,
  List.NoDup (map bill_id created) ->
  created !! j = Some c -> bs !! j = Some b ->
  List.filter (fun x => String.eqb (fst x) (bill_id c)) (allBillItems created bs)
  = map (fun it => (bill_id c, it)) (nb_billItems b).
Proof.
  induction created as [|c0 cr IH]; intros [|b0 br] j c b Hnd Hc Hb; try discriminate.
  inversion Hnd as [|? ? Hnot Hnd']; subst. cbn [allBillItems]. rewrite List.filter_app.
  destruct j as [|j]; simpl in Hc, Hb.
  - inversion Hc; inversion Hb; subst.
    match goal with
    | |- context [List.filter ?f (allBillItems cr br)] =>
        assert (List.filter f (allBillItems cr br) = []) as ->
    end.
    { apply filter_none. intros x Hx. apply String.eqb_neq. intros Heq. apply Hnot. rewrite <- Heq.
      eapply allBillItems_tags, Hx. }
    rewrite app_nil_r. apply filter_all.
    intros x Hx. apply in_map_iff in Hx as (it & <- & _). apply String.eqb_refl.
  - rewrite (IH br j c b Hnd' Hc Hb).
    match goal with
    | |- context [List.filter ?f (map ?g (nb_billItems b0))] =>
        assert (List.filter f (map g (nb_billItems b0)) = []) as ->; [|reflexivity]
    end.
    apply filter_none. intros x Hx. apply in_map_iff in Hx as (it & <- & _).
    simpl. apply String.eqb_neq. intros Heq. apply Hnot. rewrite Heq.
    apply in_map, list_elem_of_In, list_elem_of_lookup. eauto.
Qed.

Lemma sum_totalPrice_map l :
  sum_totalPrice l = fold_left Qplus (map item_totalPrice l) 0%Q.
Proof.
  unfold sum_totalPrice. generalize 0%Q. induction l as [|x r IH]; intros acc; simpl; auto.
Qed.

Lemma sum_lines_map l : sum_lines l = fold_left Qplus (map nbi_totalPrice l) 0%Q.
Proof.
  unfold sum_lines. generalize 0%Q. induction l as [|x r IH]; intros acc; simpl; auto.
Qed.

Lemma billable_area manager d s :
  In s (billable_subscriptions manager d) ->
  sub_status s = "Active" /\ exists a, sub_areaId s = Some a /\ In a (areaIds manager d).
Proof.
  intros H. apply filter_In in H as [_ H]. apply andb_prop in H as [Ha Hs].
  apply String.eqb_eq in Hs. split; [assumption|].
  destruct (sub_areaId s) as [a|]; [|discriminate]. exists a. split; [reflexivity|].
  now apply mem_str_In.
Qed.

(** The stored items of a created bill are the lines of its literal, in
    order. *)
Lemma stored_lines e k period created bs j c nb :
  List.NoDup (map bill_id created) ->
  created !! j = Some c -> bs !! j = Some nb ->
  List.Forall2 (fun it y => exists i, y = stored_billItem period i (bill_id c) it)
    (nb_billItems nb)
    (List.filter (fun y => String.eqb (item_billId y) (bill_id c))
       (with_ids e k (fun i x => stored_billItem period i (fst x) (snd x))
          (allBillItems created bs))).
Proof.
  intros Hnd Hc Hnb.
  pose proof (with_ids_Forall2 e (fun i x => stored_billItem period i (fst x) (snd x))
                (allBillItems created bs) k) as H.
  apply (Forall2_filter _ (fun x => String.eqb (fst x) (bill_id c))
           (fun y => String.eqb (item_billId y) (bill_id c))) in H.
  - rewrite (allBillItems_filter created bs j c nb Hnd Hc Hnb) in H.
    change (map (fun it => (bill_id c, it)) (nb_billItems nb))
      with ((fun it => (bill_id c, it)) <$> nb_billItems nb) in H.
    apply Forall2_fmap_l in H. exact H.
  - intros x y [i ->]. reflexivity.
Qed.

Lemma stored_lines_prices period c l l' :
  List.Forall2 (fun it y => exists i, y = stored_billItem period i (bill_id c) it) l l' ->
  map item_totalPrice l' = map nbi_totalPrice l.
Proof.
  induction 1 as [|it y l l' [i ->] H IH]; simpl; [reflexivity|]. now rewrite IH.
Qed.

(** On billable subscriptions, filing under the key of a bill is belonging
    to its group. *)
Lemma with_key_same_group manager d due i nb s0 s :
  (forall s, In s (billable_subscriptions manager d) -> is_oid (sub_userId s) = true) ->
  In s0 (billable_subscriptions manager d) -> In s (billable_subscriptions manager d) ->
  nb_userId nb = sub_userId s0 -> nb_areaId nb = sub_areaId s0 ->
  with_key (nb_key nb) s = same_group (stored_bill due i nb) s.
Proof.
  intros Hoid H0 Hs Hu Ha.
  destruct (billable_area _ _ _ H0) as (_ & a0 & Ea0 & _).
  destruct (billable_area _ _ _ Hs) as (_ & a & Ea & _).
  unfold with_key, same_group, nb_key, sub_key. simpl. rewrite Hu, Ha, Ea, Ea0.
  apply eq_true_iff_eq. rewrite andb_true_iff, !String.eqb_eq. split.
  - intros H. apply billKey_inj in H; auto.
  - intros [-> ->]. reflexivity.
Qed.

(** The query of the run selects what the run is to bill. *)
Lemma to_bill_billable manager d :
  billable_subscriptions manager d = List.filter (to_bill manager d) (subscriptions d).
Proof.
  unfold billable_subscriptions. apply List.filter_ext. intros s.
  unfold to_bill. rewrite andb_comm. f_equal.
  unfold area_in, areaIds, managed_areas, mem_str.
  destruct (sub_areaId s) as [a|]; simpl.
  - induction (areas d) as [|x r IH]; simpl; [reflexivity|].
    destruct (existsb (String.eqb manager) (area_managers x)); simpl; [|exact IH].
    now rewrite IH.
  - induction (areas d) as [|x r IH]; simpl; [reflexivity|].
    now rewrite andb_false_r.
Qed.

(** [to_bill], read as a proposition. *)
Lemma to_bill_spec manager d s :
  to_bill manager d s = true
  <-> sub_status s = "Active"
      /\ exists a, In a (areas d) /\ In manager (area_managers a)
                   /\ sub_areaId s = Some (area_id a).
Proof.
  unfold to_bill. rewrite andb_true_iff, String.eqb_eq, existsb_exists. split.
  - intros [Hs (a & Ha & Hp)]. split; [exact Hs|]. exists a. split; [exact Ha|].
    apply andb_prop in Hp as [Hm Hi]. split; [now apply mem_str_In|].
    destruct (sub_areaId s) as [x|]; [|discriminate]. simpl in Hi.
    apply String.eqb_eq in Hi. now subst.
  - intros [Hs (a & Ha & Hm & Hi)]. split; [exact Hs|]. exists a. split; [exact Ha|].
    rewrite Hi. simpl. rewrite String.eqb_refl, andb_true_r. now apply mem_str_In.
Qed.

Lemma filter_filter {A} (p q : A -> bool) l :
  List.filter q (List.filter p l) = List.filter (fun x => p x && q x) l.
Proof.
  induction l as [|x r IH]; simpl; [reflexivity|].
  destruct (p x); simpl; [destruct (q x)|]; now rewrite IH.
Qed.

Lemma period_table :
  forallb (fun y => forallb (period_checked y) months_checked) years_checked = true.
Proof. vm_compute. reflexivity. Qed.

Lemma period_calendar year month :
  1900 <= year <= 2200 -> 1 <= month <= 12 ->
  exists from to,
    new_Date year (month - 1) 1 = Some from
    /\ new_Date year month 0 = Some to
    /\ calendar from = (year, month, 1)
    /\ calendar (to + msPerDay)
       = (fst (next_month year month), snd (next_month year month), 1)
    /\ from <= to.
Proof.
  intros Hy Hm. pose proof period_table as T.
  rewrite forallb_forall in T. specialize (T year (in_range_list 1900 301 year ltac:(lia))).
  rewrite forallb_forall in T. specialize (T month (in_range_list 1 12 month ltac:(lia))).
  unfold period_checked in T.
  destruct (new_Date year (month - 1) 1) as [from|]; [|discriminate].
  destruct (new_Date year month 0) as [to|]; [|discriminate].
  exists from, to. split; [reflexivity|]. split; [reflexivity|].
  destruct (calendar from) as [[y m] day].
  destruct (calendar (to + msPerDay)) as [[y1 m1] day1].
  destruct (next_month year month) as [y' m']. simpl.
  repeat (apply andb_prop in T as [T ?]).
  repeat match goal with H : (_ =? _) = true |- _ => apply Z.eqb_eq in H end.
  split; [congruence|]. split; [congruence|]. now apply Z.leb_le.
Qed.

Lemma bill_loop_total e month year d subs : forall st,
  (forall s, In s subs ->
     findById user_id (sub_userId s) (users d) <> None
     /\ findById pub_id (sub_publicationId s) (publications d) <> None) ->
  exists st', bill_loop e month year d st subs = Some st'.
Proof.
  induction subs as [|s r IH]; simpl; intros st H; [eauto|].
  assert (exists st1, bill_step e month year d st s = Some st1) as [st1 ->].
  { unfold bill_step. destruct (H s (or_introl eq_refl)) as [Hu Hp].
    destruct (findById user_id (sub_userId s) (users d)); [|contradiction].
    destruct (findById pub_id (sub_publicationId s) (publications d)); [|contradiction].
    destruct st as [bs m]. destruct (m !! billKey (user_id u) (sub_areaId s)); eauto. }
  apply IH. intros x Hx. apply H. now right.
Qed.

Lemma with_ids_ids {A B} e (id_of : B -> ObjectId) (mk : ObjectId -> A -> B) l :
  (forall i x, id_of (mk i x) = i) ->
  forall k, map id_of (with_ids e k mk l) = map (fresh e) (seq k (length l)).
Proof.
  intros Hid. induction l as [|x r IH]; intros k; simpl; [reflexivity|].
  now rewrite Hid, IH.
Qed.

Lemma NoDup_map_seq {B} (f : nat -> B) k n :
  (forall i j, f i = f j -> i = j) -> List.NoDup (map f (seq k n)).
Proof.
  intros Hinj. apply NoDup_map_lookup. intros i j x y Hi Hj Hxy.
  apply lookup_seq in Hi as [-> _]. apply lookup_seq in Hj as [-> _].
  apply Hinj in Hxy. lia.
Qed.

Lemma insert_bills_ok bs : forall l,
  List.NoDup (map bill_id bs) -> List.NoDup (map bill_billNumber bs) ->
  (forall b, In b bs -> ~ In (bill_id b) (map bill_id l)
                        /\ ~ In (bill_billNumber b) (map bill_billNumber l)) ->
  insert_bills bs l = Some (l ++ bs).
Proof.
  induction bs as [|b r IH]; simpl; intros l Hid Hnum Hnew.
  - now rewrite app_nil_r.
  - inversion Hid as [|? ? Hb1 Hid']; inversion Hnum as [|? ? Hb2 Hnum']; subst.
    destruct (Hnew b (or_introl eq_refl)) as [Hn1 Hn2].
    destruct (existsb _ l) eqn:Ex.
    { exfalso. apply Hn2. apply existsb_exists in Ex as (x & Hx & Heq).
      apply String.eqb_eq in Heq. rewrite <- Heq. now apply in_map. }
    rewrite insertOne_ok by assumption. rewrite IH; try assumption.
    + now rewrite <- app_assoc.
    + intros x Hx. destruct (Hnew x (or_intror Hx)) as [Hx1 Hx2].
      rewrite !map_app, !in_app_iff. simpl. split.
      * intros [H|[H|[]]]; [contradiction|]. apply Hb1. rewrite H. now apply in_map.
      * intros [H|[H|[]]]; [contradiction|]. apply Hb2. rewrite H. now apply in_map.
Qed.

Lemma billNumber_inj month year s1 s2 :
  billNumber month year s1 = billNumber month year s2 -> s1 = s2.
Proof.
  unfold billNumber. intros H.
  repeat (apply append_inj_length in H as [_ H]; [|reflexivity]). exact H.
Qed.

Lemma Z_toString_inj z1 z2 : Z_toString z1 = Z_toString z2 -> z1 = z2.
Proof.
  assert (Hnorm : forall z, Z.to_int z <> Decimal.Pos Decimal.Nil
                            /\ Z.to_int z <> Decimal.Neg Decimal.Nil).
  { intros z.
    assert (H : Z.to_int z = Decimal.norm (Z.to_int z))
      by (rewrite <- DecimalZ.to_of, DecimalZ.of_to; reflexivity).
    split; intros E; rewrite E in H; discriminate. }
  unfold Z_toString. intros H. apply DecimalZ.to_int_inj.
  destruct (Hnorm z1) as [H1 H1'], (Hnorm z2) as [H2 H2'].
  pose proof (NilZero.isi (Z.to_int z1) H1 H1') as E1.
  pose proof (NilZero.isi (Z.to_int z2) H2 H2') as E2.
  rewrite H in E1. congruence.
Qed.

Lemma counter_inj (prefix : string) i j :
  prefix +:+ Z_toString (Z.of_nat i) = prefix +:+ Z_toString (Z.of_nat j) -> i = j.
Proof.
  intros H. apply append_inj_length in H as [_ H]; [|reflexivity].
  apply Z_toString_inj in H. lia.
Qed.

Lemma findById_stored {A} (id_of : A -> ObjectId) i l :
  In i (map id_of l) -> findById id_of i l <> None.
Proof.
  intros Hin Hnone. apply in_map_iff in Hin as (x & Hx & Hin).
  unfold findById in Hnone. apply (find_none _ _ Hnone) in Hin.
  rewrite Hx, String.eqb_refl in Hin. discriminate.
Qed.

(** A run over one subscription at most makes one bill with one item at
    most. *)
Lemma bill_loop_short e month year d subs bs m :
  bill_loop e month year d ([], ∅) subs = Some (bs, m) ->
  (length subs <= 1)%nat ->
  (length bs <= 1)%nat /\ forall created, (length (allBillItems created bs) <= 1)%nat.
Proof.
  destruct subs as [|s [|s' r]]; simpl; [| |lia].
  - intros [= <- <-] _. split; [simpl; lia|]. intros [|c cr]; simpl; lia.
  - destruct (bill_step e month year d ([], ∅) s) as [st'|] eqn:Hstep; [|discriminate].
    intros [= ->] _. apply bill_step_cases in Hstep as (it & _ & Hst).
    rewrite lookup_empty in Hst. inversion Hst; subst. simpl.
    split; [lia|]. intros [|c [|c' cr]]; simpl; lia.
Qed.

(** A run that nothing obstructs goes through: shared by the statements
    below. *)
Lemma generateBills_passes e manager month year d :
  billing_unobstructed e manager month year d ->
  new_Date year month 15 <> None ->
  new_Date year (month - 1) 1 <> None ->
  new_Date year month 0 <> None ->
  (createGuard (mongoose e) = true ->
   (length (billable_subscriptions manager d) <= 1)%nat) ->
  code (fst (generateBills e manager month year d)) = 201
  \/ (billable_subscriptions manager d = []
      /\ generateBills e manager month year d
         = ({| code := 200; message := "No active subscriptions found for bill generation" |},
            d)).
Proof.
  intros (Hres & Hfresh & Hnew & Hrand & Hnum) Hdue Hfrom Hto Hguard.
  destruct (bill_loop_total e month year d (billable_subscriptions manager d) ([], ∅) Hres)
    as [[bs m] Hloop].
  pose proof (billing_inv_loop _ _ _ _ _ [] _ _ (billing_inv_init e month year d) Hloop)
    as Hinv. simpl in Hinv.
  unfold generateBills, create_with_session, transactional, bind, get, try_modify,
    try_in_session, commitTransaction, modify, ret, respond, throw, startTransaction.
  cbn [committed working]. rewrite Hloop.
  destruct (length bs =? 0)%nat eqn:Hlen.
  { right. split; [|reflexivity]. apply Nat.eqb_eq in Hlen.
    destruct (billable_subscriptions manager d) as [|s r] eqn:Es; [reflexivity|].
    destruct (inv_covered _ _ _ _ _ _ Hinv s (or_introl eq_refl)) as [i Hi].
    destruct (inv_index _ _ _ _ _ _ Hinv _ _ Hi) as (b & Hb & _). simpl in Hb.
    apply lookup_lt_Some in Hb. lia. }
  left.
  assert (Hne : bs <> []) by (intros ->; discriminate).
  assert (Hg : forall created,
            createGuard (mongoose e) && (1 <? length bs)%nat = false
            /\ createGuard (mongoose e) && (1 <? length (allBillItems created bs))%nat = false).
  { intros created. destruct (createGuard (mongoose e)) eqn:Eg; [|now split].
    destruct (bill_loop_short _ _ _ _ _ _ _ Hloop (Hguard eq_refl)) as [H1 H2].
    specialize (H2 created). simpl. split; apply Nat.ltb_ge; assumption. }
  rewrite (proj1 (Hg [])).
  assert (Hdates : forall nb, In nb bs ->
            nb_dueDate nb = new_Date year month 15
            /\ nb_billItems nb <> []
            /\ forall it, In it (nb_billItems nb) ->
                 nbi_deliveryPeriod it
                 = {| np_from := new_Date year (month - 1) 1;
                      np_to := new_Date year month 0 |}).
  { intros nb Hnb. apply list_elem_of_In, list_elem_of_lookup in Hnb as [i Hi].
    eapply (billing_inv_dates _ _ _ _ _ _ i nb Hinv). exact Hi. }
  destruct (new_Date year month 15) as [due|]; [|contradiction].
  destruct (new_Date year (month - 1) 1) as [from|]; [|contradiction].
  destruct (new_Date year month 0) as [to|]; [|contradiction].
  rewrite (all_cast_with_ids e bill_doc (stored_bill due)).
  2:{ intros i nb Hnb. unfold bill_doc. now rewrite (proj1 (Hdates nb Hnb)). }
  cbn [committed working].
  set (created := with_ids e 0 (stored_bill due) bs).
  rewrite insert_bills_ok.
  - cbn [committed working billItems set_bills]. rewrite (proj2 (Hg created)).
    rewrite (all_cast_with_ids e (fun i x => billItem_doc i (fst x) (snd x))
               (fun i x => stored_billItem {| period_from := from; period_to := to |}
                             i (fst x) (snd x))).
    2:{ intros i x Hx. apply allBillItems_lines in Hx as (nb & Hnb & Hit).
        unfold billItem_doc. now rewrite (proj2 (proj2 (Hdates nb Hnb)) _ Hit). }
    cbn [committed working billItems set_bills].
    rewrite insertMany_ok; [reflexivity| |].
    + rewrite (with_ids_ids e item_id) by reflexivity. now apply NoDup_map_seq.
    + intros x Hx Hin.
      destruct (In_Forall2_r _ _ _ _ (with_ids_Forall2 e _ _ _) Hx) as (y & _ & i & ->).
      apply in_map with (f := item_id) in Hx.
      rewrite (with_ids_ids e item_id) in Hx by reflexivity.
      apply in_map_iff in Hx as (k & Hk & _). simpl in Hk, Hin. rewrite <- Hk in Hin.
      now apply (Hnew k).
  - unfold created. rewrite (with_ids_ids e bill_id) by reflexivity. now apply NoDup_map_seq.
  - apply NoDup_map_lookup. intros i j x y Hx Hy Heq.
    unfold created in Hx, Hy. rewrite with_ids_lookup in Hx, Hy.
    destruct (bs !! i) as [bi|] eqn:Ei; [|discriminate].
    destruct (bs !! j) as [bj|] eqn:Ej; [|discriminate].
    inversion Hx; inversion Hy; subst. simpl in Heq.
    destruct (inv_header _ _ _ _ _ _ Hinv i bi Ei) as (_ & _ & _ & _ & Hni & _).
    destruct (inv_header _ _ _ _ _ _ Hinv j bj Ej) as (_ & _ & _ & _ & Hnj & _).
    rewrite Hni, Hnj in Heq. apply billNumber_inj in Heq. now apply Hrand.
  - intros b Hb. apply list_elem_of_In, list_elem_of_lookup in Hb as [i Hi].
    unfold created in Hi.
    rewrite with_ids_lookup in Hi. destruct (bs !! i) as [bi|] eqn:Ei; [|discriminate].
    inversion Hi; subst. simpl.
    destruct (inv_header _ _ _ _ _ _ Hinv i bi Ei) as (_ & _ & _ & _ & Hni & _).
    rewrite Hni. split; [apply Hnew|apply Hnum].
Qed.

(** What is clear of obstacles in terms of the store is unobstructed for the
    run. *)
Lemma billing_clear_unobstructed e manager month year d :
  billing_clear e manager month year d ->
  billing_unobstructed e manager month year d
  /\ new_Date year month 15 <> None
  /\ new_Date year (month - 1) 1 <> None
  /\ new_Date year month 0 <> None
  /\ (createGuard (mongoose e) = true ->
      (length (billable_subscriptions manager d) <= 1)%nat).
Proof.
  intros (Hres & Hfresh & Hnew & Hrand & Hnum & Hy & Hm & Hguard).
  destruct (due_date_next_month year month Hy Hm) as (due & Hdue & _).
  destruct (period_calendar year month Hy Hm) as (from & to & Hfrom & Hto & _).
  rewrite Hdue, Hfrom, Hto, to_bill_billable.
  split; [|repeat split; try discriminate; exact Hguard].
  split; [|split; [exact Hfresh|split; [exact Hnew|split; [exact Hrand|]]]].
  - intros s Hs. rewrite to_bill_billable in Hs. apply filter_In in Hs as [Hin Hs].
    destruct (Hres s Hin Hs) as [Hu Hp]. split; now apply findById_stored.
  - intros i Hin. apply in_map_iff in Hin as (b & Hb & Hin). apply (Hnum i b Hin).
    unfold numbered. rewrite Hb. reflexivity.
Qed.

(** C1.  A billing run adds its bills after the stored ones.  The bills it
    adds are one per (customer, area) among the subscriptions it is to bill,
    the Active subscriptions of the areas that have the manager among their
    managers.  Each is a bill of the month and the year, Unpaid, numbered
    BILL-<year><month on two digits>-<suffix>; its stored items are, in the
    order of the subscriptions, one line per subscription of its group, with
    the quantity of the subscription, the price of its publication,
    totalPrice = quantity x unitPrice and the month as the period; and their
    totalPrice sums to the totalAmount of the bill, which is also its
    outstandingAmount.  A run answered 201 has billed every such
    subscription, any other answer leaves the store as it was, and a run
    that has a subscription to bill and nothing in its way is answered 201. *)
Theorem generateBills_groups e manager month year d r d' :
  (forall s, In s (subscriptions d) -> to_bill manager d s = true ->
     is_oid (sub_userId s) = true) ->
  items_refer_to_bills d ->
  generateBills e manager month year d = (r, d') ->
  bills d' = bills d ++ new_bills d d'
  /\ List.NoDup (map (fun b => (bill_userId b, bill_areaId b)) (new_bills d d'))
  /\ (forall b, In b (new_bills d d') ->
      (exists s, In s (subscriptions d) /\ to_bill manager d s = true
                 /\ same_group b s = true)
      /\ List.Forall2 (line_of d month year)
           (List.filter (fun s => to_bill manager d s && same_group b s) (subscriptions d))
           (items_of_bill b d')
      /\ sum_totalPrice (items_of_bill b d') = bill_totalAmount b
      /\ bill_totalAmount b = bill_outstandingAmount b
      /\ bill_billMonth b = month /\ bill_billYear b = year /\ bill_status b = "Unpaid"
      /\ exists suffix, numbered month year suffix (bill_billNumber b))
  /\ (code r = 201 ->
      forall s, In s (subscriptions d) -> to_bill manager d s = true ->
      exists b, In b (new_bills d d') /\ same_group b s = true)
  /\ (code r <> 201 -> d' = d)
  /\ (billing_clear e manager month year d ->
      (exists s, In s (subscriptions d) /\ to_bill manager d s = true) ->
      code r = 201).
Proof.
  intros Hoid' Href Hrun.
  assert (Hoid : forall s, In s (billable_subscriptions manager d) ->
                   is_oid (sub_userId s) = true).
  { intros s Hs. rewrite to_bill_billable in Hs. apply filter_In in Hs as [Hin Hs].
    now apply Hoid'. }
  assert (Hclear : billing_clear e manager month year d ->
            (exists s, In s (subscriptions d) /\ to_bill manager d s = true) ->
            code r = 201).
  { intros Hc (s & Hin & Hs).
    apply billing_clear_unobstructed in Hc as (Hun & Hdue & Hfrom & Hto & Hguard).
    destruct (generateBills_passes e manager month year d Hun Hdue Hfrom Hto Hguard)
      as [H|[Hnil _]]; [now rewrite Hrun in H|].
    exfalso. assert (In s (billable_subscriptions manager d)) as Hb
      by (rewrite to_bill_billable; apply filter_In; now split).
    rewrite Hnil in Hb. contradiction. }
  apply generateBills_run in Hrun
    as [(Hc & bs & m & due & from & to & Hloop & _ & Hdue & Hfrom & Hto & _ & Hins & ->)
       |[Hc ->]].
  2:{ unfold new_bills. rewrite skipn_all. simpl. rewrite app_nil_r.
      split; [reflexivity|]. split; [constructor|]. split; [intros b []|].
      split; [intros Hc'; contradiction|]. split; [intros _; reflexivity|exact Hclear]. }
  set (period := {| period_from := from; period_to := to |}) in *.
  set (subs := billable_subscriptions manager d) in *.
  set (created := with_ids e 0 (stored_bill due) bs) in *.
  apply (billing_inv_loop _ _ _ _ _ [] _ _ (billing_inv_init e month year d)) in Hloop.
  simpl in Hloop. destruct Hloop as [Hidx Hfiled Hlines Hamt Hhead Hcov]. simpl in *.
  assert (Hnew : new_bills d (set_billItems
                   (billItems d ++ with_ids e (length bs)
                      (fun i x => stored_billItem period i (fst x) (snd x))
                      (allBillItems created bs))
                   (set_bills (bills d ++ created) d)) = created).
  { unfold new_bills. simpl. apply skipn_length_app. }
  rewrite Hnew. clear Hnew.
  destruct (insert_bills_fresh _ _ _ Hins) as [Hnd Hfresh].
  assert (Hat : forall b, In b created ->
            exists j nb, created !! j = Some b /\ bs !! j = Some nb
                         /\ b = stored_bill due (fresh e j) nb).
  { intros b Hb. apply list_elem_of_In, list_elem_of_lookup in Hb as [j Hj]. exists j.
    pose proof Hj as Hj'. unfold created in Hj'. rewrite with_ids_lookup in Hj'.
    destruct (bs !! j) as [nb|]; [|discriminate]. exists nb. simpl in Hj'.
    inversion Hj'; subst. split; [exact Hj|]. split; reflexivity. }
  split; [reflexivity|].
  split; [|split; [|split; [|split; [intros Hn; contradiction|exact Hclear]]]].
  - (* one bill per group *)
    apply NoDup_map_lookup. intros i j x y Hx Hy Heq.
    unfold created in Hx, Hy. rewrite with_ids_lookup in Hx, Hy.
    destruct (bs !! i) as [bi|] eqn:Ei; [|discriminate].
    destruct (bs !! j) as [bj|] eqn:Ej; [|discriminate].
    inversion Hx; inversion Hy; subst. simpl in Heq. inversion Heq as [[Hu Ha]].
    apply Hfiled in Ei, Ej. unfold nb_key in Ei, Ej. rewrite Hu, Ha in Ei. congruence.
  - (* the lines and the amounts of a bill *)
    intros b Hb. destruct (Hat b Hb) as (j & nb & Hj & Hnb & ->).
    destruct (Hhead _ _ Hnb) as (Hmo & Hye & _ & Hst & Hnum & s0 & Hs0 & Hu & Ha).
    assert (Hgrp : forall s, In s subs ->
              with_key (nb_key nb) s = same_group (stored_bill due (fresh e j) nb) s).
    { intros s Hs. apply (with_key_same_group manager d due (fresh e j) nb s0 s); assumption. }
    assert (Hfilter : List.filter
                        (fun s => to_bill manager d s
                                  && same_group (stored_bill due (fresh e j) nb) s)
                        (subscriptions d)
                      = List.filter (with_key (nb_key nb)) subs).
    { rewrite <- filter_filter, <- to_bill_billable. fold subs.
      apply List.filter_ext_in. intros s Hs. symmetry. now apply Hgrp. }
    assert (Hitems : items_of_bill (stored_bill due (fresh e j) nb)
                       (set_billItems
                          (billItems d ++ with_ids e (length bs)
                             (fun i x => stored_billItem period i (fst x) (snd x))
                             (allBillItems created bs))
                          (set_bills (bills d ++ created) d))
                     = List.filter
                         (fun y => String.eqb (item_billId y)
                                     (bill_id (stored_bill due (fresh e j) nb)))
                         (with_ids e (length bs)
                            (fun i x => stored_billItem period i (fst x) (snd x))
                            (allBillItems created bs))).
    { unfold items_of_bill. cbn [billItems set_billItems]. rewrite List.filter_app.
      rewrite filter_none; [reflexivity|]. intros it Hit. apply String.eqb_neq.
      intros Heq. apply (Hfresh _ Hb). rewrite <- Heq. now apply Href. }
    rewrite Hitems, Hfilter. clear Hitems Hfilter.
    pose proof (stored_lines e (length bs) period created bs j _ nb Hnd Hj Hnb) as Hstored.
    split; [|split; [|split; [|split]]].
    + exists s0. unfold subs in Hs0. pose proof Hs0 as Hs0'.
      rewrite to_bill_billable in Hs0'. apply filter_In in Hs0' as [Hin0 Hb0].
      split; [exact Hin0|]. split; [exact Hb0|]. rewrite <- Hgrp by assumption.
      unfold with_key, sub_key, nb_key. rewrite Hu, Ha. apply String.eqb_refl.
    + eapply Forall2_chain; [apply Forall2_of_map, (Hlines _ _ Hnb)|exact Hstored|].
      intros s it y Hline [i ->]. unfold line in Hline.
      destruct (findById pub_id (sub_publicationId s) (publications d)) as [p|] eqn:Ep;
        [|discriminate].
      inversion Hline; subst it. exists p. split; [exact Ep|]. simpl.
      repeat (split; [reflexivity|]). split; [apply Qmult_comm|]. split; assumption.
    + rewrite sum_totalPrice_map, (stored_lines_prices _ _ _ _ Hstored), <- sum_lines_map.
      simpl. symmetry. apply (Hamt _ _ Hnb).
    + simpl. destruct (Hamt _ _ Hnb) as [-> ->]. reflexivity.
    + simpl. split; [exact Hmo|]. split; [exact Hye|]. split; [exact Hst|].
      exists (random e j). unfold numbered. rewrite Hnum. reflexivity.
  - (* every subscription is billed *)
    intros _ s Hin Hs.
    assert (Hsub : In s subs) by (unfold subs; rewrite to_bill_billable; apply filter_In; now split).
    destruct (Hcov s Hsub) as [i Hi].
    destruct (Hidx _ _ Hi) as (nb & Hnb & Hk).
    destruct (Hhead _ _ Hnb) as (_ & _ & _ & _ & _ & s0 & Hs0 & Hu & Ha).
    exists (stored_bill due (fresh e i) nb). split.
    + apply list_elem_of_In, list_elem_of_lookup. exists i.
      unfold created. rewrite with_ids_lookup, Hnb. reflexivity.
    + rewrite <- (with_key_same_group manager d due (fresh e i) nb s0 s) by assumption.
      unfold with_key. rewrite Hk. apply String.eqb_refl.
Qed.

Lemma generateBills_groups_witness :
  exists b1 b2,
    code (fst (generateBills (Desk.counter "a") Scenario.manager 6 2024 Desk.two_areas)) = 201
    /\ new_bills Desk.two_areas
         (snd (generateBills (Desk.counter "a") Scenario.manager 6 2024 Desk.two_areas))
       = [b1; b2]
    /\ bill_userId b1 = Scenario.customer /\ bill_userId b2 = Desk.customer2
    /\ List.Forall2 (line_of Desk.two_areas 6 2024)
         [Desk.a_subscription "51" Scenario.customer Scenario.publication Scenario.address 2
            "Active" Scenario.area;
          Desk.a_subscription "53" Scenario.customer Desk.publication2 Scenario.address 3
            "Active" Scenario.area]
         (items_of_bill b1
            (snd (generateBills (Desk.counter "a") Scenario.manager 6 2024 Desk.two_areas)))
    /\ List.Forall2 (line_of Desk.two_areas 6 2024)
         [Desk.a_subscription "52" Desk.customer2 Scenario.publication Desk.address2 1
            "Active" Scenario.area]
         (items_of_bill b2
            (snd (generateBills (Desk.counter "a") Scenario.manager 6 2024 Desk.two_areas)))
    /\ sum_totalPrice
         (items_of_bill b1
            (snd (generateBills (Desk.counter "a") Scenario.manager 6 2024 Desk.two_areas)))
       = bill_totalAmount b1
    /\ (bill_totalAmount b1 == 160)%Q /\ (bill_outstandingAmount b1 == 160)%Q
    /\ (bill_totalAmount b2 == 50)%Q.
Proof.
  pose (res := generateBills (Desk.counter "a") Scenario.manager 6 2024 Desk.two_areas).
  pose (b1 := nth 0 (bills (snd res)) (Scenario.the_bill 0 "")).
  pose (b2 := nth 1 (bills (snd res)) (Scenario.the_bill 0 "")).
  destruct (generateBills_groups (Desk.counter "a") Scenario.manager 6 2024 Desk.two_areas
              (fst res) (snd res))
    as (_ & _ & Hbills & _ & _ & Hclear).
  - intros s Hs _. simpl in Hs. repeat destruct Hs as [<-|Hs]; try reflexivity.
    contradiction.
  - intros it [].
  - apply surjective_pairing.
  - assert (Hnew : new_bills Desk.two_areas (snd res) = [b1; b2])
      by (vm_compute; reflexivity).
    destruct (Hbills b1) as (_ & Hlines1 & Hsum1 & _); [rewrite Hnew; now left|].
    destruct (Hbills b2) as (_ & Hlines2 & _); [rewrite Hnew; right; now left|].
    replace (List.filter _ (subscriptions Desk.two_areas))
      with [Desk.a_subscription "51" Scenario.customer Scenario.publication
              Scenario.address 2 "Active" Scenario.area;
            Desk.a_subscription "53" Scenario.customer Desk.publication2
              Scenario.address 3 "Active" Scenario.area]
      in Hlines1 by (vm_compute; reflexivity).
    replace (List.filter _ (subscriptions Desk.two_areas))
      with [Desk.a_subscription "52" Desk.customer2 Scenario.publication Desk.address2 1
              "Active" Scenario.area]
      in Hlines2 by (vm_compute; reflexivity).
    exists b1, b2. split.
    { apply Hclear.
      - split.
        { intros s Hs Hb. simpl in Hs.
          repeat destruct Hs as [<-|Hs]; try contradiction;
            try (vm_compute in Hb; discriminate Hb); split; vm_compute; tauto. }
        split; [apply counter_inj|]. split; [intros i; split; intros []|].
        split; [apply counter_inj|]. split; [intros i b []|].
        split; [lia|]. split; [lia|]. discriminate.
      - eexists. split; [left; reflexivity|]. reflexivity. }
    split; [exact Hnew|]. split; [reflexivity|]. split; [reflexivity|].
    split; [exact Hlines1|]. split; [exact Hlines2|]. split; [exact Hsum1|].
    split; [reflexivity|]. split; reflexivity.
Defined.

(** ** Delivery schedule materializer *)

Lemma map_opt_Forall2 {A B} (f : A -> option B) l : forall l',
  map_opt f l = Some l' -> List.Forall2 (fun x y => f x = Some y) l l'.
Proof.
  induction l as [|x r IH]; simpl; intros l' H.
  - inversion H. constructor.
  - destruct (f x) as [y|] eqn:Ex; [|discriminate].
    destruct (map_opt f r) as [ys|]; [|discriminate]. inversion H. constructor; auto.
Qed.

(** The outcome of [createSchedule], read off the handler. *)
Lemma createSchedule_run e manager personnelId areaId routeId date notes d r d' :
  createSchedule e manager personnelId areaId routeId date notes d = (r, d') ->
  (code r = 201
   /\ exists pid aid rid day mk,
        option_map castObjectId (given personnelId) = Some pid
        /\ option_map castObjectId (given areaId) = Some aid
        /\ option_map castObjectId (given routeId) = Some rid
        /\ date = DateValue day
        /\ map_opt
             (deliveryItem_of e (fresh e 0)
                (set_schedules
                   (schedules d ++
                    [{| sched_id := fresh e 0; sched_personnelId := pid; sched_date := day;
                        sched_status := "Pending"; sched_areaId := Some aid;
                        sched_routeId := Some rid; sched_notes := notes |}]) d))
             (active_in_area aid d) = Some mk
        /\ (createGuard (mongoose e) = true -> (length mk <= 1)%nat)
        /\ d' = set_deliveryItems
                  (deliveryItems d ++ with_ids e 1 (fun i f => f i) mk)
                  (set_schedules
                     (schedules d ++
                      [{| sched_id := fresh e 0; sched_personnelId := pid; sched_date := day;
                          sched_status := "Pending"; sched_areaId := Some aid;
                          sched_routeId := Some rid; sched_notes := notes |}]) d))
  \/ (code r <> 201 /\ d' = d).
Proof.
  unfold createSchedule, create_with_session, transactional, bind, get, try_modify,
    try_in_session, commitTransaction, abortTransaction, modify, ret, respond, throw,
    startTransaction.
  assert (Hfail : forall x, (x, d) = (r, d') -> code x <> 201 -> code r <> 201 /\ d' = d).
  { intros x H Hx. inversion H; subst. now split. }
  assert (H500 : forall (x : string),
            code {| code := 500; message := "Error creating schedule" |} <> 201)
    by (intros; discriminate).
  destruct (given personnelId) as [pid|];
    [|destruct date; intros H; right; (eapply Hfail; [exact H|discriminate])].
  destruct date as [| |day];
    [intros H; right; (eapply Hfail; [exact H|discriminate])| |];
    (destruct (given areaId) as [aid|];
       [|intros H; right; (eapply Hfail; [exact H|discriminate])]);
    (destruct (given routeId) as [rid|];
       [|intros H; right; (eapply Hfail; [exact H|discriminate])]);
    (destruct (is_oid aid); cbv zeta; cbn [negb committed working];
       [|intros H; right; (eapply Hfail; [exact H|discriminate])]);
    (destruct (List.find _ (areas d));
       [|intros H; right; (eapply Hfail; [exact H|discriminate])]);
    (destruct (is_oid pid); cbn [negb committed working];
       [|intros H; right; (eapply Hfail; [exact H|discriminate])]);
    (destruct (List.find _ (personnel d));
       [|intros H; right; (eapply Hfail; [exact H|discriminate])]);
    (destruct (is_oid rid); cbn [negb committed working];
       [|intros H; right; (eapply Hfail; [exact H|discriminate])]);
    (destruct (List.find _ (routes d));
       [|intros H; right; (eapply Hfail; [exact H|discriminate])]);
    try (intros H; right; (eapply Hfail; [exact H|discriminate])).
  cbn [committed working schedules].
  destruct (insertOne sched_id _ (schedules d)) as [l|] eqn:Hins;
    cbn [committed working];
    [|intros H; right; (eapply Hfail; [exact H|discriminate])].
  apply insertOne_app in Hins. subst l.
  change (active_in_area (castObjectId aid) (set_schedules _ d))
    with (active_in_area (castObjectId aid) d).
  destruct (map_opt _ (active_in_area (castObjectId aid) d)) as [mk|] eqn:Hmk;
    [|intros H; right; (eapply Hfail; [exact H|discriminate])].
  rewrite with_ids_length.
  destruct (0 <? length mk)%nat eqn:Hlen;
    cbn [committed working deliveryItems set_schedules].
  - destruct (createGuard (mongoose e) && (1 <? length mk)%nat) eqn:Hguard;
      cbn [committed working deliveryItems set_schedules];
      [intros H; right; (eapply Hfail; [exact H|discriminate])|].
    destruct (insertMany di_id _ (deliveryItems d)) as [l|] eqn:Hitems;
      cbn [committed working];
      [|intros H; right; (eapply Hfail; [exact H|discriminate])].
    apply insertMany_app in Hitems. subst l.
    intros H. inversion H; subst. left. split; [reflexivity|].
    exists (castObjectId pid), (castObjectId aid), (castObjectId rid), day, mk.
    do 4 (split; [reflexivity|]). split; [exact Hmk|]. split; [|reflexivity].
    intros Hg. rewrite Hg in Hguard. simpl in Hguard. now apply Nat.ltb_ge.
  - intros H. inversion H; subst. left. split; [reflexivity|].
    exists (castObjectId pid), (castObjectId aid), (castObjectId rid), day, mk.
    do 4 (split; [reflexivity|]). split; [exact Hmk|].
    apply Nat.ltb_ge in Hlen. split; [intros _; lia|].
    destruct mk; [|simpl in Hlen; lia]. simpl.
    rewrite app_nil_r. reflexivity.
Qed.

Lemma deliveryItem_of_spec e sch d s f i :
  Qeq_bool (sub_quantity s) 0 = false ->
  deliveryItem_of e (sched_id sch) d s = Some f -> item_of_subscription sch s (f i).
Proof.
  intros Hq. unfold deliveryItem_of.
  destruct (findById pub_id (sub_publicationId s) (publications d)) as [p|] eqn:Ep;
    [|discriminate].
  destruct (findById addr_id (sub_addressId s) (addresses d)) as [a|] eqn:Ea; [|discriminate].
  intros [= <-]. apply findById_id in Ep, Ea. unfold item_of_subscription, num_or. simpl.
  rewrite Hq. repeat (split; [auto|]). reflexivity.
Qed.

Lemma deliveryItem_of_schedule e scheduleId d s f i :
  deliveryItem_of e scheduleId d s = Some f -> di_scheduleId (f i) = scheduleId.
Proof.
  unfold deliveryItem_of.
  destruct (findById pub_id _ _); [|discriminate].
  destruct (findById addr_id _ _); [|discriminate]. intros [= <-]. reflexivity.
Qed.

Lemma active_in_area_to_deliver aid d :
  active_in_area aid d = List.filter (to_deliver aid) (subscriptions d).
Proof. apply List.filter_ext. intros s. apply andb_comm. Qed.

Lemma given_oid s : is_oid s = true -> given (Some s) = Some s.
Proof. intros H. apply is_oid_length in H. destruct s; [discriminate|reflexivity]. Qed.

Lemma map_opt_total {A B} (f : A -> option B) l :
  (forall x, In x l -> f x <> None) -> exists l', map_opt f l = Some l'.
Proof.
  induction l as [|x r IH]; simpl; intros H; [now exists []|].
  destruct (f x) as [y|] eqn:Ex; [|exfalso; now apply (H x); [left|]].
  destruct IH as [ys ->]; [intros z Hz; apply H; now right|]. now exists (y :: ys).
Qed.

Lemma map_opt_length {A B} (f : A -> option B) l l' :
  map_opt f l = Some l' -> length l' = length l.
Proof. intros H. apply map_opt_Forall2 in H. symmetry. eapply Forall2_length, H. Qed.

Lemma with_ids_ids_in {A B} e (id_of : B -> ObjectId) (mk : ObjectId -> A -> B) l :
  (forall i x, In x l -> id_of (mk i x) = i) ->
  forall k, map id_of (with_ids e k mk l) = map (fresh e) (seq k (length l)).
Proof.
  induction l as [|x r IH]; intros Hid k; simpl; [reflexivity|].
  rewrite Hid by now left. rewrite IH; [reflexivity|]. intros i y Hy. apply Hid. now right.
Qed.

(** A schedule that nothing stands in the way of is created. *)
Lemma createSchedule_passes e manager pid aid rid day notes d :
  is_oid pid = true -> is_oid aid = true -> is_oid rid = true ->
  schedule_clear e manager (castObjectId pid) (castObjectId aid) (castObjectId rid) d ->
  code (fst (createSchedule e manager (Some pid) (Some aid) (Some rid) (DateValue day)
               notes d)) = 201.
Proof.
  intros Hp Ha Hr (Harea & Hpers & Hroute & Hres & Hinj & Hnew & Hguard).
  unfold createSchedule, create_with_session, transactional, bind, get, try_modify,
    try_in_session, commitTransaction, abortTransaction, modify, ret, respond, throw,
    startTransaction.
  rewrite !given_oid by assumption. rewrite Ha, Hp, Hr. cbv zeta.
  cbn [negb committed working].
  destruct (List.find _ (areas d)) eqn:Ea.
  2:{ exfalso. destruct Harea as (a & Hin & Hid & Hm).
      apply (find_none _ _ Ea) in Hin. rewrite Hid, String.eqb_refl in Hin.
      apply mem_str_In in Hm. rewrite Hm in Hin. discriminate. }
  destruct (List.find _ (personnel d)) eqn:Ep.
  2:{ exfalso. destruct Hpers as (p & Hin & Hid & Hm & Hact).
      apply (find_none _ _ Ep) in Hin. rewrite Hid, String.eqb_refl, Hact in Hin.
      apply mem_str_In in Hm. rewrite Hm in Hin. discriminate. }
  destruct (List.find _ (routes d)) eqn:Er.
  2:{ exfalso. destruct Hroute as (x & Hin & Hid & Hra & Hrp & Hact).
      apply (find_none _ _ Er) in Hin.
      rewrite Hid, Hra, Hrp, !String.eqb_refl, Hact in Hin. discriminate. }
  cbn [committed working schedules].
  rewrite insertOne_ok by (simpl; apply Hnew). cbn [committed working].
  change (active_in_area (castObjectId aid) (set_schedules _ d))
    with (active_in_area (castObjectId aid) d).
  match goal with |- context [map_opt ?f ?l] =>
    destruct (map_opt_total f l) as [mk Hmk]; [|rewrite Hmk]
  end.
  { intros s Hs. rewrite active_in_area_to_deliver in Hs. apply filter_In in Hs as [Hin Hs].
    destruct (Hres s Hin Hs) as [Hpub Haddr]. unfold deliveryItem_of.
    cbn [publications addresses set_schedules].
    destruct (findById pub_id (sub_publicationId s) (publications d)) eqn:E1;
      [|now apply findById_stored in E1].
    destruct (findById addr_id (sub_addressId s) (addresses d)) eqn:E2;
      [discriminate|now apply findById_stored in E2]. }
  rewrite with_ids_length.
  destruct (0 <? length mk)%nat eqn:Hlen;
    cbn [committed working deliveryItems set_schedules]; [|reflexivity].
  assert (Hg : createGuard (mongoose e) && (1 <? length mk)%nat = false).
  { destruct (createGuard (mongoose e)); [|reflexivity]. simpl. apply Nat.ltb_ge.
    rewrite (map_opt_length _ _ _ Hmk), active_in_area_to_deliver. now apply Hguard. }
  rewrite Hg. cbn [committed working deliveryItems set_schedules].
  assert (Hids : map di_id (with_ids e 1 (fun i f => f i) mk)
                 = map (fresh e) (seq 1 (length mk))).
  { apply with_ids_ids_in. intros i f Hf.
    apply (In_Forall2_r _ _ _ _ (map_opt_Forall2 _ _ _ Hmk)) in Hf as (s & _ & Hf).
    unfold deliveryItem_of in Hf.
    destruct (findById pub_id _ _); [|discriminate].
    destruct (findById addr_id _ _); [|discriminate]. now inversion Hf. }
  rewrite insertMany_ok; [reflexivity| |].
  - rewrite Hids. now apply NoDup_map_seq.
  - intros x Hx Hin. apply in_map with (f := di_id) in Hx. rewrite Hids in Hx.
    apply in_map_iff in Hx as (k & Hk & _). rewrite <- Hk in Hin.
    exact (proj2 (Hnew k) Hin).
Qed.

(** C9.  No stored subscription having the quantity 0, a schedule creation
    answered 201 has stored one schedule, Pending, and after it one delivery
    item per Active subscription of the area, in their order, each Pending,
    on that schedule, for the publication and the address of the
    subscription and with its quantity; nothing else is added to the two
    collections.  Any other answer leaves the store as it was, so the
    schedule is never stored without its items.  And a creation that nothing
    stands in the way of is answered 201. *)
Theorem createSchedule_materializes e manager personnelId areaId routeId date notes d r d' :
  quantities_set d ->
  createSchedule e manager personnelId areaId routeId date notes d = (r, d') ->
  (code r = 201 ->
   exists sch aid,
     option_map castObjectId (given areaId) = Some aid
     /\ schedules d' = schedules d ++ [sch]
     /\ sched_status sch = "Pending" /\ sched_areaId sch = Some aid
     /\ deliveryItems d' = deliveryItems d ++ new_deliveryItems d d'
     /\ List.Forall2 (item_of_subscription sch)
          (List.filter (to_deliver aid) (subscriptions d)) (new_deliveryItems d d'))
  /\ (code r <> 201 -> d' = d)
  /\ (forall pid aid rid day,
        personnelId = Some pid -> areaId = Some aid -> routeId = Some rid ->
        date = DateValue day ->
        is_oid pid = true -> is_oid aid = true -> is_oid rid = true ->
        schedule_clear e manager (castObjectId pid) (castObjectId aid) (castObjectId rid) d ->
        code r = 201).
Proof.
  intros Hq Hrun.
  assert (Hclear : forall pid aid rid day,
            personnelId = Some pid -> areaId = Some aid -> routeId = Some rid ->
            date = DateValue day ->
            is_oid pid = true -> is_oid aid = true -> is_oid rid = true ->
            schedule_clear e manager (castObjectId pid) (castObjectId aid)
              (castObjectId rid) d ->
            code r = 201).
  { intros pid aid rid day -> -> -> -> Hp Ha Hr Hc.
    pose proof (createSchedule_passes e manager pid aid rid day notes d Hp Ha Hr Hc) as H.
    now rewrite Hrun in H. }
  apply createSchedule_run in Hrun
    as [(Hc & pid & aid & rid & day & mk & Hp & Ha & Hr & Hd & Hmk & _ & ->)|[Hc ->]].
  2:{ split; [intros; contradiction|]. split; [reflexivity|exact Hclear]. }
  split; [|split; [intros; contradiction|exact Hclear]]. intros _.
  eexists. exists aid. split; [assumption|]. split; [reflexivity|].
  split; [reflexivity|]. split; [reflexivity|].
  unfold new_deliveryItems. cbn [deliveryItems set_deliveryItems].
  rewrite skipn_length_app. split; [reflexivity|].
  rewrite <- active_in_area_to_deliver.
  assert (Hact : forall s, In s (active_in_area aid d) -> Qeq_bool (sub_quantity s) 0 = false).
  { intros s Hs. apply filter_In in Hs as [Hs _]. now apply Hq. }
  apply map_opt_Forall2 in Hmk.
  pose proof (with_ids_Forall2 e (fun i f => f i) mk 1) as Hids.
  revert Hmk Hact Hids. generalize (with_ids e 1 (fun i f => f i) mk).
  generalize (active_in_area aid d). intros subs items Hmk. revert items.
  induction Hmk as [|s f subs mk Hf Hmk IH]; intros items Hact Hids.
  - inversion Hids. constructor.
  - inversion Hids as [|? y ? items' [i ->] Hrest]; subst. constructor.
    + eapply deliveryItem_of_spec; [apply Hact; now left|exact Hf].
    + apply IH; [intros z Hz; apply Hact; now right|exact Hrest].
Qed.

Lemma createSchedule_materializes_witness :
  exists sch,
    fst (createSchedule Scenario.env Scenario.manager (Some Scenario.deliverer)
           (Some Scenario.area) (Some Scenario.route) (DateValue (Scenario.day 2024 6 10))
           None Desk.two_areas)
    = {| code := 201; message := "Schedule created successfully with delivery items" |}
    /\ schedules
         (snd (createSchedule Scenario.env Scenario.manager (Some Scenario.deliverer)
                 (Some Scenario.area) (Some Scenario.route)
                 (DateValue (Scenario.day 2024 6 10)) None Desk.two_areas))
       = [sch]
    /\ sched_status sch = "Pending"
    /\ List.Forall2 (item_of_subscription sch)
         [Desk.a_subscription "51" Scenario.customer Scenario.publication Scenario.address 2
            "Active" Scenario.area;
          Desk.a_subscription "52" Desk.customer2 Scenario.publication Desk.address2 1
            "Active" Scenario.area;
          Desk.a_subscription "53" Scenario.customer Desk.publication2 Scenario.address 3
            "Active" Scenario.area]
         (new_deliveryItems Desk.two_areas
            (snd (createSchedule Scenario.env Scenario.manager (Some Scenario.deliverer)
                    (Some Scenario.area) (Some Scenario.route)
                    (DateValue (Scenario.day 2024 6 10)) None Desk.two_areas)))
    /\ map di_quantity
         (new_deliveryItems Desk.two_areas
            (snd (createSchedule Scenario.env Scenario.manager (Some Scenario.deliverer)
                    (Some Scenario.area) (Some Scenario.route)
                    (DateValue (Scenario.day 2024 6 10)) None Desk.two_areas)))
       = [2%Q; 1%Q; 3%Q].
Proof.
  pose (res := createSchedule Scenario.env Scenario.manager (Some Scenario.deliverer)
                 (Some Scenario.area) (Some Scenario.route)
                 (DateValue (Scenario.day 2024 6 10)) None Desk.two_areas).
  assert (Hq : quantities_set Desk.two_areas).
  { intros s Hs. simpl in Hs. repeat destruct Hs as [<-|Hs]; try reflexivity. contradiction. }
  destruct (createSchedule_materializes Scenario.env Scenario.manager (Some Scenario.deliverer)
              (Some Scenario.area) (Some Scenario.route) (DateValue (Scenario.day 2024 6 10))
              None Desk.two_areas (fst res) (snd res) Hq (surjective_pairing res))
    as (Hok & _ & _).
  destruct (Hok eq_refl) as (sch & aid & Ha & Hs & Hp & _ & _ & Hitems).
  inversion Ha; subst aid.
  exists sch. split; [reflexivity|]. split; [exact Hs|]. split; [exact Hp|].
  split; [exact Hitems|reflexivity].
Defined.

(** ** Deliverer commission calculator *)

Lemma payments_loop_unfiltered e month year d deliverers : forall acc out,
  strictQuery (mongoose e) = false ->
  payments_loop e month year d deliverers acc = Some out ->
  (forall f i, In f acc -> dpay_amount (f i) = 0%Q) ->
  forall f i, In f out -> dpay_amount (f i) = 0%Q.
Proof.
  induction deliverers as [|p r IH]; simpl; intros acc out Hq Hloop Hacc.
  - inversion Hloop; subst. assumption.
  - destruct (existingPayment month year p d); [eapply IH; eassumption|].
    destruct (new_Date year (month - 1) 1) as [startDate|]; [|discriminate].
    destruct (new_Date year month 0) as [endDate|]; [|discriminate].
    rewrite filter_none in Hloop
      by (intros x _; unfold delivered_in_period; now rewrite Hq).
    simpl in Hloop. eapply IH; [exact Hq|exact Hloop|].
    intros f i Hin. apply in_app_or in Hin as [Hin|[<-|[]]]; [now apply Hacc|reflexivity].
Qed.

(** Without [strictQuery] the filter on ['schedule.personnelId'] selects no
    item at all, and every payment is created with amount 0. *)
Lemma processDelivererPayments_zero e manager month year d r d' p :
  strictQuery (mongoose e) = false ->
  processDelivererPayments e manager month year d = (r, d') ->
  In p (new_delivererPayments d d') -> dpay_amount p = 0%Q.
Proof.
  intros Hq. unfold processDelivererPayments, create_with_session, transactional, bind, get,
    try_modify, try_in_session, commitTransaction, modify, ret, throw, startTransaction.
  cbn [committed working].
  destruct (payments_loop e month year d (deliverers_in manager d) []) as [out|] eqn:Hloop.
  2:{ destruct (new_Date year (month - 1) 1), (new_Date year month 0);
        intros H; inversion H; subst; unfold new_delivererPayments; now rewrite skipn_all. }
  assert (Hout : forall p, In p (with_ids e 0 (fun i f => f i) out) -> dpay_amount p = 0%Q).
  { intros x Hx.
    destruct (In_Forall2_r _ _ _ _ (with_ids_Forall2 e (fun i f => f i) out 0) Hx)
      as (f & Hf & i & ->).
    eapply payments_loop_unfiltered; [exact Hq|exact Hloop| |exact Hf]. intros ? ? []. }
  destruct (0 <? length (with_ids e 0 (fun i f => f i) out))%nat; cbn [committed working].
  - destruct (createGuard (mongoose e) && _); cbn [committed working];
      [intros H; inversion H; subst; unfold new_delivererPayments; now rewrite skipn_all|].
    destruct (insertMany dpay_id _ (delivererPayments d)) as [l|] eqn:Hins;
      cbn [committed working]; intros H; inversion H; subst; unfold new_delivererPayments.
    + apply insertMany_app in Hins. subst l. simpl. rewrite skipn_length_app. apply Hout.
    + now rewrite skipn_all.
  - intros H. inversion H; subst. unfold new_delivererPayments. now rewrite skipn_all.
Qed.

(** C5 against the code.  Two active deliverers of the area at 10 percent; the
    first has delivered 2 copies at 50 on 10 June 2024, the second nothing, so
    the commissions due for June are 10 and 0.  The payments created are 0 and
    0 when the filter path is sent to the server, and 10 and 10 when
    [strictQuery] drops it: in neither case the items of the deliverer.  And
    where [create()] refuses several documents in a session, the run for the
    two deliverers is answered 500 and creates no payment at all. *)
Theorem processDelivererPayments_ignores_personnel :
  map (fun p => Qred (commission_due Scenario.commission_db 6 2024 p))
    (deliverers_in Scenario.manager Scenario.commission_db) = [10%Q; 0%Q]
  /\ map (fun p => (dpay_personnelId p, Qred (dpay_amount p)))
       (delivererPayments
          (snd (processDelivererPayments
                  (Scenario.with_mongoose
                     {| strictQuery := false; ignoreUndefined := false;
                        createGuard := false |})
                  Scenario.manager 6 2024 Scenario.commission_db)))
     = [(Scenario.deliverer, 0%Q); (Scenario.deliverer2, 0%Q)]
  /\ map (fun p => (dpay_personnelId p, Qred (dpay_amount p)))
       (delivererPayments
          (snd (processDelivererPayments
                  (Scenario.with_mongoose
                     {| strictQuery := true; ignoreUndefined := false;
                        createGuard := false |})
                  Scenario.manager 6 2024 Scenario.commission_db)))
     = [(Scenario.deliverer, 10%Q); (Scenario.deliverer2, 10%Q)]
  /\ (forall strict,
        code (fst (processDelivererPayments
                     (Scenario.with_mongoose
                        {| strictQuery := strict; ignoreUndefined := false;
                           createGuard := true |})
                     Scenario.manager 6 2024 Scenario.commission_db)) = 500
        /\ snd (processDelivererPayments
                  (Scenario.with_mongoose
                     {| strictQuery := strict; ignoreUndefined := false;
                        createGuard := true |})
                  Scenario.manager 6 2024 Scenario.commission_db)
           = Scenario.commission_db).
Proof.
  split; [|split; [|split]]; try (vm_compute; reflexivity).
  intros [|]; split; vm_compute; reflexivity.
Qed.

(** ** Submission of a New request *)

(** The outcome of [createSubscription]: the subscription it stores is
    Active from the start. *)
Lemma createSubscription_run e user publicationId addressId quantity prefs d r d' :
  createSubscription e user publicationId addressId quantity prefs d = (r, d') ->
  code r = 201 ->
  exists s q,
    subscriptions d' = subscriptions d ++ [s]
    /\ requests d' = requests d ++ [q]
    /\ sub_status s = "Active" /\ sub_userId s = user /\ sub_quantity s = quantity
    /\ req_requestType q = "New" /\ req_status q = Some "Pending"
    /\ req_subscriptionId q = Some (sub_id s).
Proof.
  unfold createSubscription, plain, bind, get, try_modify, ret, respond.
  assert (Hfail : forall x d0, (x, d0) = (r, d') -> code x <> 201 -> code r = 201 -> False).
  { intros x d0 H Hx Hr. inversion H; subst. contradiction. }
  destruct (is_oid publicationId); cbn [negb];
    [|intros H Hr; exfalso; eapply Hfail; [exact H|discriminate|exact Hr]].
  destruct (is_oid addressId); cbn [negb];
    [|intros H Hr; exfalso; eapply Hfail; [exact H|discriminate|exact Hr]].
  destruct (positive_integer quantity); cbn [negb];
    [|intros H Hr; exfalso; eapply Hfail; [exact H|discriminate|exact Hr]].
  destruct prefs as [prefs|];
    [|intros H Hr; exfalso; eapply Hfail; [exact H|discriminate|exact Hr]].
  destruct (truthy (pref_placement prefs)); cbv zeta; cbn [negb];
    [|intros H Hr; exfalso; eapply Hfail; [exact H|discriminate|exact Hr]].
  destruct (List.find _ (publications d)) as [p|];
    [|intros H Hr; exfalso; eapply Hfail; [exact H|discriminate|exact Hr]].
  destruct (List.find _ (addresses d)) as [a|];
    [|intros H Hr; exfalso; eapply Hfail; [exact H|discriminate|exact Hr]].
  destruct (save_new_subscription _ d) as [d1|] eqn:Hs;
    [|intros H Hr; exfalso; eapply Hfail; [exact H|discriminate|exact Hr]].
  destruct (save_new_request _ d1) as [d2|] eqn:Hq;
    [|intros H Hr; exfalso; eapply Hfail; [exact H|discriminate|exact Hr]].
  destruct (log_activity user "New Subscription" d2) as [d3|] eqn:Hl;
    [|intros H Hr; exfalso; eapply Hfail; [exact H|discriminate|exact Hr]].
  intros H _. inversion H; subst. clear H.
  unfold save_new_subscription in Hs. destruct (validate_subscription _); [|discriminate].
  destruct (insertOne sub_id _ (subscriptions d)) as [l1|] eqn:E1; [|discriminate].
  apply insertOne_app in E1. inversion Hs; subst. clear Hs.
  unfold save_new_request in Hq. destruct (validate_request _); [|discriminate].
  destruct (insertOne req_id _ _) as [l2|] eqn:E2; [|discriminate].
  apply insertOne_app in E2. inversion Hq; subst. clear Hq.
  unfold log_activity in Hl. destruct (mem_str _ _); [|discriminate]. inversion Hl; subst.
  eexists. eexists. simpl. split; [reflexivity|]. split; [reflexivity|].
  repeat (split; [reflexivity|]). reflexivity.
Qed.

(** C2 against the code.  The customer submits a New request for 2 copies at
    50: the request is Pending, and the subscription stored with it is Active.
    A billing run of the manager while the request is pending bills it, 100;
    and so does a billing run after the manager has rejected the request,
    which leaves the subscription Active. *)
Theorem unapproved_subscription_is_billed :
  map (fun q => (req_requestType q, req_status q, req_subscriptionId q))
    (requests Scenario.submitted)
  = [("New", Some "Pending", option_map sub_id (head (subscriptions Scenario.submitted)))]
  /\ map sub_status (subscriptions Scenario.submitted) = ["Active"]
  /\ map (fun b => (bill_userId b, bill_totalAmount b))
       (bills (snd (generateBills Scenario.env Scenario.manager 6 2024 Scenario.submitted)))
     = [(Scenario.customer, 100%Q)]
  /\ map req_status (requests Scenario.rejected) = [Some "Rejected"]
  /\ map sub_status (subscriptions Scenario.rejected) = ["Active"]
  /\ map (fun b => (bill_userId b, bill_totalAmount b))
       (bills (snd (generateBills Scenario.env Scenario.manager 6 2024 Scenario.rejected)))
     = [(Scenario.customer, 100%Q)].
Proof. repeat split; vm_compute; reflexivity. Qed.

(** ** Subscription change state machine *)

Lemma uncommitted_ret {A} (a : A) : uncommitted (ret a).
Proof. intros t. reflexivity. Qed.

Lemma uncommitted_throw {A} e : uncommitted (throw (A := A) e).
Proof. intros t. reflexivity. Qed.

Lemma uncommitted_get : uncommitted get.
Proof. intros t. reflexivity. Qed.

Lemma uncommitted_respond {A} r : code r <> 200 -> uncommitted (respond (A := A) r).
Proof. intros H t. now split. Qed.

Lemma uncommitted_abort : uncommitted abortTransaction.
Proof. intros t. reflexivity. Qed.

Lemma uncommitted_session f : uncommitted (modify (in_session f)).
Proof. intros t. reflexivity. Qed.

Lemma uncommitted_try_session f e : uncommitted (try_modify (try_in_session f) e).
Proof.
  intros t. unfold try_modify, try_in_session. destruct (f (working t)); reflexivity.
Qed.

Lemma uncommitted_bind {A B} (m : M A) (k : A -> M B) :
  uncommitted m -> (forall a, uncommitted (k a)) -> uncommitted (bind m k).
Proof.
  intros Hm Hk t. unfold bind. specialize (Hm t). destruct (m t) as [a t1|r t1|e t1].
  - specialize (Hk a t1). destruct (k a t1) as [b t2|r t2|e t2]; try destruct Hk; try split;
      congruence.
  - assumption.
  - assumption.
Qed.

Create HintDb uncommitted.

#[local] Hint Resolve uncommitted_ret uncommitted_throw uncommitted_get uncommitted_abort
  uncommitted_session uncommitted_try_session : uncommitted.

Ltac uncommitted_tac :=
  repeat first
    [ apply uncommitted_bind; [|intros ?]
    | apply uncommitted_respond; discriminate
    | solve [auto with uncommitted]
    | match goal with
      | |- uncommitted (match ?x with _ => _ end) => destruct x
      | |- uncommitted (if ?x then _ else _) => destruct x
      | |- uncommitted (let (_, _) := ?x in _) => destruct x
      end ].

Lemma approve_new_uncommitted e r pub addr sub area :
  uncommitted (approve_new e r pub addr sub area).
Proof. unfold approve_new. uncommitted_tac. Qed.

Lemma approve_update_uncommitted r addr sub : uncommitted (approve_update r addr sub).
Proof.
  unfold approve_update. intros t. unfold bind, get.
  destruct (populate sub_id (option_map sub_id sub) (subscriptions (working t))).
  - apply (uncommitted_bind _ _ (uncommitted_try_session _ _) (fun _ => uncommitted_ret r)).
  - split; [reflexivity|discriminate].
Qed.

Lemma approve_cancel_uncommitted r sub : uncommitted (approve_cancel r sub).
Proof. unfold approve_cancel. uncommitted_tac. Qed.

Lemma request_area_uncommitted o manager r pub addr sub d :
  uncommitted (request_area o manager r pub addr sub d).
Proof. unfold request_area. uncommitted_tac. Qed.

Lemma apply_decision_uncommitted e status r pub addr sub area :
  uncommitted (apply_decision e status r pub addr sub area).
Proof.
  unfold apply_decision.
  repeat match goal with
         | |- uncommitted (if ?x then _ else _) => destruct x
         end;
    auto using approve_new_uncommitted, approve_update_uncommitted,
      approve_cancel_uncommitted, uncommitted_ret.
Qed.

Lemma decided_like_refl r : decided_like r r.
Proof. repeat split. Qed.

Ltac run_txn :=
  unfold bind, get, ret, respond, throw, try_modify, try_in_session, modify, in_session,
    abortTransaction; cbn [committed working].

(** What the New case does when it completes: the subscription of the request
    existed, and it is stored activated from the effective date. *)
Lemma approve_new_val e r pub addr sub area t r' t' :
  approve_new e r pub addr sub area t = Val r' t' ->
  decided_like r r'
  /\ requests (working t') = requests (working t)
  /\ bills (working t') = bills (working t)
  /\ exists s0 s,
       sub = Some s0
       /\ findById sub_id (sub_id s0) (subscriptions (working t)) = Some s
       /\ subscriptions (working t')
          = replaceOne sub_id (activate (req_effectiveDate r) s) (subscriptions (working t)).
Proof.
  unfold approve_new. run_txn.
  assert (Hnew : forall r1 p a,
            save_new_subscription (subscription_of_request e r1 p a area) (working t) = None).
  { intros. unfold save_new_subscription. reflexivity. }
  destruct addr as [a|].
  - destruct sub as [s0|].
    + destruct (findById sub_id (sub_id s0) (subscriptions (working t))) as [s|] eqn:Es;
        [|discriminate].
      unfold save_subscription. destruct (validate_subscription _); [|discriminate].
      intros H. inversion H; subst. clear H. cbn [working requests subscriptions set_subscriptions].
      split; [apply decided_like_refl|]. split; [reflexivity|]. split; [reflexivity|].
      exists s0, s. auto.
    + destruct pub as [p|]; [|discriminate]. rewrite Hnew. discriminate.
  - discriminate.
Qed.

Lemma approve_update_val r addr sub t r' t' :
  approve_update r addr sub t = Val r' t' ->
  r' = r /\ requests (working t') = requests (working t)
  /\ bills (working t') = bills (working t).
Proof.
  unfold approve_update. run_txn.
  destruct (populate sub_id (option_map sub_id sub) (subscriptions (working t))) as [s|];
    [|discriminate].
  unfold save_subscription. destruct (validate_subscription _); [|discriminate].
  intros H. inversion H; subst. repeat split; reflexivity.
Qed.

Lemma approve_cancel_val r sub t r' t' :
  approve_cancel r sub t = Val r' t' ->
  r' = r /\ requests (working t') = requests (working t)
  /\ bills (working t') = bills (working t).
Proof.
  unfold approve_cancel. run_txn. intros H. inversion H; subst. split; [reflexivity|].
  cbn [working]. destruct (populate sub_id _ _); split; reflexivity.
Qed.

(** The decision never touches the stored requests, nor what the manager
    decided. *)
Lemma apply_decision_val e status r pub addr sub area t r' t' :
  apply_decision e status r pub addr sub area t = Val r' t' ->
  decided_like r r' /\ requests (working t') = requests (working t)
  /\ bills (working t') = bills (working t).
Proof.
  unfold apply_decision. intros H.
  destruct (opt_eqb status "Approved");
    [|inversion H; subst; split; [apply decided_like_refl|split; reflexivity]].
  destruct (String.eqb (req_requestType r) "New").
  { apply approve_new_val in H. tauto. }
  destruct (String.eqb (req_requestType r) "Update").
  { apply approve_update_val in H as [-> H]. split; [apply decided_like_refl|assumption]. }
  destruct (String.eqb (req_requestType r) "Cancel").
  { apply approve_cancel_val in H as [-> H]. split; [apply decided_like_refl|assumption]. }
  inversion H; subst. split; [apply decided_like_refl|split; reflexivity].
Qed.

(** The outcome of a decision, read off [handleSubscriptionRequest]: either
    200, and the store is the working copy of the transaction with the
    request saved on top of what the decision did to the subscription, or
    another answer, and the store is the one before the call. *)
Lemma handleSubscriptionRequest_run e manager id status comments d r d' :
  handleSubscriptionRequest e manager id status comments d = (r, d') ->
  (code r = 200
   /\ exists request area request' w,
        findById req_id (castObjectId id) (requests d) = Some request
        /\ apply_decision e status (process_request e manager status comments request)
             (populate pub_id (req_publicationId request) (publications d))
             (populate addr_id (req_newAddressId request) (addresses d))
             (populate sub_id (req_subscriptionId request) (subscriptions d))
             area (startTransaction d)
           = Val request' {| committed := d; working := w |}
        /\ validate_request request' = true
        /\ d' = set_requests (replaceOne req_id request' (requests w)) w)
  \/ (code r <> 200 /\ d' = d).
Proof.
  unfold handleSubscriptionRequest, transactional.
  assert (Hfail : forall x, (x, d) = (r, d') -> code x <> 200 -> code r <> 200 /\ d' = d).
  { intros x H Hx. inversion H; subst. now split. }
  destruct (is_oid id); cbv zeta; cbn [negb];
    [|intros H; right; eapply Hfail; [exact H|discriminate]].
  unfold bind at 1. unfold get at 1. cbn [committed startTransaction].
  destruct (findById req_id (castObjectId id) (requests d)) as [request|] eqn:Ereq;
    [|intros H; right; eapply Hfail; [exact H|discriminate]].
  unfold bind at 1.
  pose proof (request_area_uncommitted (mongoose e) manager request
                (populate pub_id (req_publicationId request) (publications d))
                (populate addr_id (req_newAddressId request) (addresses d))
                (populate sub_id (req_subscriptionId request) (subscriptions d)) d
                {| committed := d; working := d |}) as Harea.
  assert (Hareaw : forall a t1,
            request_area (mongoose e) manager request
              (populate pub_id (req_publicationId request) (publications d))
              (populate addr_id (req_newAddressId request) (addresses d))
              (populate sub_id (req_subscriptionId request) (subscriptions d)) d
              {| committed := d; working := d |} = Val a t1 ->
            t1 = {| committed := d; working := d |}).
  { unfold request_area, ret, throw. intros a t1.
    destruct (String.eqb (req_requestType request) "New");
      [destruct (populate pub_id _ _)|]; intros H; inversion H; reflexivity. }
  destruct (request_area _ _ _ _ _ _ _ _) as [area t1|resp t1|err t1] eqn:Ea;
    cbn [committed] in Harea.
  2:{ destruct Harea as [Hc Hr]. intros H. inversion H; subst r d'. right. now split. }
  2:{ intros H. inversion H; subst r d'. right. split; [discriminate|assumption]. }
  rewrite (Hareaw _ _ eq_refl) in *. clear Hareaw Harea.
  destruct area as [area|]; [|intros H; right; eapply Hfail; [exact H|discriminate]].
  unfold bind at 1.
  pose proof (apply_decision_uncommitted e status
                (process_request e manager status comments request)
                (populate pub_id (req_publicationId request) (publications d))
                (populate addr_id (req_newAddressId request) (addresses d))
                (populate sub_id (req_subscriptionId request) (subscriptions d)) area
                {| committed := d; working := d |}) as Hdec.
  destruct (apply_decision _ _ _ _ _ _ _ _) as [request' t2|resp t2|err t2] eqn:Ed;
    cbn [committed] in Hdec.
  2:{ destruct Hdec as [Hc Hr]. intros H. inversion H; subst r d'. right. now split. }
  2:{ intros H. inversion H; subst r d'. right. split; [discriminate|assumption]. }
  destruct t2 as [c2 w]. cbn [committed] in Hdec. subst c2.
  run_txn. unfold commitTransaction, modify. unfold save_request.
  destruct (validate_request request') eqn:Ev; cbn [committed working];
    [|intros H; right; eapply Hfail; [exact H|discriminate]].
  intros H. inversion H; subst. left. split; [reflexivity|].
  exists request, area, request', w. split; [reflexivity|]. split; [exact Ed|].
  split; [exact Ev|reflexivity].
Qed.


(** The claim of C7 fails: a request the manager has approved is processed
    again by the next decision, which turns it to Rejected. *)
Lemma decided_request_is_decided_again :
  map req_status (requests Scenario.approved) = [Some "Approved"]
  /\ fst (handleSubscriptionRequest Scenario.env Scenario.manager Scenario.request
            (Some "Rejected") None Scenario.approved)
     = {| code := 200; message := "Subscription request handled successfully" |}
  /\ map req_status
       (requests
          (snd (handleSubscriptionRequest Scenario.env Scenario.manager Scenario.request
                  (Some "Rejected") None Scenario.approved)))
     = [Some "Rejected"].
Proof. repeat split; vm_compute; reflexivity. Qed.

(** Nor is the status of the body checked before it is assigned: a decision
    whose body has no status is answered 200 and leaves the request, Pending
    until then, with no status at all, and its subscription as it was. *)
Lemma decision_without_status :
  map req_status (requests Scenario.submitted) = [Some "Pending"]
  /\ fst (handleSubscriptionRequest Scenario.env Scenario.manager Scenario.request None None
            Scenario.submitted)
     = {| code := 200; message := "Subscription request handled successfully" |}
  /\ map (fun q => (req_status q, req_processedBy q))
       (requests
          (snd (handleSubscriptionRequest Scenario.env Scenario.manager Scenario.request None
                  None Scenario.submitted)))
     = [(None, Some Scenario.manager)]
  /\ subscriptions
       (snd (handleSubscriptionRequest Scenario.env Scenario.manager Scenario.request None
               None Scenario.submitted))
     = subscriptions Scenario.submitted.
Proof. repeat split; vm_compute; reflexivity. Qed.

(** A status outside the enumeration is refused by the validator of the
    schema, at the save of the request: the answer is 500 and nothing is
    stored. *)
Lemma decision_of_unknown_status e manager id status comments d :
  ~ In status request_statuses ->
  exists r, handleSubscriptionRequest e manager id (Some status) comments d = (r, d)
            /\ code r <> 200.
Proof.
  intros Hout.
  destruct (handleSubscriptionRequest e manager id (Some status) comments d) as [r d'] eqn:Hrun.
  apply handleSubscriptionRequest_run in Hrun
    as [(_ & request & area & request' & w & Hreq & Hdec & Hval & ->)|[Hn ->]].
  - exfalso. apply apply_decision_val in Hdec as [(_ & _ & Hst & _) _].
    simpl in Hst. unfold validate_request in Hval. apply andb_prop in Hval as [_ Hv].
    rewrite Hst in Hv. apply Hout. now apply mem_str_In.
  - exists r. now split.
Qed.

(** C7, amended.  The decision does not look at the current status of the
    request.  Whenever it answers 200, for a request in any status, the stored
    request carries the status of the body, which is one of Pending, Approved
    and Rejected, or none at all when the body gives none, and the deciding
    manager and the time of the decision; the other requests are
    untouched. *)
Theorem handleSubscriptionRequest_overwrites_status e manager id status comments d r d' :
  List.NoDup (map req_id (requests d)) ->
  handleSubscriptionRequest e manager id status comments d = (r, d') ->
  code r = 200 ->
  exists old new,
    findById req_id (castObjectId id) (requests d) = Some old
    /\ findById req_id (castObjectId id) (requests d') = Some new
    /\ req_status new = status
    /\ (forall given, status = Some given -> In given request_statuses)
    /\ req_processedBy new = Some manager
    /\ req_processedDate new = Some (now e)
    /\ (forall q, In q (requests d') -> q = new \/ In q (requests d)).
Proof.
  intros Hnd Hrun Hc.
  apply handleSubscriptionRequest_run in Hrun
    as [(_ & request & area & request' & w & Hreq & Hdec & Hval & ->)|[Hn _]];
    [|contradiction].
  apply apply_decision_val in Hdec as [(Hid & _ & Hst & Hby & Hdate & _) [Hrw _]].
  cbn [working startTransaction] in Hrw. simpl in Hst, Hby, Hdate, Hid.
  exists request, request'. cbn [requests set_requests]. rewrite Hrw.
  split; [assumption|]. split.
  { unfold findById in *. apply find_replaceOne_same with (x := request); auto.
    rewrite Hid. apply find_some in Hreq. tauto. }
  split; [assumption|]. split.
  { intros given ->. unfold validate_request in Hval. apply andb_prop in Hval as [_ Hv].
    rewrite Hst in Hv. now apply mem_str_In. }
  split; [assumption|]. split; [assumption|]. intros q. apply In_replaceOne.
Qed.

Lemma handleSubscriptionRequest_overwrites_status_witness :
  exists old new,
    findById req_id Scenario.request (requests Scenario.submitted) = Some old
    /\ req_status old = Some "Pending"
    /\ findById req_id Scenario.request (requests Scenario.approved) = Some new
    /\ req_status new = Some "Approved"
    /\ req_processedBy new = Some Scenario.manager.
Proof.
  pose (res := handleSubscriptionRequest Scenario.env Scenario.manager Scenario.request
                 (Some "Approved") None Scenario.submitted).
  destruct (handleSubscriptionRequest_overwrites_status Scenario.env Scenario.manager
              Scenario.request (Some "Approved") None Scenario.submitted (fst res) (snd res))
    as (old & new & Hold & Hnew & Hst & _ & Hby & _).
  - simpl. constructor; [intros []|constructor].
  - apply surjective_pairing.
  - reflexivity.
  - exists old, new. split; [exact Hold|]. split; [|split; [exact Hnew|split; assumption]].
    vm_compute in Hold. inversion Hold. reflexivity.
Defined.


(** Nor is a missing subscription reported as NotFound: approving the
    cancellation of a subscription that is not in the store is answered 403
    when an undefined filter value is sent as null, and 200 when it is left
    out of the filter. *)
Lemma missing_subscription_is_not_NotFound :
  code (fst (handleSubscriptionRequest
               (Scenario.with_mongoose
                  {| strictQuery := false; ignoreUndefined := false; createGuard := false |})
               Scenario.manager Scenario.request (Some "Approved") None
               Scenario.cancel_gone)) = 403
  /\ code (fst (handleSubscriptionRequest
                  (Scenario.with_mongoose
                     {| strictQuery := false; ignoreUndefined := true;
                        createGuard := false |})
                  Scenario.manager Scenario.request (Some "Approved") None
                  Scenario.cancel_gone)) = 200.
Proof. split; vm_compute; reflexivity. Qed.




(** ** What the commission run does get right *)

Lemma payments_loop_guard e month year d deliverers : forall acc out,
  payments_loop e month year d deliverers acc = Some out ->
  exists added,
    out = acc ++ added
    /\ List.Forall2 (fun p f => forall i, payment_of month year p (f i))
         (List.filter (unpaid month year d) deliverers) added.
Proof.
  induction deliverers as [|p r IH]; simpl; intros acc out Hloop.
  - inversion Hloop; subst. exists []. split; [now rewrite app_nil_r|constructor].
  - unfold unpaid at 1. destruct (existingPayment month year p d); simpl.
    + now apply IH.
    + destruct (new_Date year (month - 1) 1) as [startDate|]; [|discriminate].
      destruct (new_Date year month 0) as [endDate|]; [|discriminate].
      destruct (reduce_commission d (dp_commissionRate p) _ 0) as [amount|]; [|discriminate].
      apply IH in Hloop as (added & -> & Hadded).
      exists (newDelivererPayment month year p amount :: added).
      split; [now rewrite <- app_assoc|]. constructor; [|assumption].
      intros i. repeat split.
Qed.

(** What a commission run answered 201 has created. *)
Lemma processDelivererPayments_created e manager month year d r d' :
  processDelivererPayments e manager month year d = (r, d') ->
  code r = 201 ->
  delivererPayments d' = delivererPayments d ++ new_delivererPayments d d'
  /\ List.Forall2 (payment_of month year)
       (List.filter (unpaid month year d) (deliverers_in manager d))
       (new_delivererPayments d d').
Proof.
  unfold processDelivererPayments, create_with_session, transactional, bind, get, try_modify,
    try_in_session, commitTransaction, modify, ret, throw, startTransaction.
  cbn [committed working].
  destruct (payments_loop e month year d (deliverers_in manager d) []) as [out|] eqn:Hloop;
    [|destruct (new_Date year (month - 1) 1), (new_Date year month 0);
      intros H Hc; inversion H; subst; discriminate].
  apply payments_loop_guard in Hloop as (added & Hout & Hadded). simpl in Hout. subst out.
  assert (Hdocs : List.Forall2 (payment_of month year)
                    (List.filter (unpaid month year d) (deliverers_in manager d))
                    (with_ids e 0 (fun i f => f i) added)).
  { eapply Forall2_chain; [exact Hadded|apply (with_ids_Forall2 e (fun i f => f i) added 0)|].
    intros p f x Hf [i ->]. apply Hf. }
  unfold new_delivererPayments.
  destruct (0 <? length (with_ids e 0 (fun i f => f i) added))%nat eqn:Hlen;
    cbn [committed working].
  - destruct (createGuard (mongoose e) && _); cbn [committed working];
      [intros H Hc; inversion H; subst; discriminate|].
    destruct (insertMany dpay_id _ (delivererPayments d)) as [l|] eqn:Hins;
      cbn [committed working]; intros H Hc; inversion H; subst; [|discriminate].
    apply insertMany_app in Hins. subst l. simpl. rewrite skipn_length_app. now split.
  - intros H _. inversion H; subst.
    destruct (with_ids e 0 (fun i f => f i) added); [|discriminate].
    rewrite skipn_all. split; [now rewrite app_nil_r|assumption].
Qed.


(** ** What the area check refuses *)

(** A manager who manages no area is refused, for a request of any kind
    whose publication, when the check reads it, resolves. *)
Lemma no_managed_area_unauthorized o manager request d :
  (forall a, In a (areas d) -> mem_str manager (area_managers a) = false) ->
  (req_requestType request = "New" ->
   populate pub_id (req_publicationId request) (publications d) <> None) ->
  unauthorized o manager request d.
Proof.
  intros Hno Hpub. unfold unauthorized, area_check, request_area.
  assert (Hfind : forall p, List.find (fun a => p a && mem_str manager (area_managers a))
                              (areas d) = None).
  { intros p. apply find_none_all. intros a Ha. rewrite (Hno a Ha). apply andb_false_r. }
  destruct (String.eqb (req_requestType request) "New") eqn:Et.
  - apply String.eqb_eq in Et.
    destruct (populate pub_id (req_publicationId request) (publications d)) as [p|];
      [|now destruct (Hpub Et)].
    unfold ret. now rewrite Hfind.
  - unfold ret. now rewrite Hfind.
Qed.

(** ** The invariant of bills *)

Lemma fold_lines_nonneg l : forall acc,
  (0 <= acc)%Q ->
  (forall it, In it l -> (0 <= nbi_totalPrice it)%Q) ->
  (0 <= fold_left (fun acc it => acc + nbi_totalPrice it) l acc)%Q.
Proof.
  induction l as [|it r IH]; simpl; intros acc Hacc H; [assumption|].
  apply IH; [|intros x Hx; apply H; now right].
  specialize (H it (or_introl eq_refl)). lra.
Qed.

Lemma sum_lines_nonneg l :
  (forall it, In it l -> (0 <= nbi_totalPrice it)%Q) -> (0 <= sum_lines l)%Q.
Proof. intros H. apply fold_lines_nonneg; [apply Qle_refl|assumption]. Qed.

(** The outcome of a payment, read off [makePayment]. *)
Lemma makePayment_run e user billId amount method ref d r d' :
  makePayment e user billId amount method ref d = (r, d') ->
  (code r = 201 /\ exists a b,
      amount = Some a /\ find_bill user (castObjectId billId) d = Some b
      /\ bills d' = replaceOne bill_id (pay_bill a b) (bills d)
      /\ subscriptions d' = subscriptions d)
  \/ (code r <> 201 /\ d' = d).
Proof.
  unfold makePayment, plain, bind, get, try_modify, modify, ret, respond, throw.
  assert (Hfail : forall x, (x, d) = (r, d') -> code x <> 201 -> code r <> 201 /\ d' = d).
  { intros x H Hx. inversion H; subst. now split. }
  destruct (is_oid billId); cbv zeta; cbn [negb];
    [|intros H; right; eapply Hfail; [exact H|discriminate]].
  destruct (find_bill user (castObjectId billId) d) as [b|] eqn:Hb;
    [|intros H; right; eapply Hfail; [exact H|discriminate]].
  destruct amount as [a|]; [|intros H; right; eapply Hfail; [exact H|discriminate]].
  destruct (save_new_payment _ d) as [d1|] eqn:Hsave;
    [|intros H; right; eapply Hfail; [exact H|discriminate]].
  unfold log_activity. cbn [mem_str activity_types existsb String.eqb Ascii.eqb Bool.eqb orb].
  intros H. inversion H; subst. left. split; [reflexivity|]. exists a, b.
  split; [reflexivity|]. split; [reflexivity|]. simpl.
  unfold save_new_payment in Hsave. destruct (_ && _); [|discriminate].
  destruct (insertOne pay_id _ (payments d)); [|discriminate]. inversion Hsave.
  split; reflexivity.
Qed.

Lemma pay_bill_invariant a b :
  (0 < a)%Q -> bill_invariant b -> bill_invariant (pay_bill a b).
Proof.
  intros Ha [H0 Ht]. unfold bill_invariant, pay_bill. simpl.
  destruct (Math_max_0_cases (bill_outstandingAmount b - a)) as [[H1 ->]|[H1 ->]]; split; lra.
Qed.

(** The other handlers do not write bills, and none of them stores a
    subscription of quantity 0. *)
Lemma replaceOne_quantities s l :
  (forall x, In x l -> Qeq_bool (sub_quantity x) 0 = false) ->
  Qeq_bool (sub_quantity s) 0 = false ->
  forall x, In x (replaceOne sub_id s l) -> Qeq_bool (sub_quantity x) 0 = false.
Proof. intros Hl Hs x Hx. apply In_replaceOne in Hx as [->|Hx]; auto. Qed.

Lemma apply_update_quantity r addr s :
  Qeq_bool (sub_quantity s) 0 = false ->
  Qeq_bool (sub_quantity (apply_update r addr s)) 0 = false.
Proof.
  intros Hs. unfold apply_update. simpl. destruct (req_newQuantity r) as [q|]; [|exact Hs].
  destruct (Qeq_bool q 0) eqn:Eq; assumption.
Qed.

Lemma apply_decision_quantities e status r pub addr sub area t r' t' :
  apply_decision e status r pub addr sub area t = Val r' t' ->
  quantities_set (working t) -> quantities_set (working t').
Proof.
  unfold apply_decision. intros H Hq.
  destruct (opt_eqb status "Approved"); [|inversion H; subst; exact Hq].
  destruct (String.eqb (req_requestType r) "New").
  { apply approve_new_val in H as (_ & _ & _ & s0 & s & _ & Hs & Hsubs).
    unfold quantities_set. rewrite Hsubs. apply replaceOne_quantities; [exact Hq|].
    simpl. apply Hq. eapply findById_In, Hs. }
  destruct (String.eqb (req_requestType r) "Update").
  { revert H. unfold approve_update. run_txn.
    destruct (populate sub_id (option_map sub_id sub) (subscriptions (working t)))
      as [s|] eqn:Hs; [|discriminate].
    unfold save_subscription. destruct (validate_subscription _); [|discriminate].
    intros H. inversion H; subst. unfold quantities_set. cbn [working subscriptions set_subscriptions].
    apply replaceOne_quantities; [exact Hq|]. apply apply_update_quantity, Hq.
    unfold populate in Hs. destruct (option_map sub_id sub); [|discriminate].
    eapply findById_In, Hs. }
  destruct (String.eqb (req_requestType r) "Cancel").
  { revert H. unfold approve_cancel. run_txn. intros H. inversion H; subst.
    cbn [working].
    destruct (populate sub_id (option_map sub_id sub) (subscriptions (working t)))
      as [s|] eqn:Hs; [|exact Hq].
    unfold quantities_set. cbn [subscriptions set_subscriptions].
    apply replaceOne_quantities; [exact Hq|]. simpl. apply Hq.
    unfold populate in Hs. destruct (option_map sub_id sub); [|discriminate].
    eapply findById_In, Hs. }
  inversion H; subst. exact Hq.
Qed.

Lemma handleSubscriptionRequest_frame e manager id status comments d r d' :
  handleSubscriptionRequest e manager id status comments d = (r, d') ->
  bills d' = bills d /\ (quantities_set d -> quantities_set d').
Proof.
  intros Hrun.
  apply handleSubscriptionRequest_run in Hrun
    as [(_ & request & area & request' & w & _ & Hdec & _ & ->)|[_ ->]]; [|now split].
  split.
  - apply apply_decision_val in Hdec as (_ & _ & Hb). exact Hb.
  - intros Hq. apply apply_decision_quantities in Hdec; [exact Hdec|exact Hq].
Qed.

Lemma createSchedule_frame e manager personnelId areaId routeId date notes d r d' :
  createSchedule e manager personnelId areaId routeId date notes d = (r, d') ->
  bills d' = bills d /\ subscriptions d' = subscriptions d.
Proof.
  intros Hrun.
  apply createSchedule_run in Hrun
    as [(_ & ? & ? & ? & ? & ? & _ & _ & _ & _ & _ & _ & ->)|[_ ->]];
    split; reflexivity.
Qed.

Lemma processDelivererPayments_frame e manager month year d r d' :
  processDelivererPayments e manager month year d = (r, d') ->
  bills d' = bills d /\ subscriptions d' = subscriptions d.
Proof.
  unfold processDelivererPayments, create_with_session, transactional, bind, get, try_modify,
    try_in_session, commitTransaction, modify, ret, throw, startTransaction.
  cbn [committed working].
  destruct (payments_loop e month year d (deliverers_in manager d) []) as [out|].
  2:{ destruct (new_Date year (month - 1) 1), (new_Date year month 0);
        intros H; inversion H; split; reflexivity. }
  destruct (0 <? length (with_ids e 0 (fun i f => f i) out))%nat; cbn [committed working].
  - destruct (createGuard (mongoose e) && _); cbn [committed working];
      [intros H; inversion H; split; reflexivity|].
    destruct (insertMany dpay_id _ (delivererPayments d)) as [l|];
      cbn [committed working]; intros H; inversion H; split; reflexivity.
  - intros H. inversion H. split; reflexivity.
Qed.

Lemma updateDeliveryStatus_frame e dp id status notes d r d' :
  updateDeliveryStatus e dp id status notes d = (r, d') ->
  bills d' = bills d /\ subscriptions d' = subscriptions d.
Proof.
  unfold updateDeliveryStatus, plain, bind, get, modify, ret, respond, throw.
  destruct (mem_str status ["Delivered"; "Failed"; "Skipped"]); cbn [negb];
    [|intros H; inversion H; split; reflexivity].
  destruct (is_oid id); cbv zeta; cbn [negb]; [|intros H; inversion H; split; reflexivity].
  destruct (findById di_id (castObjectId id) (deliveryItems d));
    [|intros H; inversion H; split; reflexivity].
  destruct (List.find _ (schedules d)); intros H; inversion H; split; reflexivity.
Qed.

Lemma save_new_subscription_frame s d d1 :
  save_new_subscription s d = Some d1 ->
  bills d1 = bills d /\ subscriptions d1 = subscriptions d ++ [s].
Proof.
  unfold save_new_subscription. destruct (validate_subscription s); [|discriminate].
  destruct (insertOne sub_id s (subscriptions d)) as [l|] eqn:E; [|discriminate].
  apply insertOne_app in E. subst l. intros H. inversion H. split; reflexivity.
Qed.

Lemma save_new_request_frame q d d1 :
  save_new_request q d = Some d1 ->
  bills d1 = bills d /\ subscriptions d1 = subscriptions d.
Proof.
  unfold save_new_request. destruct (validate_request q); [|discriminate].
  destruct (insertOne req_id q (requests d)); [|discriminate].
  intros H. inversion H. split; reflexivity.
Qed.

Lemma log_activity_frame user type d d1 :
  log_activity user type d = Some d1 ->
  bills d1 = bills d /\ subscriptions d1 = subscriptions d.
Proof.
  unfold log_activity. destruct (mem_str type activity_types); [|discriminate].
  intros H. inversion H. split; reflexivity.
Qed.

Lemma positive_integer_set q : positive_integer q = true -> Qeq_bool q 0 = false.
Proof.
  unfold positive_integer. intros H. apply andb_prop in H as [_ H].
  apply Qle_bool_iff in H. destruct (Qeq_bool q 0) eqn:E; [|reflexivity].
  apply Qeq_bool_iff in E. lra.
Qed.

Lemma createSubscription_frame e user publicationId addressId quantity prefs d r d' :
  createSubscription e user publicationId addressId quantity prefs d = (r, d') ->
  bills d' = bills d /\ (quantities_set d -> quantities_set d').
Proof.
  unfold createSubscription, plain, bind, get, try_modify, ret, respond.
  destruct (is_oid publicationId); cbn [negb]; [|intros H; inversion H; now split].
  destruct (is_oid addressId); cbn [negb]; [|intros H; inversion H; now split].
  destruct (positive_integer quantity) eqn:Hpos; cbn [negb];
    [|intros H; inversion H; now split].
  destruct prefs as [prefs|]; [|intros H; inversion H; now split].
  destruct (truthy (pref_placement prefs)); cbv zeta; cbn [negb];
    [|intros H; inversion H; now split].
  destruct (List.find _ (publications d)); [|intros H; inversion H; now split].
  destruct (List.find _ (addresses d)); [|intros H; inversion H; now split].
  destruct (save_new_subscription _ d) as [d1|] eqn:H1; [|intros H; inversion H; now split].
  apply save_new_subscription_frame in H1 as [Hb1 Hs1].
  assert (Hq1 : quantities_set d -> quantities_set d1).
  { intros Hq x Hx. rewrite Hs1 in Hx. apply in_app_or in Hx as [Hx|[<-|[]]]; [now apply Hq|].
    simpl. now apply positive_integer_set. }
  destruct (save_new_request _ d1) as [d2|] eqn:H2;
    [|intros H; inversion H; subst; now split].
  apply save_new_request_frame in H2 as [Hb2 Hs2].
  assert (Hq2 : quantities_set d -> quantities_set d2).
  { intros Hq x Hx. rewrite Hs2 in Hx. now apply Hq1. }
  destruct (log_activity user "New Subscription" d2) as [d3|] eqn:H3;
    intros H; inversion H; subst; [apply log_activity_frame in H3 as [Hb3 Hs3]|];
    (split; [congruence|]); [|exact Hq2].
  intros Hq x Hx. rewrite Hs3 in Hx. now apply Hq2.
Qed.

(** ** A billing run goes through *)

(** X1.  A billing run that nothing obstructs is answered 201, or 200 when
    there is no subscription to bill: the customer and the publication of
    every subscription to bill are in the store, the identifiers and the bill
    numbers drawn are new and pairwise different, the three dates of the run
    are valid dates, and, where [create()] refuses several documents in a
    session, there is one subscription to bill at most. *)
Lemma generateBills_succeeds e manager month year d :
  billing_unobstructed e manager month year d ->
  new_Date year month 15 <> None ->
  new_Date year (month - 1) 1 <> None ->
  new_Date year month 0 <> None ->
  (createGuard (mongoose e) = true ->
   (length (billable_subscriptions manager d) <= 1)%nat) ->
  code (fst (generateBills e manager month year d)) = 201
  \/ (billable_subscriptions manager d = []
      /\ generateBills e manager month year d
         = ({| code := 200; message := "No active subscriptions found for bill generation" |},
            d)).
Proof. apply generateBills_passes. Qed.

(** * Further properties *)

(** ** Modification and cancellation requests *)

(** X11.  A request to modify a subscription never goes through: the request
    the handler builds is of type Modify, which is not a type of the schema,
    so its save fails.  Whatever the input, the answer is 404 or 500, and the
    store is left as it was. *)
Theorem updateSubscription_never_succeeds e user id quantity addressId d :
  (code (fst (updateSubscription e user id quantity addressId d)) = 404
   \/ code (fst (updateSubscription e user id quantity addressId d)) = 500)
  /\ snd (updateSubscription e user id quantity addressId d) = d.
Proof.
  unfold updateSubscription, plain, bind, get, try_modify, ret, respond, throw.
  destruct (is_oid id); cbv zeta; cbn [negb]; [|simpl; auto].
  destruct (List.find _ (subscriptions d)); [|simpl; auto].
  destruct (cast_opt addressId); simpl; auto.
Qed.

(** What a cancellation does to the store: it files the request and logs
    the activity, or it changes nothing. *)
Lemma cancelSubscription_run e user id d r d' :
  cancelSubscription e user id d = (r, d') ->
  (code r = 200
   /\ exists s,
        find_subscription user (castObjectId id) d = Some s
        /\ toLowerCase (sub_status s) <> "cancelled"
        /\ ~ In (fresh e 0) (map req_id (requests d))
        /\ d' = set_activities
                  (activities d ++ [{| act_userId := user; act_activityType := "Cancellation" |}])
                  (set_requests (requests d ++ [cancellationRequest e user s]) d))
  \/ (code r <> 200 /\ d' = d).
Proof.
  unfold cancelSubscription, plain, bind, get, try_modify, ret, respond, throw.
  assert (Hfail : forall x, (x, d) = (r, d') -> code x <> 200 -> code r <> 200 /\ d' = d).
  { intros x H Hx. inversion H; subst. now split. }
  destruct (is_oid id); cbv zeta; cbn [negb];
    [|intros H; right; eapply Hfail; [exact H|discriminate]].
  destruct (find_subscription user (castObjectId id) d) as [s|] eqn:Hs;
    [|intros H; right; eapply Hfail; [exact H|discriminate]].
  destruct (String.eqb (toLowerCase (sub_status s)) "cancelled") eqn:Ec;
    [intros H; right; eapply Hfail; [exact H|discriminate]|].
  unfold save_new_request.
  replace (validate_request (cancellationRequest e user s)) with true by reflexivity.
  destruct (insertOne req_id _ (requests d)) as [l|] eqn:Hins;
    [|intros H; right; eapply Hfail; [exact H|discriminate]].
  pose proof (insertOne_fresh _ _ _ _ Hins) as Hnew. apply insertOne_app in Hins. subst l.
  unfold log_activity. cbn [mem_str activity_types existsb String.eqb Ascii.eqb Bool.eqb orb].
  intros H. inversion H; subst. left. split; [reflexivity|]. exists s.
  split; [reflexivity|]. split; [now apply String.eqb_neq|]. split; [exact Hnew|reflexivity].
Qed.

(** X12.  A cancellation asked by the customer is only filed.  Answered 200, it
    has added one Pending request of type Cancel for the subscription,
    effective seven days later, and left every subscription as it was: the
    subscription stays in the billing and in the delivery of its area until a
    manager approves the request. *)
Theorem cancelSubscription_only_files e user id d r d' :
  cancelSubscription e user id d = (r, d') ->
  code r = 200 ->
  (exists q,
     requests d' = requests d ++ [q]
     /\ req_requestType q = "Cancel" /\ req_status q = Some "Pending"
     /\ req_subscriptionId q = Some (castObjectId id) /\ req_userId q = user
     /\ req_effectiveDate q = now e + sevenDays)
  /\ subscriptions d' = subscriptions d
  /\ (forall manager, billable_subscriptions manager d' = billable_subscriptions manager d)
  /\ (forall areaId, active_in_area areaId d' = active_in_area areaId d).
Proof.
  intros Hrun Hc.
  apply cancelSubscription_run in Hrun as [(_ & s & Hs & _ & _ & ->)|[Hn _]]; [|contradiction].
  split; [|repeat split].
  exists (cancellationRequest e user s). split; [reflexivity|]. repeat split.
  simpl. unfold find_subscription in Hs. apply find_some in Hs as [_ Hs].
  apply andb_prop in Hs as [Hs _]. apply String.eqb_eq in Hs. now rewrite Hs.
Qed.

Lemma cancelSubscription_only_files_witness :
  exists q,
    requests (snd (cancelSubscription Scenario.env Scenario.customer Scenario.subscription
                     (Scenario.db 50 2 "Active"))) = [q]
    /\ req_requestType q = "Cancel"
    /\ billable_subscriptions Scenario.manager
         (snd (cancelSubscription Scenario.env Scenario.customer Scenario.subscription
                 (Scenario.db 50 2 "Active")))
       = [Scenario.the_subscription 2 "Active"].
Proof.
  pose (res := cancelSubscription Scenario.env Scenario.customer Scenario.subscription
                 (Scenario.db 50 2 "Active")).
  destruct (cancelSubscription_only_files Scenario.env Scenario.customer Scenario.subscription
              (Scenario.db 50 2 "Active") (fst res) (snd res))
    as ((q & Hq & Ht & _) & _ & Hb & _).
  - apply surjective_pairing.
  - reflexivity.
  - exists q. split; [exact Hq|]. split; [exact Ht|]. rewrite Hb. reflexivity.
Defined.

Lemma replaceOne_unique {A} (id_of : A -> ObjectId) y l z :
  List.NoDup (map id_of l) -> In z (replaceOne id_of y l) -> id_of z = id_of y -> z = y.
Proof.
  induction l as [|h r IH]; simpl; intros Hnd Hin Hid; [contradiction|].
  inversion Hnd as [|? ? Hh Hnd']; subst.
  destruct (String.eqb (id_of h) (id_of y)) eqn:E.
  - destruct Hin as [->|Hin]; [reflexivity|]. exfalso. apply Hh.
    apply String.eqb_eq in E. rewrite E, <- Hid. now apply in_map.
  - destruct Hin as [->|Hin]; [|now apply IH].
    rewrite Hid, String.eqb_refl in E. discriminate.
Qed.


Lemma findById_unique {A} (id_of : A -> ObjectId) l x :
  List.NoDup (map id_of l) -> In x l -> findById id_of (id_of x) l = Some x.
Proof.
  unfold findById. induction l as [|h r IH]; simpl; intros Hnd Hin; [contradiction|].
  inversion Hnd as [|? ? Hh Hnd']; subst.
  destruct Hin as [->|Hin]; [now rewrite String.eqb_refl|].
  destruct (String.eqb (id_of h) (id_of x)) eqn:E; [|now apply IH].
  exfalso. apply Hh. apply String.eqb_eq in E. rewrite E. now apply in_map.
Qed.



(** ** Pause of a subscription *)

(** What a pause answered 200 has done. *)
Lemma requestPause_run e user subscriptionId startDate endDate reason st r st' :
  requestPause e user subscriptionId startDate endDate reason st = (r, st') ->
  code r = 200 ->
  exists sid from to s,
    subscriptionId = Some sid /\ is_oid sid = true
    /\ startDate = Some from /\ endDate = Some to
    /\ find_active_subscription (mongoose e) user (Some (castObjectId sid)) (main st) = Some s
    /\ pauses st'
       = pauses st ++ [{| pause_id := fresh e 0; pause_subscriptionId := castObjectId sid;
                          pause_startDate := from; pause_endDate := to;
                          pause_reason := reason |}]
    /\ subscriptions (main st')
       = replaceOne sub_id (with_status "Paused" s) (subscriptions (main st))
    /\ areas (main st') = areas (main st).
Proof.
  unfold requestPause, attempt, bind, get, try_modify, ret, respond, throw.
  assert (Hfail : forall x st0, (x, st0) = (r, st') -> code x <> 200 -> code r = 200 -> False).
  { intros x st0 H Hx Hr. inversion H; subst. contradiction. }
  destruct subscriptionId as [sid|]; cbn [cast_opt].
  2:{ destruct (find_active_subscription _ _ _ _); intros H Hr; exfalso;
        (eapply Hfail; [exact H|discriminate|exact Hr]). }
  destruct (is_oid sid) eqn:Hoid;
    [|intros H Hr; exfalso; eapply Hfail; [exact H|discriminate|exact Hr]].
  destruct (find_active_subscription _ _ _ _) as [s|] eqn:Hs;
    [|intros H Hr; exfalso; eapply Hfail; [exact H|discriminate|exact Hr]].
  destruct startDate as [from|];
    [|intros H Hr; exfalso; eapply Hfail; [exact H|discriminate|exact Hr]].
  destruct endDate as [to|];
    [|intros H Hr; exfalso; eapply Hfail; [exact H|discriminate|exact Hr]].
  unfold save_new_pause. cbn [pauses].
  destruct (insertOne pause_id _ (pauses st)) as [l|] eqn:Hins;
    [|intros H Hr; exfalso; eapply Hfail; [exact H|discriminate|exact Hr]].
  apply insertOne_app in Hins. subst l.
  unfold in_main, save_subscription. cbn [main set_pauses].
  destruct (validate_subscription (with_status "Paused" s));
    [|intros H Hr; exfalso; eapply Hfail; [exact H|discriminate|exact Hr]].
  unfold log_activity. cbn [mem_str activity_types existsb String.eqb Ascii.eqb Bool.eqb orb].
  cbn [main set_main].
  intros H _. inversion H; subst. exists sid, from, to, s. repeat split; assumption.
Qed.



(** X17.  A paused subscription cannot be paused again: the handler looks for
    an Active subscription, so a second request for the same subscription,
    with whatever dates, is answered 404 and changes nothing.  The dates of a
    pause, once stored, stay. *)
Theorem requestPause_once e1 e2 user sid start1 end1 reason1 start2 end2 reason2 st r st1 :
  List.NoDup (map sub_id (subscriptions (main st))) ->
  requestPause e1 user (Some sid) start1 end1 reason1 st = (r, st1) ->
  code r = 200 ->
  requestPause e2 user (Some sid) start2 end2 reason2 st1
  = ({| code := 404; message := "Active subscription not found" |}, st1).
Proof.
  intros Hnd Hrun Hc.
  apply requestPause_run in Hrun
    as (sid' & from & to & s & Hsid & Hoid & _ & _ & Hs & _ & Hsubs & _); [|exact Hc].
  inversion Hsid; subst sid'. clear Hsid.
  unfold find_active_subscription in Hs. apply find_some in Hs as [Hin Hs].
  apply andb_prop in Hs as [Hs _]. apply andb_prop in Hs as [Hid _].
  cbn [id_matches] in Hid. apply String.eqb_eq in Hid.
  unfold requestPause, attempt, bind, get. cbn [cast_opt]. rewrite Hoid, Hid.
  unfold find_active_subscription. rewrite Hsubs, find_none_all; [reflexivity|].
  intros x Hx. cbn [id_matches].
  destruct (String.eqb (sub_id s) (sub_id x)) eqn:E; [|reflexivity].
  apply String.eqb_eq in E. apply replaceOne_unique in Hx; [|assumption|now rewrite <- E].
  subst x. simpl. apply andb_false_r.
Qed.

Lemma requestPause_once_witness :
  code (fst (requestPause Scenario.env Scenario.customer (Some Scenario.subscription)
               (Some 1800000000000) (Some 1900000000000) None
               (snd (requestPause Scenario.env Scenario.customer (Some Scenario.subscription)
                       (Some 1800000000000) (Some 1700000000000) None
                       (Desk.store (Scenario.db 50 2 "Active")))))) = 404.
Proof.
  pose (res := requestPause Scenario.env Scenario.customer (Some Scenario.subscription)
                 (Some 1800000000000) (Some 1700000000000) None
                 (Desk.store (Scenario.db 50 2 "Active"))).
  fold res.
  rewrite (requestPause_once Scenario.env Scenario.env Scenario.customer Scenario.subscription
             (Some 1800000000000) (Some 1700000000000) None
             (Some 1800000000000) (Some 1900000000000) None
             (Desk.store (Scenario.db 50 2 "Active")) (fst res) (snd res)).
  - reflexivity.
  - simpl. constructor; [intros []|constructor].
  - apply surjective_pairing.
  - reflexivity.
Defined.

(** ** The requests to decide *)

Lemma answers_other_bind {A B} c (ok : B -> Prop) (m : M A) (k : A -> M B) :
  answers_other c (fun _ => True) m -> (forall a, answers_other c ok (k a)) ->
  answers_other c ok (bind m k).
Proof.
  intros Hm Hk t. unfold bind. specialize (Hm t). destruct (m t) as [a t1|r t1|x t1].
  - apply Hk.
  - exact Hm.
  - exact I.
Qed.

Lemma answers_other_weaken {A} c (ok : A -> Prop) (m : M A) :
  (forall a, ok a) -> answers_other c (fun _ => True) m -> answers_other c ok m.
Proof. intros Hok Hm t. specialize (Hm t). destruct (m t); auto. Qed.

Ltac answers_other_tac :=
  repeat first
    [ apply answers_other_bind; [|intros ?]
    | match goal with
      | |- answers_other _ _ (match ?x with _ => _ end) => destruct x
      | |- answers_other _ _ (if ?x then _ else _) => destruct x
      | |- answers_other _ _ (let (_, _) := ?x in _) => destruct x
      end
    | solve [unfold answers_other; intros ?;
             unfold ret, get, throw, respond, modify, abortTransaction,
               commitTransaction, try_modify;
             cbv beta iota;
             repeat match goal with
                    | |- context [match ?x with Some _ => _ | None => _ end] => destruct x
                    end;
             cbv beta iota; first [exact I|discriminate] ] ].

Lemma apply_decision_not_forbidden e status r pub addr sub area :
  answers_other 403 (fun _ => True) (apply_decision e status r pub addr sub area).
Proof.
  unfold apply_decision, approve_new, approve_update, approve_cancel. answers_other_tac.
Qed.

(** A managed area of the predicate [p] makes the area check find one. *)
Lemma find_managed manager d (p : Area -> bool) a :
  In a (managed_areas manager d) -> p a = true ->
  List.find (fun a => p a && mem_str manager (area_managers a)) (areas d) <> None.
Proof.
  intros Hin Hp Hnone. unfold managed_areas in Hin. apply filter_In in Hin as [Hin Hm].
  apply (find_none _ _ Hnone) in Hin. simpl in Hin. rewrite Hp, Hm in Hin. discriminate.
Qed.

Lemma area_in_managed manager d x :
  area_in x (areaIds manager d) = true ->
  exists i a, x = Some i /\ In a (managed_areas manager d) /\ area_id a = i.
Proof.
  destruct x as [i|]; [|discriminate]. simpl. intros H. apply mem_str_In in H.
  unfold areaIds in H. apply in_map_iff in H as (a & Ha & Hin). eauto.
Qed.

(** A request that the listing keeps passes the area check of the
    decision, unless the check throws. *)
Lemma valid_request_authorized o manager d q :
  valid_request manager d q = true -> ~ unauthorized o manager q d.
Proof.
  unfold valid_request, unauthorized, area_check, request_area, populate_in_areas.
  intros Hvalid Hun.
  destruct (populate sub_id (req_subscriptionId q) (subscriptions d)) as [s|] eqn:Es.
  - destruct (String.eqb (req_requestType q) "New").
    + destruct (populate pub_id (req_publicationId q) (publications d)) as [p|] eqn:Ep;
        [|discriminate].
      unfold ret in Hun. inversion Hun as [Hfind]. revert Hfind.
      apply orb_prop in Hvalid as [Hvalid|Hvalid]; [apply orb_prop in Hvalid as [Hp|Ha]|].
      * apply mem_str_In in Hp. unfold publicationIds in Hp.
        apply in_flat_map in Hp as (a & Ha & Hp).
        apply (find_managed manager d _ a Ha). apply mem_str_In in Hp. now rewrite Hp.
      * destruct (populate addr_id (req_newAddressId q) (addresses d)) as [x|];
          [|discriminate].
        apply area_in_managed in Ha as (i & a & Hi & Ha & Hid).
        apply (find_managed manager d _ a Ha). simpl. rewrite Hi. simpl.
        rewrite Hid, String.eqb_refl. now rewrite orb_true_r.
      * destruct (area_in (sub_areaId s) (areaIds manager d)) eqn:Hs; [|discriminate].
        apply area_in_managed in Hs as (i & a & Hi & Ha & Hid).
        apply (find_managed manager d _ a Ha). simpl. rewrite Hi. simpl.
        rewrite Hid, String.eqb_refl. now rewrite orb_true_r.
    + destruct (area_in (sub_areaId s) (areaIds manager d)) eqn:Hs; [|discriminate].
      unfold ret in Hun. inversion Hun as [Hfind]. revert Hfind.
      apply area_in_managed in Hs as (i & a & Hi & Ha & Hid).
      apply (find_managed manager d _ a Ha). simpl. rewrite Hi. simpl.
      rewrite Hid. apply String.eqb_refl.
  - destruct (String.eqb (req_requestType q) "New"); [|discriminate].
    destruct (populate pub_id (req_publicationId q) (publications d)) as [p|] eqn:Ep;
      [|discriminate].
    unfold ret in Hun. inversion Hun as [Hfind]. revert Hfind.
    rewrite orb_false_r in Hvalid. apply orb_prop in Hvalid as [Hp|Ha].
    + apply mem_str_In in Hp. unfold publicationIds in Hp.
      apply in_flat_map in Hp as (a & Ha & Hp).
      apply (find_managed manager d _ a Ha). apply mem_str_In in Hp. now rewrite Hp.
    + destruct (populate addr_id (req_newAddressId q) (addresses d)) as [x|];
        [|discriminate].
      apply area_in_managed in Ha as (i & a & Hi & Ha & Hid).
      apply (find_managed manager d _ a Ha). simpl. rewrite Hi. simpl.
      rewrite Hid, String.eqb_refl. now rewrite orb_true_r.
Qed.

(** X15.  The listing and the decision agree on who may decide: a request
    that [getSubscriptionRequests] shows to a manager is Pending, and the
    decision of that manager on it, whatever it is, is never answered 403.
    The manager names the request by its identifier, in upper or lower
    case. *)
Theorem listed_request_can_be_decided e manager d q id status comments :
  In q (getSubscriptionRequests manager d) ->
  findById req_id (req_id q) (requests d) = Some q ->
  castObjectId id = req_id q ->
  req_status q = Some "Pending"
  /\ code (fst (handleSubscriptionRequest e manager id status comments d)) <> 403.
Proof.
  intros Hlisted Hq Hid. unfold getSubscriptionRequests in Hlisted.
  apply filter_In in Hlisted as [Hpending Hvalid]. apply filter_In in Hpending as [_ Hpending].
  split.
  { destruct (req_status q) as [st|]; [|discriminate]. simpl in Hpending.
    apply String.eqb_eq in Hpending. now subst. }
  pose proof (valid_request_authorized (mongoose e) manager d q Hvalid) as Hauth.
  unfold unauthorized, area_check in Hauth.
  unfold handleSubscriptionRequest, transactional.
  destruct (is_oid id); cbv zeta; cbn [negb]; [|discriminate].
  unfold bind at 1. unfold get at 1. cbn [committed startTransaction]. rewrite Hid, Hq.
  unfold bind at 1.
  change {| committed := d; working := d |} with (startTransaction d).
  destruct (request_area _ _ _ _ _ _ _ _) as [area t1|resp t1|err t1] eqn:Ea.
  - assert (t1 = startTransaction d) as ->.
    { revert Ea. unfold request_area, ret, throw.
      destruct (String.eqb (req_requestType q) "New");
        [destruct (populate pub_id _ _)|]; intros H; inversion H; reflexivity. }
    destruct area as [area|]; [|contradiction].
    match goal with
    | |- code (fst (match ?m ?t with _ => _ end)) <> 403 =>
        assert (Hbody : answers_other 403 (fun r => code r <> 403) m)
    end.
    { apply answers_other_bind; [apply apply_decision_not_forbidden|intros request'].
      answers_other_tac. }
    specialize (Hbody (startTransaction d)).
    destruct (bind _ _ (startTransaction d)); simpl; first [exact Hbody|discriminate].
  - exfalso. revert Ea. unfold request_area, ret, throw.
    destruct (String.eqb (req_requestType q) "New");
      [destruct (populate pub_id _ _)|]; discriminate.
  - discriminate.
Qed.

Lemma listed_request_can_be_decided_witness :
  exists q,
    getSubscriptionRequests Scenario.manager Scenario.submitted = [q]
    /\ req_status q = Some "Pending"
    /\ code (fst (handleSubscriptionRequest Scenario.env Scenario.manager (req_id q)
                    (Some "Rejected") None Scenario.submitted)) <> 403.
Proof.
  eexists. split; [vm_compute; reflexivity|].
  apply (listed_request_can_be_decided Scenario.env Scenario.manager Scenario.submitted).
  - vm_compute. left. reflexivity.
  - vm_compute. reflexivity.
  - vm_compute. reflexivity.
Defined.

(** ** Middleware and routes *)

(** What lets a request through [authenticateToken] and [authorizeRole]: a
    token that verifies, for a stored user whose stored role is one of the
    roles of the router; [req.user] is then made of the stored user and of the
    first personnel record that names it.  Any other request is answered 401
    or 403 and never reaches the handler. *)
Lemma router_use_run roles a handler d r d' :
  router_use roles a handler d = (r, d') ->
  (exists id uid u,
     a = Verified id /\ uid = castObjectId id
     /\ findById user_id uid (users d) = Some u
     /\ In (user_role u) roles
     /\ handler
          {| ru_id := uid; ru_role := user_role u;
             ru_deliveryPersonnel :=
               option_map dp_id
                 (List.find (fun p => String.eqb (dp_userId p) uid) (personnel d)) |} d
        = (r, d'))
  \/ ((code r = 401 \/ code r = 403) /\ d' = d).
Proof.
  unfold router_use, authenticateToken, authorizeRole.
  destruct a as [| |id];
    [intros H; inversion H; subst; right; simpl; auto ..|].
  destruct (is_oid id); cbn [negb]; [|intros H; inversion H; subst; right; simpl; auto].
  destruct (findById user_id (castObjectId id) (users d)) as [u|] eqn:Hu;
    [|intros H; inversion H; subst; right; simpl; auto].
  cbn [ru_role]. rewrite (findById_id _ _ _ _ Hu).
  destruct (mem_str (user_role u) roles) eqn:Hrole;
    [|intros H; inversion H; subst; right; simpl; auto].
  intros H. left. exists id, (castObjectId id), u. split; [reflexivity|].
  split; [reflexivity|]. split; [exact Hu|].
  split; [now apply mem_str_In|exact H].
Qed.

(** X9.  Through the deliverer's route, the status of a delivery item is
    changed only on behalf of a stored user with the role Deliverer, whose
    personnel record is the one the schedule of the item names; the role and
    the personnel record are read from the store at each request, not from
    the token.  Any other request leaves the store as it was. *)
Theorem put_items_own_schedule e a id status notes d r d' :
  put_items e a id status notes d = (r, d') ->
  (code r = 200 ->
   exists uid u p item sch,
     a = Verified uid
     /\ findById user_id (castObjectId uid) (users d) = Some u /\ user_role u = "Deliverer"
     /\ List.find (fun p => String.eqb (dp_userId p) (castObjectId uid)) (personnel d)
        = Some p
     /\ findById di_id (castObjectId id) (deliveryItems d) = Some item
     /\ In sch (schedules d)
     /\ sched_id sch = di_scheduleId item /\ sched_personnelId sch = dp_id p)
  /\ (code r <> 200 -> d' = d).
Proof.
  unfold put_items. intros Hrun.
  apply router_use_run in Hrun as [(uid & ? & u & -> & -> & Hu & Hrole & Hrun)|[Hc ->]].
  2:{ split; [|reflexivity]. intros H. rewrite H in Hc. destruct Hc; discriminate. }
  destruct Hrole as [Hrole|[]].
  revert Hrun. unfold updateDeliveryStatus, plain, bind, get, modify, ret, respond, throw.
  cbn [ru_deliveryPersonnel].
  destruct (mem_str status ["Delivered"; "Failed"; "Skipped"]); cbn [negb];
    [|intros [= <- <-]; simpl; intuition discriminate].
  destruct (is_oid id); cbv zeta; cbn [negb];
    [|intros [= <- <-]; simpl; intuition discriminate].
  destruct (findById di_id (castObjectId id) (deliveryItems d)) as [item|] eqn:Hitem;
    [|intros [= <- <-]; simpl; intuition discriminate].
  destruct (List.find _ (schedules d)) as [sch|] eqn:Hsch;
    [|intros [= <- <-]; simpl; intuition discriminate].
  intros [= <- <-]. split; [|intros H; now destruct H].
  intros _. apply find_some in Hsch as [Hin Hsch]. apply andb_prop in Hsch as [Hid Hp].
  apply String.eqb_eq in Hid.
  destruct (List.find (fun p => String.eqb (dp_userId p) (castObjectId uid)) (personnel d))
    as [p|] eqn:Ep; [|discriminate].
  simpl in Hp. apply String.eqb_eq in Hp.
  exists uid, u, p, item, sch. repeat split; auto.
Qed.

Lemma put_items_own_schedule_witness :
  exists p,
    List.find (fun p => String.eqb (dp_userId p) Desk.deliverer_user) (personnel Desk.delivery_db)
    = Some p
    /\ dp_id p = Scenario.deliverer
    /\ code (fst (put_items Scenario.env (Verified Desk.deliverer_user) Scenario.item
                    "Delivered" None Desk.delivery_db)) = 200
    /\ snd (put_items Scenario.env (Verified Scenario.customer) Scenario.item
              "Delivered" None Desk.delivery_db) = Desk.delivery_db.
Proof.
  pose (res := put_items Scenario.env (Verified Desk.deliverer_user) Scenario.item
                 "Delivered" None Desk.delivery_db).
  pose (res' := put_items Scenario.env (Verified Scenario.customer) Scenario.item
                  "Delivered" None Desk.delivery_db).
  destruct (put_items_own_schedule Scenario.env (Verified Desk.deliverer_user) Scenario.item
              "Delivered" None Desk.delivery_db (fst res) (snd res) (surjective_pairing res))
    as [Hok _].
  destruct (put_items_own_schedule Scenario.env (Verified Scenario.customer) Scenario.item
              "Delivered" None Desk.delivery_db (fst res') (snd res')
              (surjective_pairing res')) as [_ Hno].
  destruct (Hok eq_refl) as (uid & u & p & item & sch & Ha & _ & _ & Hp & _ & _ & _ & _).
  assert (Hid : uid = Desk.deliverer_user) by congruence. subst uid.
  exists p. split; [exact Hp|]. split.
  - vm_compute in Hp. inversion Hp. reflexivity.
  - split; [reflexivity|]. apply Hno. discriminate.
Defined.

(** X10.  Through the manager's route, a billing run is made only for a
    stored user with the role Manager, and every bill it creates is for an
    area that this user manages; a request with any other token is answered
    401 or 403 and changes nothing. *)
Theorem post_bills_generate_own_areas e a month year d r d' :
  post_bills_generate e a month year d = (r, d') ->
  (forall b, In b (new_bills d d') ->
     exists uid u area,
       a = Verified uid
       /\ findById user_id (castObjectId uid) (users d) = Some u /\ user_role u = "Manager"
       /\ In area (areas d) /\ In (castObjectId uid) (area_managers area)
       /\ bill_areaId b = Some (area_id area))
  /\ ((forall uid u, a = Verified uid ->
         findById user_id (castObjectId uid) (users d) = Some u ->
         user_role u <> "Manager") ->
      (code r = 401 \/ code r = 403) /\ d' = d).
Proof.
  unfold post_bills_generate. intros Hrun.
  apply router_use_run in Hrun as [(uid & ? & u & -> & -> & Hu & Hrole & Hrun)|[Hc ->]].
  2:{ split; [|auto]. intros b Hb. unfold new_bills in Hb. rewrite skipn_all in Hb.
      contradiction. }
  destruct Hrole as [Hrole|[]]. cbn [ru_id] in Hrun. split.
  - intros b Hb.
    destruct (generateBills_new_bills _ _ _ _ _ _ _ _ Hrun Hb)
      as (_ & bs & m & i & nb & due & Hloop & Hi & _ & ->).
    apply (billing_inv_loop _ _ _ _ _ [] _ _ (billing_inv_init e month year d)) in Hloop.
    simpl in Hloop.
    destruct (inv_header _ _ _ _ _ _ Hloop i nb Hi) as (_ & _ & _ & _ & _ & s & Hs & _ & Ha).
    apply billable_area in Hs as (_ & x & Hx & Hin).
    unfold areaIds in Hin. apply in_map_iff in Hin as (area & Hid & Hin).
    unfold managed_areas in Hin. apply filter_In in Hin as [Hin Hm].
    exists uid, u, area. split; [reflexivity|]. split; [exact Hu|]. split; [now symmetry|].
    split; [exact Hin|]. split; [now apply mem_str_In|].
    simpl. rewrite Ha, Hx. now rewrite Hid.
  - intros Hno. exfalso. apply (Hno uid u eq_refl Hu). now symmetry.
Qed.

Lemma post_bills_generate_own_areas_witness :
  exists b,
    new_bills (Scenario.db 50 2 "Active")
      (snd (post_bills_generate Scenario.env (Verified Scenario.manager) 6 2024
              (Scenario.db 50 2 "Active")))
    = [b]
    /\ bill_areaId b = Some Scenario.area
    /\ post_bills_generate Scenario.env (Verified Scenario.customer) 6 2024
         (Scenario.db 50 2 "Active")
       = ({| code := 403; message := "Access denied. Insufficient permissions." |},
          Scenario.db 50 2 "Active").
Proof.
  pose (res := post_bills_generate Scenario.env (Verified Scenario.manager) 6 2024
                 (Scenario.db 50 2 "Active")).
  pose (b := hd (Scenario.the_bill 0 "") (bills (snd res))).
  destruct (post_bills_generate_own_areas Scenario.env (Verified Scenario.manager) 6 2024
              (Scenario.db 50 2 "Active") (fst res) (snd res) (surjective_pairing res))
    as [Hbills _].
  destruct (Hbills b) as (uid & u & area & _ & _ & _ & Harea & _ & Hb);
    [vm_compute; left; reflexivity|].
  exists b. split; [vm_compute; reflexivity|]. split; [|reflexivity].
  rewrite Hb. destruct Harea as [<-|[]]. reflexivity.
Defined.

(** ** Payment reminders *)

Lemma reminders_loop_spec e st bs : forall acc out,
  reminders_loop e st bs acc = Some out ->
  exists added,
    out = acc ++ added
    /\ List.Forall2 (fun b f => forall i, reminder_of e b (f i))
         (List.filter (unreminded (now e) st) bs) added.
Proof.
  induction bs as [|b r IH]; simpl; intros acc out Hloop.
  - inversion Hloop; subst. exists []. split; [now rewrite app_nil_r|constructor].
  - unfold unreminded at 1. destruct (recentReminder (now e) b st); simpl.
    + now apply IH.
    + destruct (findById user_id (bill_userId b) (users (main st))) as [u|] eqn:Hu;
        [|discriminate].
      apply IH in Hloop as (added & -> & Hadded).
      exists (newReminder e st b u :: added).
      split; [now rewrite <- app_assoc|]. constructor; [|assumption].
      intros i. pose proof (findById_id _ _ _ _ Hu). repeat split. assumption.
Qed.

Lemma ForallOrdPairs_app {A} (R : A -> A -> Prop) l l' :
  ForallOrdPairs R l -> ForallOrdPairs R l' ->
  (forall x y, In x l -> In y l' -> R x y) -> ForallOrdPairs R (l ++ l').
Proof.
  induction 1 as [|a l Ha Hl IH]; simpl; intros Hl' Hcross; [assumption|].
  constructor.
  - apply List.Forall_app. split; [assumption|].
    apply List.Forall_forall. intros y Hy. apply Hcross; [now left|assumption].
  - apply IH; [assumption|]. intros x y Hx Hy. apply Hcross; [now right|assumption].
Qed.

Lemma ForallOrdPairs_without {A} (R : A -> A -> Prop) l x r :
  ForallOrdPairs R (l ++ x :: r) -> ForallOrdPairs R (l ++ r).
Proof.
  induction l as [|a l IH]; simpl; intros H; inversion H as [|? ? Ha Hl]; subst.
  - assumption.
  - constructor; [|now apply IH].
    apply List.Forall_app in Ha as [Ha1 Ha2]. inversion Ha2; subst.
    apply List.Forall_app. now split.
Qed.

(** What [create_each] leaves in the collection: the documents it had, then
    the accepted ones among the new, in their order. *)
Lemma create_each_pairs {A} (id_of : A -> ObjectId) (R : A -> A -> Prop) ds : forall l,
  ForallOrdPairs R (l ++ ds) -> ForallOrdPairs R (fst (create_each id_of ds l)).
Proof.
  induction ds as [|x r IH]; simpl; intros l H.
  - now rewrite app_nil_r in H.
  - destruct (insertOne id_of x l) as [l'|] eqn:E.
    + apply insertOne_app in E. subst l'. apply IH. now rewrite <- app_assoc.
    + simpl. apply IH. eapply ForallOrdPairs_without. exact H.
Qed.

Lemma create_each_In {A} (id_of : A -> ObjectId) ds : forall l,
  exists added,
    fst (create_each id_of ds l) = l ++ added
    /\ (forall x, In x added -> In x ds)
    /\ (snd (create_each id_of ds l) = true -> added = ds).
Proof.
  induction ds as [|x r IH]; simpl; intros l.
  - exists []. split; [now rewrite app_nil_r|]. split; [tauto|reflexivity].
  - destruct (insertOne id_of x l) as [l'|] eqn:E.
    + apply insertOne_app in E. subst l'. destruct (IH (l ++ [x])) as (added & Heq & Hin & Hok).
      exists (x :: added). rewrite Heq, <- app_assoc. split; [reflexivity|]. split.
      * intros y [->|Hy]; [now left|right; now apply Hin].
      * intros H. now rewrite Hok.
    + destruct (IH l) as (added & Heq & Hin & _). exists added. simpl.
      split; [assumption|]. split; [intros y Hy; right; now apply Hin|discriminate].
Qed.

Lemma NoDup_map_filter {A B} (f : A -> B) (p : A -> bool) l :
  List.NoDup (map f l) -> List.NoDup (map f (List.filter p l)).
Proof.
  induction l as [|x r IH]; simpl; intros H; [constructor|].
  inversion H as [|? ? Hx Hr]; subst. destruct (p x); simpl; [|now apply IH].
  constructor; [|now apply IH]. intros Hin. apply Hx.
  apply in_map_iff in Hin as (y & Hy & Hin). apply filter_In in Hin as [Hin _].
  rewrite <- Hy. now apply in_map.
Qed.

(** The reminders of one run, for bills with different identifiers, are for
    different bills. *)
Lemma reminders_of_distinct_bills e bs docs :
  List.NoDup (map bill_id bs) -> List.Forall2 (reminder_of e) bs docs ->
  ForallOrdPairs apart docs.
Proof.
  intros Hnd H. induction H as [|b x bs docs Hbx H IH]; [constructor|].
  inversion Hnd as [|? ? Hb Hnd']; subst. constructor; [|now apply IH].
  apply List.Forall_forall. intros y Hy Hsame. exfalso. apply Hb.
  destruct (In_Forall2_r _ _ _ _ H Hy) as (b' & Hb' & Hy').
  destruct Hbx as [Hx _]. destruct Hy' as [Hy' _].
  rewrite <- Hx, Hsame, Hy'. now apply in_map.
Qed.

(** The outcome of a run, read off [sendPaymentReminders]: one reminder is
    pushed for each overdue bill of the manager's areas without reminder of
    the last seven days, and the store is the one before with the accepted
    ones among them added, all of them when the answer is 201; or the run
    throws before it writes. *)
Lemma sendPaymentReminders_run e manager st r st' :
  sendPaymentReminders e manager st = (r, st') ->
  (exists docs,
     List.Forall2 (reminder_of e)
       (List.filter (unreminded (now e) st)
          (List.filter (overdue (now e) (areaIds manager (main st))) (bills (main st))))
       docs
     /\ st' = set_reminders (fst (create_each rem_id docs (reminders st))) st
     /\ (code r = 201 -> snd (create_each rem_id docs (reminders st)) = true))
  \/ (code r = 500 /\ st' = st).
Proof.
  unfold sendPaymentReminders, attempt, bind, get.
  set (overdueBills := List.filter _ (bills (main st))).
  destruct (reminders_loop e st overdueBills []) as [out|] eqn:Hloop.
  - apply reminders_loop_spec in Hloop as (pushed & Hout & Hpushed). simpl in Hout. subst out.
    set (docs := with_ids e 0 (fun i f => f i) pushed).
    assert (Hdocs : List.Forall2 (reminder_of e)
                      (List.filter (unreminded (now e) st) overdueBills) docs).
    { eapply Forall2_chain;
        [exact Hpushed|apply (with_ids_Forall2 e (fun i f => f i) pushed 0)|].
      intros b f x Hf [i ->]. apply Hf. }
    destruct (0 <? length pushed)%nat eqn:Hlen.
    + unfold create_reminders.
      destruct (create_each rem_id docs (reminders st)) as [l ok] eqn:Hc.
      destruct ok; simpl; intros H; inversion H; subst r st'; clear H;
        left; exists docs; (split; [exact Hdocs|]); rewrite Hc;
        (split; [reflexivity|]); [reflexivity|discriminate].
    + unfold ret. intros H. inversion H; subst r st'. clear H.
      apply Nat.ltb_ge in Hlen. destruct pushed; [|simpl in Hlen; lia].
      left. exists docs. split; [exact Hdocs|].
      simpl. split; [now destruct st|reflexivity].
  - unfold throw. intros H. inversion H; subst r st'. right. split; reflexivity.
Qed.

(** X18.  No customer is reminded twice of one bill within seven days: when
    the stored reminders of each bill are more than seven days apart, they
    still are after a run, whatever its answer; a run right after another
    one adds nothing for the bills the first one covered. *)
Theorem sendPaymentReminders_spaced e manager st r st' :
  List.NoDup (map bill_id (bills (main st))) ->
  reminders_spaced (reminders st) ->
  sendPaymentReminders e manager st = (r, st') ->
  reminders_spaced (reminders st').
Proof.
  intros Hnd Hspaced Hrun.
  apply sendPaymentReminders_run in Hrun as [(docs & Hdocs & -> & _)|[_ ->]];
    [|assumption].
  cbn [reminders set_reminders]. apply create_each_pairs. apply ForallOrdPairs_app.
  - exact Hspaced.
  - eapply reminders_of_distinct_bills; [|exact Hdocs].
    now do 2 apply NoDup_map_filter.
  - intros x y Hx Hy Hsame.
    destruct (In_Forall2_r _ _ _ _ Hdocs Hy) as (b & Hb & Hyb & _ & Hdate & _).
    apply filter_In in Hb as [_ Hb]. unfold unreminded, recentReminder in Hb.
    destruct (List.find _ (reminders st)) eqn:Hfind; [discriminate|].
    apply (find_none _ _ Hfind) in Hx. simpl in Hx.
    rewrite Hsame, Hyb, String.eqb_refl in Hx. simpl in Hx.
    apply Z.leb_gt in Hx. rewrite Hdate. lia.
Qed.


Lemma sendPaymentReminders_spaced_witness :
  map rem_reminderDate
    (reminders (snd (sendPaymentReminders (Desk.at_time (Scenario.day 2024 7 25))
                       Scenario.manager Desk.reminded)))
  = [Scenario.day 2024 7 20]
  /\ map rem_reminderDate
       (reminders (snd (sendPaymentReminders (Desk.at_time (Scenario.day 2024 8 1))
                          Scenario.manager Desk.reminded)))
     = [Scenario.day 2024 7 20; Scenario.day 2024 8 1]
  /\ reminders_spaced
       (reminders (snd (sendPaymentReminders (Desk.at_time (Scenario.day 2024 8 1))
                          Scenario.manager Desk.reminded))).
Proof.
  pose (res := sendPaymentReminders (Desk.at_time (Scenario.day 2024 8 1)) Scenario.manager
                 Desk.reminded).
  split; [vm_compute; reflexivity|]. split; [vm_compute; reflexivity|].
  apply (sendPaymentReminders_spaced (Desk.at_time (Scenario.day 2024 8 1)) Scenario.manager
           Desk.reminded (fst res) (snd res)).
  - simpl. constructor; [intros []|constructor].
  - simpl. constructor; constructor.
  - apply surjective_pairing.
Defined.


(** ** Billing runs, one after the other *)

Lemma generateBills_succeeds_witness :
  code (fst (generateBills (Desk.counter "a") Scenario.manager 6 2024 Desk.two_areas)) = 201.
Proof.
  destruct (generateBills_succeeds (Desk.counter "a") Scenario.manager 6 2024 Desk.two_areas)
    as [H|[H _]].
  - split; [|split; [|split; [|split]]].
    + intros s Hs. vm_compute in Hs. destruct Hs as [<-|[<-|[<-|[]]]]; split; discriminate.
    + apply counter_inj.
    + intros i. split; intros [].
    + apply counter_inj.
    + intros i [].
  - discriminate.
  - discriminate.
  - discriminate.
  - discriminate.
  - exact H.
  - discriminate.
Defined.

(** The subscriptions of a run whose bills and whose items went through a
    [create()] that refuses several documents. *)
Lemma billing_inv_single e month year d subs bs m created :
  billing_inv e month year d subs (bs, m) ->
  length created = length bs ->
  (length bs <= 1)%nat -> (length (allBillItems created bs) <= 1)%nat ->
  (length subs <= 1)%nat.
Proof.
  intros Hinv Hlen Hbs Hitems.
  assert (Hzero : forall s, In s subs -> exists nb, bs = [nb] /\ with_key (nb_key nb) s = true).
  { intros s Hs. destruct (inv_covered _ _ _ _ _ _ Hinv s Hs) as [i Hi].
    destruct (inv_index _ _ _ _ _ _ Hinv _ _ Hi) as (b & Hb & Hk). simpl in Hb.
    destruct bs as [|nb [|]]; [discriminate| |simpl in Hbs; lia].
    destruct i; [|discriminate]. inversion Hb; subst b. exists nb. split; [reflexivity|].
    unfold with_key. rewrite Hk. apply String.eqb_refl. }
  destruct subs as [|s0 r]; [simpl; lia|].
  destruct (Hzero s0 (or_introl eq_refl)) as (nb & -> & _).
  destruct created as [|c [|]]; try discriminate. simpl in Hitems.
  rewrite app_nil_r, length_map in Hitems.
  pose proof (inv_lines _ _ _ _ _ _ Hinv 0%nat nb eq_refl) as Hlines.
  rewrite filter_all in Hlines.
  2:{ intros s Hs. destruct (Hzero s Hs) as (nb' & [= <-] & Hk). exact Hk. }
  apply (f_equal (@length _)) in Hlines. rewrite !length_map in Hlines. lia.
Qed.

(** X2.  Nothing keeps a month from being billed twice: the run does not
    look for bills of the period.  After a run answered 201, a second run
    for the same month and year that nothing obstructs, under a [create()]
    that refuses several documents only if the one of the first run did, is
    answered 201 as well, and gives every customer and area billed by the
    first run another bill for the same period. *)
Theorem generateBills_bills_again e1 e2 manager month year d r1 d1 r2 d2 :
  (forall s, In s (billable_subscriptions manager d) -> is_oid (sub_userId s) = true) ->
  generateBills e1 manager month year d = (r1, d1) ->
  code r1 = 201 ->
  billing_unobstructed e2 manager month year d1 ->
  (createGuard (mongoose e2) = true -> createGuard (mongoose e1) = true) ->
  generateBills e2 manager month year d1 = (r2, d2) ->
  code r2 = 201
  /\ forall b, In b (new_bills d d1) ->
       exists b',
         In b' (new_bills d1 d2)
         /\ bill_userId b' = bill_userId b /\ bill_areaId b' = bill_areaId b
         /\ bill_billMonth b' = bill_billMonth b /\ bill_billYear b' = bill_billYear b.
Proof.
  intros Hoid Hrun1 Hc1 Hfree Hsame_guard Hrun2.
  assert (Hsame : billable_subscriptions manager d1 = billable_subscriptions manager d).
  { apply generateBills_run in Hrun1
      as [(_ & bs & m & due & from & to & _ & _ & _ & _ & _ & _ & _ & ->)|[_ ->]];
      reflexivity. }
  assert (Hc2 : code r2 = 201).
  { pose proof Hrun1 as Hfirst.
    apply generateBills_run in Hfirst
      as [(_ & bs & m & due & from & to & Hloop & Hne & Hdue & Hfrom & Hto & Hguard & _)
         |[Hn _]]; [|contradiction].
    destruct (generateBills_passes e2 manager month year d1 Hfree) as [H|[Hnil _]].
    - now rewrite Hdue.
    - now rewrite Hfrom.
    - now rewrite Hto.
    - intros Hg. rewrite Hsame. destruct (Hguard (Hsame_guard Hg)) as [Hbs Hitems].
      apply (billing_inv_loop _ _ _ _ _ [] _ _ (billing_inv_init e1 month year d)) in Hloop.
      simpl in Hloop.
      eapply billing_inv_single; [exact Hloop|apply with_ids_length|exact Hbs|exact Hitems].
    - now rewrite Hrun2 in H.
    - exfalso. rewrite Hsame in Hnil.
      rewrite Hnil in Hloop. simpl in Hloop. inversion Hloop; subst. now apply Hne. }
  split; [exact Hc2|]. intros b Hb.
  destruct (generateBills_new_bills _ _ _ _ _ _ _ _ Hrun1 Hb)
    as (_ & bs1 & m1 & i1 & nb1 & due1 & Hloop1 & Hi1 & _ & ->).
  apply (billing_inv_loop _ _ _ _ _ [] _ _ (billing_inv_init e1 month year d)) in Hloop1.
  simpl in Hloop1.
  destruct (inv_header _ _ _ _ _ _ Hloop1 i1 nb1 Hi1)
    as (Hm1 & Hy1 & _ & _ & _ & s & Hs & Hu1 & Ha1).
  apply generateBills_run in Hrun2
    as [(_ & bs2 & m2 & due2 & from2 & to2 & Hloop2 & _ & _ & _ & _ & _ & _ & ->)|[Hn _]];
    [|contradiction].
  rewrite Hsame in Hloop2.
  apply (billing_inv_loop _ _ _ _ _ [] _ _ (billing_inv_init e2 month year d1)) in Hloop2.
  simpl in Hloop2.
  destruct (inv_covered _ _ _ _ _ _ Hloop2 s Hs) as [i2 Hi2].
  destruct (inv_index _ _ _ _ _ _ Hloop2 _ _ Hi2) as (nb2 & Hnb2 & Hkey). simpl in Hnb2.
  destruct (inv_header _ _ _ _ _ _ Hloop2 i2 nb2 Hnb2)
    as (Hm2 & Hy2 & _ & _ & _ & s' & Hs' & Hu2 & Ha2).
  unfold nb_key, sub_key in Hkey. rewrite Hu2, Ha2 in Hkey.
  apply billKey_inj in Hkey as [Hu Ha]; [|now apply Hoid..].
  destruct (billable_area _ _ _ Hs) as (_ & a & Ea & _).
  destruct (billable_area _ _ _ Hs') as (_ & a' & Ea' & _).
  rewrite Ea, Ea' in Ha. simpl in Ha.
  exists (stored_bill due2 (fresh e2 i2) nb2). split.
  - unfold new_bills. simpl. rewrite skipn_length_app.
    apply list_elem_of_In, list_elem_of_lookup. exists i2.
    rewrite with_ids_lookup, Hnb2. reflexivity.
  - simpl. rewrite Hu1, Hu2, Hu, Ha1, Ha2, Ea, Ea', Ha, Hm1, Hm2, Hy1, Hy2. auto.
Qed.

Lemma generateBills_bills_again_witness :
  exists b b',
    bills (snd (generateBills (Desk.counter "b") Scenario.manager 6 2024
                  (snd (generateBills (Desk.counter "a") Scenario.manager 6 2024
                          (Scenario.db 50 2 "Active")))))
    = [b; b']
    /\ bill_userId b' = bill_userId b
    /\ bill_billMonth b' = bill_billMonth b /\ bill_billYear b' = bill_billYear b.
Proof.
  pose (d := Scenario.db 50 2 "Active").
  pose (res1 := generateBills (Desk.counter "a") Scenario.manager 6 2024 d).
  pose (res2 := generateBills (Desk.counter "b") Scenario.manager 6 2024 (snd res1)).
  pose (b := hd (Scenario.the_bill 0 "") (bills (snd res1))).
  assert (Hstored : bills (snd res1) = [b]) by (vm_compute; reflexivity).
  destruct (generateBills_bills_again (Desk.counter "a") (Desk.counter "b") Scenario.manager
              6 2024 d (fst res1) (snd res1) (fst res2) (snd res2)) as [_ Hagain].
  - intros s [<-|[]]. reflexivity.
  - apply surjective_pairing.
  - vm_compute. reflexivity.
  - split; [|split; [|split; [|split]]].
    + intros s [<-|[]]. split; discriminate.
    + apply counter_inj.
    + intros i. split.
      * rewrite Hstored. simpl. intros [H|[]]. revert H. vm_compute. discriminate.
      * simpl. intros [H|[]]. revert H. vm_compute. discriminate.
    + apply counter_inj.
    + intros i. rewrite Hstored. simpl. intros [H|[]]. revert H. unfold billNumber.
      intros H. apply append_inj_length in H as [_ H]; [|reflexivity]. revert H.
      vm_compute. discriminate.
  - discriminate.
  - apply surjective_pairing.
  - destruct (Hagain b) as (b' & Hb' & Hu & _ & Hm & Hy); [vm_compute; left; reflexivity|].
    exists b, b'. split; [|auto].
    assert (Hlen : exists x, new_bills (snd res1) (snd res2) = [x])
      by (eexists; vm_compute; reflexivity).
    destruct Hlen as [x Hx]. rewrite Hx in Hb'. destruct Hb' as [<-|[]].
    unfold new_bills in Hx. rewrite Hstored in Hx. simpl in Hx.
    assert (Hpre : exists l, bills (snd res2) = b :: l) by (eexists; vm_compute; reflexivity).
    destruct Hpre as [l Hl]. fold d res1 res2. rewrite Hl in *. simpl in Hx.
    change (l = [x]) in Hx. now subst l.
Defined.

(** ** The period of a bill item *)

(** X3.  The delivery period of every bill item of a billing run is the
    billed month: for a month 1..12 of a year 1900..2200 it starts on the
    first day of that month and ends on its last day, both at 00:00, so that
    the day after its end is the first day of the next month. *)
Theorem generateBills_period e manager month year d r d' it :
  1900 <= year <= 2200 -> 1 <= month <= 12 ->
  generateBills e manager month year d = (r, d') ->
  In it (new_billItems d d') ->
  calendar (period_from (item_deliveryPeriod it)) = (year, month, 1)
  /\ calendar (period_to (item_deliveryPeriod it) + msPerDay)
     = (if month =? 12 then year + 1 else year, if month =? 12 then 1 else month + 1, 1)
  /\ period_from (item_deliveryPeriod it) mod msPerDay = 0
  /\ period_to (item_deliveryPeriod it) mod msPerDay = 0
  /\ period_from (item_deliveryPeriod it) <= period_to (item_deliveryPeriod it).
Proof.
  intros Hy Hm Hrun Hin.
  apply generateBills_run in Hrun
    as [(_ & bs & m & due & from & to & _ & _ & _ & Hfrom & Hto & _ & _ & ->)|[_ ->]].
  2:{ unfold new_billItems in Hin. rewrite skipn_all in Hin. contradiction. }
  unfold new_billItems in Hin. cbn [billItems set_billItems] in Hin.
  rewrite skipn_length_app in Hin.
  destruct (In_Forall2_r _ _ _ _ (with_ids_Forall2 e _ _ _) Hin) as (x & Hx & i & ->).
  simpl.
  destruct (period_calendar year month Hy Hm)
    as (from' & to' & Hfrom' & Hto' & Hcal & Hnext & Hle).
  rewrite Hfrom in Hfrom'. rewrite Hto in Hto'. inversion Hfrom'; inversion Hto'; subst.
  split; [exact Hcal|]. split.
  { rewrite Hnext. unfold next_month. now destruct (month =? 12). }
  unfold new_Date, TimeClip, MakeDate in Hfrom, Hto.
  destruct (Z.abs _ <=? _) in Hfrom; [|discriminate].
  destruct (Z.abs _ <=? _) in Hto; [|discriminate].
  inversion Hfrom; inversion Hto.
  split; [rewrite Z.add_0_r; apply Z.mod_mul; discriminate|].
  split; [rewrite Z.add_0_r; apply Z.mod_mul; discriminate|]. subst. exact Hle.
Qed.

Lemma generateBills_period_witness :
  exists it,
    new_billItems (Scenario.db 50 2 "Active")
      (snd (generateBills Scenario.env Scenario.manager 2 2024 (Scenario.db 50 2 "Active")))
    = [it]
    /\ calendar (period_from (item_deliveryPeriod it)) = (2024, 2, 1)
    /\ calendar (period_to (item_deliveryPeriod it)) = (2024, 2, 29)
    /\ calendar (period_to (item_deliveryPeriod it) + msPerDay) = (2024, 3, 1).
Proof.
  pose (res := generateBills Scenario.env Scenario.manager 2 2024 (Scenario.db 50 2 "Active")).
  pose (it := hd {| item_id := ""; item_billId := ""; item_publicationId := "";
                    item_quantity := 0; item_unitPrice := 0; item_totalPrice := 0;
                    item_deliveryPeriod := {| period_from := 0; period_to := 0 |} |}
                (billItems (snd res))).
  destruct (generateBills_period Scenario.env Scenario.manager 2 2024
              (Scenario.db 50 2 "Active") (fst res) (snd res) it)
    as (Hfrom & Hto & _).
  - lia.
  - lia.
  - apply surjective_pairing.
  - vm_compute. left. reflexivity.
  - exists it. split; [vm_compute; reflexivity|]. split; [exact Hfrom|].
    split; [vm_compute; reflexivity|exact Hto].
Defined.

(** ** Commission runs, one after the other *)


Lemma find_app_l {A} (p : A -> bool) l l' :
  List.find p l <> None -> List.find p (l ++ l') <> None.
Proof.
  induction l as [|x r IH]; simpl; [intros H; now destruct H|].
  destruct (p x); [discriminate|exact IH].
Qed.

Lemma find_exists {A} (p : A -> bool) l x :
  In x l -> p x = true -> List.find p l <> None.
Proof. intros Hin Hp Hnone. apply (find_none _ _ Hnone) in Hin. congruence. Qed.

(** The outcome of a commission run answered 201. *)
Lemma processDelivererPayments_run e manager month year d r d' :
  processDelivererPayments e manager month year d = (r, d') ->
  code r = 201 ->
  exists added,
    payments_loop e month year d (deliverers_in manager d) [] = Some added
    /\ d' = set_delivererPayments
              (delivererPayments d ++ with_ids e 0 (fun i f => f i) added) d.
Proof.
  unfold processDelivererPayments, create_with_session, transactional, bind, get, try_modify,
    try_in_session, commitTransaction, modify, ret, throw, startTransaction.
  cbn [committed working].
  destruct (payments_loop e month year d (deliverers_in manager d) []) as [out|] eqn:Hloop;
    [|destruct (new_Date year (month - 1) 1), (new_Date year month 0);
      intros H Hc; inversion H; subst; discriminate].
  destruct (0 <? length (with_ids e 0 (fun i f => f i) out))%nat eqn:Hlen;
    cbn [committed working].
  - destruct (createGuard (mongoose e) && _); cbn [committed working];
      [intros H Hc; inversion H; subst; discriminate|].
    destruct (insertMany dpay_id _ (delivererPayments d)) as [l|] eqn:Hins;
      cbn [committed working]; intros H Hc; inversion H; subst; [|discriminate].
    apply insertMany_app in Hins. subst l. exists out. split; reflexivity.
  - intros H _. inversion H; subst. exists out. split; [reflexivity|].
    destruct (with_ids e 0 (fun i f => f i) out); [|discriminate].
    rewrite app_nil_r. match goal with |- ?x = _ => now destruct x end.
Qed.

Lemma payments_loop_paid e month year d deliverers : forall acc,
  (forall p, In p deliverers -> existingPayment month year p d <> None) ->
  payments_loop e month year d deliverers acc = Some acc.
Proof.
  induction deliverers as [|p r IH]; simpl; intros acc H; [reflexivity|].
  destruct (existingPayment month year p d) eqn:E.
  - apply IH. intros q Hq. apply H. now right.
  - exfalso. apply (H p); [now left|assumption].
Qed.

(** X5.  A commission run is made once for a period: right after a run
    answered 201, every active deliverer of the manager's areas has a payment
    for the month and year, so a second run for the same period creates
    none, is answered 201 with a count of 0, and leaves the store as it
    is. *)
Theorem processDelivererPayments_once e1 e2 manager month year d r d1 :
  processDelivererPayments e1 manager month year d = (r, d1) ->
  code r = 201 ->
  processDelivererPayments e2 manager month year d1
  = ({| code := 201; message := "0 deliverer payments processed successfully" |}, d1).
Proof.
  intros Hrun Hc.
  pose proof (processDelivererPayments_created _ _ _ _ _ _ _ Hrun Hc) as [Hall Hnew].
  apply processDelivererPayments_run in Hrun as (added & _ & Hd1); [|exact Hc].
  assert (Hsame : deliverers_in manager d1 = deliverers_in manager d) by now subst d1.
  assert (Hpaid : forall p, In p (deliverers_in manager d1) ->
                            existingPayment month year p d1 <> None).
  { intros p Hp. rewrite Hsame in Hp. unfold existingPayment. rewrite Hall.
    destruct (existingPayment month year p d) eqn:E.
    - apply find_app_l. unfold existingPayment in E. now rewrite E.
    - assert (Hin : In p (List.filter (unpaid month year d) (deliverers_in manager d))).
      { apply filter_In. split; [assumption|]. unfold unpaid. now rewrite E. }
      clear - Hnew Hin.
      induction Hnew as [|q x qs xs Hx Hrest IH]; [contradiction|].
      destruct Hin as [->|Hin].
      + apply find_exists with (x := x); [apply in_or_app; right; now left|].
        destruct Hx as (-> & -> & -> & _). now rewrite String.eqb_refl, !Z.eqb_refl.
      + specialize (IH Hin). intros Hnone. apply IH.
        apply find_none_all. intros y Hy. apply (find_none _ _ Hnone).
        apply in_app_or in Hy as [Hy|Hy]; apply in_or_app; [now left|right; now right]. }
  unfold processDelivererPayments, transactional, bind, get. cbn [committed startTransaction].
  rewrite (payments_loop_paid e2 month year d1 _ [] Hpaid). reflexivity.
Qed.

Lemma processDelivererPayments_once_witness :
  length (delivererPayments
            (snd (processDelivererPayments Scenario.env Scenario.manager 6 2024
                    Scenario.commission_db))) = 2%nat
  /\ processDelivererPayments (Desk.counter "c") Scenario.manager 6 2024
       (snd (processDelivererPayments Scenario.env Scenario.manager 6 2024
               Scenario.commission_db))
     = ({| code := 201; message := "0 deliverer payments processed successfully" |},
        snd (processDelivererPayments Scenario.env Scenario.manager 6 2024
               Scenario.commission_db)).
Proof.
  pose (res := processDelivererPayments Scenario.env Scenario.manager 6 2024
                 Scenario.commission_db).
  split; [reflexivity|].
  apply (processDelivererPayments_once Scenario.env (Desk.counter "c") Scenario.manager
           6 2024 Scenario.commission_db (fst res) (snd res)).
  - apply surjective_pairing.
  - reflexivity.
Defined.

(** ** Receipts *)

(** A payment answered 201 is stored under the receipt number of its
    instant. *)
Lemma makePayment_receipt e user billId amount method ref d r d' :
  makePayment e user billId amount method ref d = (r, d') ->
  code r = 201 ->
  exists p,
    payments d' = payments d ++ [p]
    /\ pay_receiptNumber p = "RCP" +:+ Z_toString (now e).
Proof.
  unfold makePayment, plain, bind, get, try_modify, modify, ret, respond, throw.
  assert (Hfail : forall x d0, (x, d0) = (r, d') -> code x <> 201 -> code r = 201 -> False).
  { intros x d0 H Hx Hr. inversion H; subst. contradiction. }
  destruct (is_oid billId); cbv zeta; cbn [negb];
    [|intros H Hr; exfalso; eapply Hfail; [exact H|discriminate|exact Hr]].
  destruct (find_bill user (castObjectId billId) d) as [b|];
    [|intros H Hr; exfalso; eapply Hfail; [exact H|discriminate|exact Hr]].
  destruct amount as [a|];
    [|intros H Hr; exfalso; eapply Hfail; [exact H|discriminate|exact Hr]].
  destruct (save_new_payment _ d) as [d1|] eqn:Hsave;
    [|intros H Hr; exfalso; eapply Hfail; [exact H|discriminate|exact Hr]].
  unfold log_activity. cbn [mem_str activity_types existsb String.eqb Ascii.eqb Bool.eqb orb].
  intros H _. inversion H; subst. clear H. cbn [payments set_activities set_bills].
  unfold save_new_payment in Hsave. destruct (_ && _); [|discriminate].
  destruct (insertOne pay_id _ (payments d)) as [l|] eqn:Hins; [|discriminate].
  apply insertOne_app in Hins. inversion Hsave; subst. eexists. split; reflexivity.
Qed.

(** X7.  Receipt numbers are made of the clock alone, and they are unique
    in the store: once a payment is stored, any payment made at the same
    millisecond, by whatever customer and for whatever bill, is refused, with
    404 when the bill is not found and 500 otherwise, and nothing of it is
    written: no payment, no change to the bill. *)
Theorem makePayment_same_instant e1 e2 user1 bill1 amount1 method1 ref1
    user2 bill2 amount2 method2 ref2 d r1 d1 :
  makePayment e1 user1 bill1 amount1 method1 ref1 d = (r1, d1) ->
  code r1 = 201 ->
  now e2 = now e1 ->
  (code (fst (makePayment e2 user2 bill2 amount2 method2 ref2 d1)) = 404
   \/ code (fst (makePayment e2 user2 bill2 amount2 method2 ref2 d1)) = 500)
  /\ snd (makePayment e2 user2 bill2 amount2 method2 ref2 d1) = d1.
Proof.
  intros Hrun Hc Hnow.
  apply makePayment_receipt in Hrun as (p & Hp & Hrcp); [|exact Hc].
  unfold makePayment, plain, bind, get, try_modify, modify, ret, respond, throw.
  destruct (is_oid bill2); cbv zeta; cbn [negb]; [|simpl; auto].
  destruct (find_bill user2 (castObjectId bill2) d1); [|simpl; auto].
  destruct amount2 as [a|]; [|simpl; auto].
  unfold save_new_payment. cbn [pay_receiptNumber pay_paymentMethod].
  replace (existsb _ (payments d1)) with true; [rewrite andb_false_r; simpl; auto|].
  symmetry. apply existsb_exists. exists p. split.
  - rewrite Hp. apply in_or_app. right. now left.
  - rewrite Hrcp, Hnow. apply String.eqb_refl.
Qed.

Lemma makePayment_same_instant_witness :
  makePayment Scenario.env Scenario.customer Scenario.bill (Some 40%Q) "Cash" None
    (snd (makePayment (Desk.counter "a") Scenario.customer Scenario.bill (Some 60%Q) "UPI"
            None Scenario.billed_db))
  = ({| code := 500; message := "Error processing payment" |},
     snd (makePayment (Desk.counter "a") Scenario.customer Scenario.bill (Some 60%Q) "UPI"
            None Scenario.billed_db)).
Proof.
  pose (res := makePayment (Desk.counter "a") Scenario.customer Scenario.bill (Some 60%Q)
                 "UPI" None Scenario.billed_db).
  destruct (makePayment_same_instant (Desk.counter "a") Scenario.env
              Scenario.customer Scenario.bill (Some 60%Q) "UPI" None
              Scenario.customer Scenario.bill (Some 40%Q) "Cash" None
              Scenario.billed_db (fst res) (snd res)) as [_ Hsame].
  - apply surjective_pairing.
  - reflexivity.
  - reflexivity.
  - fold res. rewrite <- Hsame at 2. fold res.
    rewrite (surjective_pairing (makePayment _ _ _ _ _ _ (snd res))). f_equal.
Defined.

(** ** From the schedule to the report of the deliverer *)

(** X8.  The items of a schedule answer to the deliverer of the schedule and
    to nobody else.  After a schedule creation answered 201, in a store whose
    schedules and delivery items have distinct identifiers, a status update
    on any item the creation added, named by its identifier in upper or
    lower case, is answered 200 when it comes from the deliverer the schedule
    was created for, and 403 when it comes from any other, or from a user
    without personnel record. *)
Theorem scheduled_deliverer_reports e1 e2 manager personnelId areaId routeId date notes
    d r1 d1 i id dp status deliveryNotes :
  createSchedule e1 manager personnelId areaId routeId date notes d = (r1, d1) ->
  code r1 = 201 ->
  List.NoDup (map sched_id (schedules d1)) ->
  List.NoDup (map di_id (deliveryItems d1)) ->
  In i (new_deliveryItems d d1) ->
  is_oid id = true -> castObjectId id = di_id i ->
  In status ["Delivered"; "Failed"; "Skipped"] ->
  (dp = option_map castObjectId (given personnelId) ->
   code (fst (updateDeliveryStatus e2 dp id status deliveryNotes d1)) = 200)
  /\ (dp <> option_map castObjectId (given personnelId) ->
      updateDeliveryStatus e2 dp id status deliveryNotes d1
      = ({| code := 403; message := "Not authorized to update this delivery" |}, d1)).
Proof.
  intros Hrun Hc Hsched Hitems Hi Hoid Hid Hstatus.
  apply createSchedule_run in Hrun
    as [(_ & pid & aid & rid & day & mk & Hp & _ & _ & _ & Hmk & _ & Hd1)|[Hn _]];
    [|contradiction].
  set (sch := {| sched_id := fresh e1 0; sched_personnelId := pid; sched_date := day;
                 sched_status := "Pending"; sched_areaId := Some aid;
                 sched_routeId := Some rid; sched_notes := notes |}) in *.
  assert (Hschedules : schedules d1 = schedules d ++ [sch]) by now subst d1.
  assert (Hnew : new_deliveryItems d d1 = with_ids e1 1 (fun i f => f i) mk).
  { subst d1. unfold new_deliveryItems. cbn [deliveryItems set_deliveryItems].
    apply skipn_length_app. }
  assert (Hin : In i (deliveryItems d1)).
  { subst d1. cbn [deliveryItems set_deliveryItems]. apply in_or_app. right.
    now rewrite <- Hnew. }
  assert (Hon : di_scheduleId i = sched_id sch).
  { rewrite Hnew in Hi.
    destruct (In_Forall2_r _ _ _ _ (with_ids_Forall2 e1 (fun i f => f i) mk 1) Hi)
      as (f & Hf & j & ->).
    destruct (In_Forall2_r _ _ _ _ (map_opt_Forall2 _ _ _ Hmk) Hf) as (s & _ & Hs).
    apply (deliveryItem_of_schedule e1 _ _ s f j Hs). }
  apply mem_str_In in Hstatus.
  unfold updateDeliveryStatus, plain, bind, get, modify, ret, respond.
  rewrite Hstatus, Hoid. cbv zeta. cbn [negb]. rewrite Hid.
  rewrite (findById_unique di_id _ i Hitems Hin).
  rewrite Hp. split.
  - intros ->.
    destruct (List.find _ (schedules d1)) eqn:Hfind; [reflexivity|].
    exfalso. eapply (find_exists _ (schedules d1) sch); [| |exact Hfind].
    + rewrite Hschedules. apply in_or_app. right. now left.
    + rewrite Hon. simpl. now rewrite !String.eqb_refl.
  - intros Hdp. rewrite find_none_all; [reflexivity|].
    intros x Hx. destruct (String.eqb (sched_id x) (di_scheduleId i)) eqn:E; [|reflexivity].
    apply String.eqb_eq in E. rewrite Hon in E.
    assert (x = sch) as ->.
    { assert (Hs : In sch (schedules d1))
        by (rewrite Hschedules; apply in_or_app; right; now left).
      pose proof (findById_unique sched_id _ x Hsched Hx) as H1.
      pose proof (findById_unique sched_id _ sch Hsched Hs) as H2.
      rewrite E in H1. congruence. }
    simpl. destruct dp as [x|]; [|reflexivity]. simpl.
    apply String.eqb_neq. intros ->. now apply Hdp.
Qed.

Lemma scheduled_deliverer_reports_witness :
  exists i,
    new_deliveryItems (Scenario.staffed_db 2)
      (snd (createSchedule Scenario.env Scenario.manager (Some Scenario.deliverer)
              (Some Scenario.area) (Some Scenario.route) (DateValue (Scenario.day 2024 6 10))
              None (Scenario.staffed_db 2)))
    = [i]
    /\ code (fst (updateDeliveryStatus Scenario.env (Some Scenario.deliverer) (di_id i)
                    "Delivered" None
                    (snd (createSchedule Scenario.env Scenario.manager
                            (Some Scenario.deliverer) (Some Scenario.area)
                            (Some Scenario.route) (DateValue (Scenario.day 2024 6 10)) None
                            (Scenario.staffed_db 2))))) = 200
    /\ code (fst (updateDeliveryStatus Scenario.env (Some Scenario.deliverer2) (di_id i)
                    "Delivered" None
                    (snd (createSchedule Scenario.env Scenario.manager
                            (Some Scenario.deliverer) (Some Scenario.area)
                            (Some Scenario.route) (DateValue (Scenario.day 2024 6 10)) None
                            (Scenario.staffed_db 2))))) = 403.
Proof.
  pose (res := createSchedule Scenario.env Scenario.manager (Some Scenario.deliverer)
                 (Some Scenario.area) (Some Scenario.route) (DateValue (Scenario.day 2024 6 10))
                 None (Scenario.staffed_db 2)).
  pose (i := hd (Scenario.the_item "" None) (deliveryItems (snd res))).
  assert (H : forall dp,
            (dp = option_map castObjectId (given (Some Scenario.deliverer)) ->
             code (fst (updateDeliveryStatus Scenario.env dp (di_id i) "Delivered" None
                          (snd res))) = 200)
            /\ (dp <> option_map castObjectId (given (Some Scenario.deliverer)) ->
                updateDeliveryStatus Scenario.env dp (di_id i) "Delivered" None (snd res)
                = ({| code := 403; message := "Not authorized to update this delivery" |},
                   snd res))).
  { intros dp.
    apply (scheduled_deliverer_reports Scenario.env Scenario.env Scenario.manager
             (Some Scenario.deliverer) (Some Scenario.area) (Some Scenario.route)
             (DateValue (Scenario.day 2024 6 10)) None (Scenario.staffed_db 2)
             (fst res) (snd res) i (di_id i) dp "Delivered" None).
    - apply surjective_pairing.
    - reflexivity.
    - vm_compute. constructor; [intros []|constructor].
    - vm_compute. constructor; [intros []|constructor].
    - vm_compute. left. reflexivity.
    - reflexivity.
    - reflexivity.
    - left. reflexivity. }
  exists i. split; [vm_compute; reflexivity|]. split.
  - apply (proj1 (H (Some Scenario.deliverer))). reflexivity.
  - assert (Hother : Some Scenario.deliverer2
                     <> option_map castObjectId (given (Some Scenario.deliverer)))
      by (vm_compute; discriminate).
    exact (f_equal (fun x => code (fst x)) (proj2 (H (Some Scenario.deliverer2)) Hother)).
Defined.

(** ** Delivery routes *)

Lemma with_ids_imap_map {A B} e (h : RouteAddress -> B) (h' : A -> B) l :
  forall (g : nat -> A -> ObjectId -> RouteAddress) k,
  (forall index a i, h (g index a i) = h' a) ->
  map h (with_ids e k (fun i f => f i) (imap g l)) = map h' l.
Proof.
  induction l as [|a r IH]; intros g k Hg; simpl; [reflexivity|].
  rewrite Hg. f_equal. apply IH. intros index a' i. apply Hg.
Qed.

Lemma with_ids_imap_positions e l :
  forall (g : nat -> Address -> ObjectId -> RouteAddress) k j,
  (forall index a i, ra_sequenceNumber (g index a i) = position (j + index)) ->
  map ra_sequenceNumber (with_ids e k (fun i f => f i) (imap g l))
  = map position (seq j (length l)).
Proof.
  induction l as [|a r IH]; intros g k j Hg; simpl; [reflexivity|].
  rewrite Hg, Nat.add_0_r. f_equal. apply (IH _ _ (S j)).
  intros index a' i. unfold compose. rewrite Hg. f_equal. lia.
Qed.

(** A route creation without [addressIds] that passes the checks stores the
    route, then reads the stops off the Active subscriptions of the area and
    stores them; it throws between the two when an address is gone. *)
Lemma createRoute_admitted e manager pid name aid criteria st :
  name <> "" ->
  route_admitted e manager pid aid criteria (main st) ->
  let route := {| route_id := fresh e 0; route_personnelId := castObjectId pid;
                  route_areaId := castObjectId aid; route_isActive := true |} in
  let st1 := set_main (set_routes (routes (main st) ++ [route]) (main st)) st in
  createRoute e manager (Some pid) (Some name) (Some aid) criteria [] st
  = match stops_of_area (fresh e 0) (castObjectId aid) (main st) with
    | None => ({| code := 500; message := "Cannot read properties of null" |}, st1)
    | Some stops =>
        attempt
          ((if (0 <? length stops)%nat then
              create_routeAddresses (with_ids e 1 (fun i f => f i) stops)
            else ret tt) ;;
           ret {| code := 201; message := "Delivery route created successfully" |})
          handleError st1
    end.
Proof.
  intros Hname (Haid & Hpid & (a & Ha & Haid' & Hm) & (p & Hp & Hpid' & Hassigned & Hactive)
                & Hcrit & Hfresh) route st1.
  assert (Hgiven : forall x, is_oid x = true -> given (Some x) = Some x).
  { intros x Hx. unfold given, truthy. destruct (String.eqb x "") eqn:E; [|reflexivity].
    apply String.eqb_eq in E. subst x. discriminate. }
  assert (Hgname : given (Some name) = Some name).
  { unfold given, truthy. destruct (String.eqb name "") eqn:E; [|reflexivity].
    apply String.eqb_eq in E. contradiction. }
  assert (Harea : List.find
                    (fun a => String.eqb (area_id a) (castObjectId aid)
                              && mem_str manager (area_managers a))
                    (areas (main st)) <> None).
  { apply (find_exists _ _ a Ha). rewrite Haid', String.eqb_refl. now apply mem_str_In. }
  assert (Hdeliverer : List.find
                         (fun p => String.eqb (dp_id p) (castObjectId pid)
                                   && mem_str (castObjectId aid) (dp_areasAssigned p)
                                   && dp_isActive p)
                         (personnel (main st)) <> None).
  { apply (find_exists _ _ p Hp). rewrite Hpid', String.eqb_refl, Hactive.
    now rewrite (proj2 (mem_str_In _ _) Hassigned). }
  assert (Hc : mem_str match criteria with Some c => c | None => "Distance" end
                 ["Distance"; "Time"; "Custom"] = true).
  { destruct criteria as [c|]; [|reflexivity]. apply mem_str_In. now apply Hcrit. }
  unfold createRoute, attempt at 1. rewrite (Hgiven pid Hpid), Hgname, (Hgiven aid Haid), Haid.
  cbv zeta. cbn [negb]. unfold bind at 1. unfold get at 1.
  destruct (List.find _ (areas (main st))); [|contradiction].
  rewrite Hpid. cbn [negb].
  destruct (List.find _ (personnel (main st))); [|contradiction].
  rewrite Hc. cbn [negb].
  unfold bind at 1. unfold try_modify, in_main. rewrite insertOne_ok by exact Hfresh.
  fold route. fold st1. unfold bind at 1. unfold get at 1.
  cbn [length Nat.ltb Nat.leb]. unfold bind at 1.
  change (stops_of_area (route_id route) (castObjectId aid) (main st1))
    with (stops_of_area (fresh e 0) (castObjectId aid) (main st)).
  destruct (stops_of_area (fresh e 0) (castObjectId aid) (main st)) as [stops|]; reflexivity.
Qed.

(** X20.  A route is not created in one piece.  When the request passes the
    checks, names no address, and one Active subscription of the area has an
    address that is no longer in the store, the answer is 500 and the route
    stays in the store, without any stop. *)
Theorem createRoute_keeps_route_on_failure e manager pid name aid criteria st s :
  name <> "" ->
  route_admitted e manager pid aid criteria (main st) ->
  In s (active_in_area (castObjectId aid) (main st)) ->
  findById addr_id (sub_addressId s) (addresses (main st)) = None ->
  exists st',
    createRoute e manager (Some pid) (Some name) (Some aid) criteria [] st
    = ({| code := 500; message := "Cannot read properties of null" |}, st')
    /\ routes (main st')
       = routes (main st)
         ++ [{| route_id := fresh e 0; route_personnelId := castObjectId pid;
                route_areaId := castObjectId aid; route_isActive := true |}]
    /\ routeAddresses st' = routeAddresses st.
Proof.
  intros Hname Hadm Hs Hgone.
  rewrite (createRoute_admitted e manager pid name aid criteria st Hname Hadm).
  assert (Hstops : stops_of_area (fresh e 0) (castObjectId aid) (main st) = None).
  { unfold stops_of_area.
    destruct (map_opt _ (active_in_area (castObjectId aid) (main st))) as [l|] eqn:E;
      [|reflexivity].
    apply map_opt_Forall2 in E. exfalso. clear - E Hs Hgone.
    induction E as [|x y l l' Hxy H IH]; [contradiction|].
    destruct Hs as [->|Hs]; [congruence|auto]. }
  rewrite Hstops. eexists. split; [reflexivity|]. split; reflexivity.
Qed.

(** X21.  A route created without naming addresses gets one stop per Active
    subscription of its area, in the order of the subscriptions, numbered
    from 1, each at the address of its subscription: two subscriptions
    delivered to one address make two stops. *)
Theorem createRoute_stops e manager pid name aid criteria st r st' :
  name <> "" ->
  route_admitted e manager pid aid criteria (main st) ->
  createRoute e manager (Some pid) (Some name) (Some aid) criteria [] st = (r, st') ->
  code r = 201 ->
  exists stops,
    routeAddresses st' = routeAddresses st ++ stops
    /\ map ra_addressId stops
       = map sub_addressId (active_in_area (castObjectId aid) (main st))
    /\ map ra_sequenceNumber stops
       = map position (seq 0 (length (active_in_area (castObjectId aid) (main st))))
    /\ (forall x, In x stops -> ra_routeId x = fresh e 0)
    /\ routes (main st')
       = routes (main st)
         ++ [{| route_id := fresh e 0; route_personnelId := castObjectId pid;
                route_areaId := castObjectId aid; route_isActive := true |}].
Proof.
  intros Hname Hadm Hrun Hc.
  rewrite (createRoute_admitted e manager pid name aid criteria st Hname Hadm) in Hrun.
  unfold stops_of_area in Hrun.
  destruct (map_opt _ (active_in_area (castObjectId aid) (main st))) as [addrs|] eqn:Eaddrs;
    cbn [option_map] in Hrun; [|inversion Hrun; subst; discriminate].
  apply map_opt_Forall2 in Eaddrs.
  set (g := fun (index : nat) (a : Address) (i : ObjectId) =>
              {| ra_id := i; ra_routeId := fresh e 0; ra_addressId := addr_id a;
                 ra_sequenceNumber := position index |}) in *.
  set (docs := with_ids e 1 (fun i f => f i) (imap g addrs)) in *.
  assert (Hlen : length (imap g addrs) = length docs).
  { unfold docs. clear. generalize 1%nat. induction (imap g addrs); intros k; simpl; auto. }
  assert (Haddr : map ra_addressId docs
                  = map sub_addressId (active_in_area (castObjectId aid) (main st))).
  { unfold docs. rewrite (with_ids_imap_map e ra_addressId addr_id) by reflexivity.
    clear - Eaddrs. induction Eaddrs as [|s a l l' Hsa H IH]; simpl; [reflexivity|].
    rewrite IH. f_equal. now apply findById_id in Hsa. }
  assert (Hseq : map ra_sequenceNumber docs
                 = map position
                     (seq 0 (length (active_in_area (castObjectId aid) (main st))))).
  { unfold docs. rewrite (with_ids_imap_positions e addrs g 1 0) by reflexivity.
    now rewrite (Forall2_length _ _ _ Eaddrs). }
  assert (Hroute : forall x, In x docs -> ra_routeId x = fresh e 0).
  { intros x Hx. unfold docs in Hx.
    destruct (In_Forall2_r _ _ _ _ (with_ids_Forall2 e (fun i f => f i) (imap g addrs) 1) Hx)
      as (f & Hf & i & ->).
    apply list_elem_of_In, list_elem_of_lookup in Hf as [k Hk].
    rewrite list_lookup_imap in Hk. destruct (addrs !! k); [|discriminate].
    inversion Hk. reflexivity. }
  unfold attempt, bind, ret in Hrun.
  destruct (0 <? length (imap g addrs))%nat eqn:Hpos.
  - unfold create_routeAddresses in Hrun. cbn [routeAddresses set_main] in Hrun.
    destruct (create_each_In ra_id docs (routeAddresses st)) as (added & Heq & _ & Hok).
    destruct (create_each ra_id docs (routeAddresses st)) as [l ok].
    destruct ok; inversion Hrun; subst r st'; [|discriminate].
    simpl in Heq, Hok. rewrite (Hok eq_refl) in Heq. exists docs. auto.
  - inversion Hrun; subst r st'. apply Nat.ltb_ge in Hpos.
    assert (docs = []) as Hnil by (destruct docs; [reflexivity|simpl in Hlen; lia]).
    exists []. rewrite Hnil in *. cbn [routeAddresses set_main]. rewrite app_nil_r.
    split; [reflexivity|]. split; [exact Haddr|]. split; [exact Hseq|].
    split; [intros x []|reflexivity].
Qed.

Lemma route_admitted_staffed d :
  areas d = areas (Scenario.staffed_db 2) ->
  personnel d = personnel (Scenario.staffed_db 2) ->
  routes d = routes (Scenario.staffed_db 2) ->
  route_admitted Scenario.env Scenario.manager Scenario.deliverer Scenario.area None d.
Proof.
  intros Ha Hp Hr. unfold route_admitted. rewrite Ha, Hp, Hr.
  split; [reflexivity|]. split; [reflexivity|]. split.
  { eexists. split; [left; reflexivity|]. split; [reflexivity|]. left. reflexivity. }
  split.
  { eexists. split; [left; reflexivity|]. split; [reflexivity|].
    split; [left; reflexivity|reflexivity]. }
  split; [intros c; discriminate|]. simpl. intros [H|[]]. revert H. vm_compute. discriminate.
Qed.

Lemma createRoute_keeps_route_on_failure_witness :
  exists st',
    createRoute Scenario.env Scenario.manager (Some Scenario.deliverer) (Some "North")
      (Some Scenario.area) None [] (Desk.store Desk.address_lost)
    = ({| code := 500; message := "Cannot read properties of null" |}, st')
    /\ map route_id (routes (main st')) = [Scenario.route; fresh Scenario.env 0]
    /\ routeAddresses st' = [].
Proof.
  destruct (createRoute_keeps_route_on_failure Scenario.env Scenario.manager
              Scenario.deliverer "North" Scenario.area None (Desk.store Desk.address_lost)
              (Scenario.the_subscription 2 "Active"))
    as (st' & Hrun & Hroutes & Hstops).
  - discriminate.
  - now apply route_admitted_staffed.
  - left. reflexivity.
  - reflexivity.
  - exists st'. split; [exact Hrun|]. split; [now rewrite Hroutes|exact Hstops].
Defined.

Lemma createRoute_stops_witness :
  exists x y,
    routeAddresses
      (snd (createRoute Scenario.env Scenario.manager (Some Scenario.deliverer)
              (Some "North") (Some Scenario.area) None []
              (Desk.store Desk.two_subscriptions)))
    = [x; y]
    /\ ra_addressId x = Scenario.address /\ ra_addressId y = Scenario.address
    /\ ra_sequenceNumber x = 1%Q /\ ra_sequenceNumber y = 2%Q.
Proof.
  pose (res := createRoute Scenario.env Scenario.manager (Some Scenario.deliverer)
                 (Some "North") (Some Scenario.area) None []
                 (Desk.store Desk.two_subscriptions)).
  destruct (createRoute_stops Scenario.env Scenario.manager Scenario.deliverer "North"
              Scenario.area None (Desk.store Desk.two_subscriptions) (fst res) (snd res))
    as (stops & Heq & Haddr & Hseq & _).
  - discriminate.
  - now apply route_admitted_staffed.
  - apply surjective_pairing.
  - reflexivity.
  - destruct stops as [|x [|y [|z stops]]]; try discriminate.
    exists x, y. split; [exact Heq|]. inversion Haddr. inversion Hseq. auto.
Defined.

(** ** What a commission depends on *)

Lemma payments_loop_rate e month year d deliverers : forall acc out,
  payments_loop e month year d deliverers acc = Some out ->
  forall items,
    (forall from to,
       new_Date year (month - 1) 1 = Some from -> new_Date year month 0 = Some to ->
       items = List.filter (delivered_in_period (mongoose e) "" from to) (deliveryItems d)) ->
    (forall f i, In f acc ->
       reduce_commission d (dpay_commissionRate (f i)) items 0%Q = Some (dpay_amount (f i))) ->
    forall f i, In f out ->
      reduce_commission d (dpay_commissionRate (f i)) items 0%Q = Some (dpay_amount (f i)).
Proof.
  induction deliverers as [|p r IH]; simpl; intros acc out Hloop items Hitems Hacc.
  - inversion Hloop; subst. assumption.
  - destruct (existingPayment month year p d); [eapply IH; eassumption|].
    destruct (new_Date year (month - 1) 1) as [from|]; [|discriminate].
    destruct (new_Date year month 0) as [to|]; [|discriminate].
    destruct (reduce_commission d (dp_commissionRate p) _ 0) as [amount|] eqn:Hsum;
      [|discriminate].
    eapply IH; [exact Hloop|exact Hitems|].
    intros f i Hin. apply in_app_or in Hin as [Hin|[<-|[]]]; [now apply Hacc|].
    simpl. rewrite (Hitems from to eq_refl eq_refl). exact Hsum.
Qed.

(** X6.  The commission of a run depends on the commission rate alone: the
    items are selected by status and delivery time, never by deliverer, so
    two deliverers with the same rate are paid the same amount by one run,
    whatever each of them delivered, and whatever the connection does with
    the filter on the schedule. *)
Theorem commission_depends_on_rate_only e manager month year d r d' x y :
  processDelivererPayments e manager month year d = (r, d') ->
  In x (new_delivererPayments d d') ->
  In y (new_delivererPayments d d') ->
  dpay_commissionRate x = dpay_commissionRate y ->
  dpay_amount x = dpay_amount y.
Proof.
  unfold processDelivererPayments, create_with_session, transactional, bind, get, try_modify,
    try_in_session, commitTransaction, modify, ret, throw, startTransaction.
  cbn [committed working].
  destruct (payments_loop e month year d (deliverers_in manager d) []) as [out|] eqn:Hloop.
  2:{ destruct (new_Date year (month - 1) 1), (new_Date year month 0);
        intros H; inversion H; subst; unfold new_delivererPayments; now rewrite skipn_all. }
  set (items := match new_Date year (month - 1) 1, new_Date year month 0 with
                | Some from, Some to =>
                    List.filter (delivered_in_period (mongoose e) "" from to)
                      (deliveryItems d)
                | _, _ => []
                end).
  assert (Hout : forall p, In p (with_ids e 0 (fun i f => f i) out) ->
            reduce_commission d (dpay_commissionRate p) items 0%Q = Some (dpay_amount p)).
  { intros p Hp.
    destruct (In_Forall2_r _ _ _ _ (with_ids_Forall2 e (fun i f => f i) out 0) Hp)
      as (f & Hf & i & ->).
    eapply payments_loop_rate; [exact Hloop| | |exact Hf]; [|intros ? ? []].
    intros from to Hfrom Hto. unfold items. now rewrite Hfrom, Hto. }
  assert (Hsame : forall l, new_delivererPayments d d' = l ->
            (forall p, In p l -> In p (with_ids e 0 (fun i f => f i) out)) ->
            In x (new_delivererPayments d d') -> In y (new_delivererPayments d d') ->
            dpay_commissionRate x = dpay_commissionRate y -> dpay_amount x = dpay_amount y).
  { intros l Hl Hin Hx Hy Hrate. rewrite Hl in Hx, Hy.
    pose proof (Hout x (Hin x Hx)) as H1. pose proof (Hout y (Hin y Hy)) as H2.
    rewrite Hrate in H1. congruence. }
  destruct (0 <? length (with_ids e 0 (fun i f => f i) out))%nat; cbn [committed working].
  - destruct (createGuard (mongoose e) && _); cbn [committed working].
    { intros H. inversion H; subst.
      apply (Hsame []); [|intros p []]. unfold new_delivererPayments. apply skipn_all. }
    destruct (insertMany dpay_id _ (delivererPayments d)) as [l|] eqn:Hins;
      cbn [committed working]; intros H; inversion H; subst.
    + apply insertMany_app in Hins. subst l.
      apply (Hsame (with_ids e 0 (fun i f => f i) out)); [|auto].
      unfold new_delivererPayments. simpl. apply skipn_length_app.
    + apply (Hsame []); [|intros p []]. unfold new_delivererPayments. apply skipn_all.
  - intros H. inversion H; subst.
    apply (Hsame []); [|intros p []]. unfold new_delivererPayments. apply skipn_all.
Qed.

Lemma commission_depends_on_rate_only_witness :
  exists x y,
    new_delivererPayments Scenario.commission_db
      (snd (processDelivererPayments
              (Scenario.with_mongoose
                 {| strictQuery := true; ignoreUndefined := false; createGuard := false |})
              Scenario.manager 6 2024 Scenario.commission_db))
    = [x; y]
    /\ dpay_personnelId x = Scenario.deliverer /\ dpay_personnelId y = Scenario.deliverer2
    /\ dpay_amount x = dpay_amount y.
Proof.
  pose (e := Scenario.with_mongoose
              {| strictQuery := true; ignoreUndefined := false; createGuard := false |}).
  pose (res := processDelivererPayments e Scenario.manager 6 2024 Scenario.commission_db).
  pose (dummy := {| dpay_id := ""; dpay_personnelId := ""; dpay_paymentMonth := 0;
                    dpay_paymentYear := 0; dpay_amount := 0; dpay_commissionRate := 0;
                    dpay_status := ""; dpay_paymentMethod := "" |}).
  pose (x := nth 0 (delivererPayments (snd res)) dummy).
  pose (y := nth 1 (delivererPayments (snd res)) dummy).
  exists x, y. split; [vm_compute; reflexivity|]. split; [reflexivity|].
  split; [reflexivity|].
  apply (commission_depends_on_rate_only e Scenario.manager 6 2024 Scenario.commission_db
           (fst res) (snd res) x y).
  - apply surjective_pairing.
  - vm_compute. left. reflexivity.
  - vm_compute. right. left. reflexivity.
  - reflexivity.
Defined.

(** ** Approval of a New request that has no subscription *)

(** X14.  The approval of a New request creates no subscription: when the
    request names none, or one that is not in the store, the handler builds
    one with the status Pending and without start date, which the schema
    refuses, so the approval is never answered 200, and the store is left as
    it was. *)
Theorem approval_creates_no_subscription e manager id comments d request :
  findById req_id (castObjectId id) (requests d) = Some request ->
  req_requestType request = "New" ->
  populate sub_id (req_subscriptionId request) (subscriptions d) = None ->
  code (fst (handleSubscriptionRequest e manager id (Some "Approved") comments d)) <> 200
  /\ snd (handleSubscriptionRequest e manager id (Some "Approved") comments d) = d.
Proof.
  intros Hreq Hnew Hsub.
  destruct (handleSubscriptionRequest e manager id (Some "Approved") comments d)
    as [r d'] eqn:Hrun.
  apply handleSubscriptionRequest_run in Hrun
    as [(_ & request' & area & q & w & Hreq' & Hdec & _)|[Hc ->]]; [|now split].
  exfalso. rewrite Hreq in Hreq'. inversion Hreq'; subst request'. clear Hreq'.
  rewrite Hsub in Hdec. unfold apply_decision in Hdec. cbn [opt_eqb] in Hdec.
  rewrite String.eqb_refl in Hdec. cbn [req_requestType process_request] in Hdec.
  rewrite Hnew, String.eqb_refl in Hdec.
  apply approve_new_val in Hdec as (_ & _ & _ & s0 & _ & Hs & _). discriminate.
Qed.

Lemma approval_creates_no_subscription_witness :
  handleSubscriptionRequest Scenario.env Scenario.manager Scenario.request (Some "Approved")
    None Desk.orphan
  = ({| code := 500; message := "Error handling subscription request" |}, Desk.orphan).
Proof.
  destruct (approval_creates_no_subscription Scenario.env Scenario.manager Scenario.request
              None Desk.orphan Desk.orphan_request) as [_ Hsame].
  - reflexivity.
  - reflexivity.
  - reflexivity.
  - rewrite <- Hsame at 2.
    rewrite (surjective_pairing (handleSubscriptionRequest _ _ _ _ _ _)). f_equal.
Defined.

(** ** The listing of the requests, the other way round *)

(** X22.  When the connection sends an undefined filter value as null, the
    listing misses no request: every stored Pending request that passes the
    area check of the decision for a manager is in the list
    [getSubscriptionRequests] gives that manager. *)
Theorem decidable_request_is_listed o manager d q area :
  ignoreUndefined o = false ->
  In q (requests d) ->
  req_status q = Some "Pending" ->
  authorized_in o manager q d area ->
  In q (getSubscriptionRequests manager d).
Proof.
  intros Hignore Hin Hpending Hauth.
  unfold getSubscriptionRequests. apply filter_In. split.
  { apply filter_In. split; [exact Hin|]. rewrite Hpending. reflexivity. }
  unfold authorized_in, area_check, request_area in Hauth.
  assert (Hmanaged : forall a (p : Area -> bool),
            List.find (fun a => p a && mem_str manager (area_managers a)) (areas d) = Some a ->
            In a (managed_areas manager d) /\ p a = true).
  { intros a p Hfind. apply find_some in Hfind as [Ha Hp]. apply andb_prop in Hp as [Hp Hm].
    split; [|exact Hp]. unfold managed_areas. apply filter_In. now split. }
  assert (Hids : forall a x, In a (managed_areas manager d) ->
            id_matches o x (area_id a) = true -> area_in x (areaIds manager d) = true).
  { intros a x Ha Hx. destruct x as [i|]; simpl in Hx; [|congruence].
    apply String.eqb_eq in Hx. subst i. simpl. apply mem_str_In. unfold areaIds.
    now apply in_map. }
  unfold valid_request, populate_in_areas.
  destruct (String.eqb (req_requestType q) "New").
  - destruct (populate pub_id (req_publicationId q) (publications d)) as [p|];
      [|discriminate].
    unfold ret in Hauth. inversion Hauth as [Hfind]. clear Hauth.
    apply Hmanaged in Hfind as [Ha Hp].
    apply orb_prop in Hp as [Hp|Hs]; [apply orb_prop in Hp as [Hp|Haddr]|].
    + apply orb_true_iff. left. apply orb_true_iff. left. apply mem_str_In.
      unfold publicationIds. apply in_flat_map. exists area. split; [exact Ha|].
      now apply mem_str_In.
    + apply orb_true_iff. left. apply orb_true_iff. right.
      destruct (populate addr_id (req_newAddressId q) (addresses d)) as [x|];
        simpl in Haddr; [|congruence]. eapply Hids; eassumption.
    + apply orb_true_iff. right.
      destruct (populate sub_id (req_subscriptionId q) (subscriptions d)) as [s|];
        simpl in Hs; [|congruence].
      rewrite (Hids area _ Ha Hs). now apply (Hids area).
  - unfold ret in Hauth. inversion Hauth as [Hfind]. clear Hauth.
    apply Hmanaged in Hfind as [Ha Hs].
    destruct (populate sub_id (req_subscriptionId q) (subscriptions d)) as [s|];
      simpl in Hs; [|congruence].
    now rewrite (Hids area _ Ha Hs).
Qed.

Lemma decidable_request_is_listed_witness :
  exists q,
    requests Scenario.submitted = [q]
    /\ In q (getSubscriptionRequests Scenario.manager Scenario.submitted).
Proof.
  eexists. split; [vm_compute; reflexivity|].
  eapply (decidable_request_is_listed (mongoose Scenario.env) Scenario.manager
            Scenario.submitted).
  - reflexivity.
  - vm_compute. left. reflexivity.
  - reflexivity.
  - unfold authorized_in. vm_compute. reflexivity.
Defined.

(** ** Bills of other customers *)

(** X23.  The bills of a customer are out of reach of the others.  In a
    store whose bills have distinct identifiers, a customer who asks for the
    details of a bill of another customer, or pays it, is answered 404 as if
    the bill did not exist; no payment is stored and the bill is left as it
    was. *)
Theorem foreign_bill_is_not_found e user b id amount method ref d :
  List.NoDup (map bill_id (bills d)) ->
  In b (bills d) ->
  bill_userId b <> user ->
  is_oid id = true -> castObjectId id = bill_id b ->
  getBillDetails user id d = ({| code := 404; message := "Bill not found" |}, None)
  /\ makePayment e user id amount method ref d
     = ({| code := 404; message := "Bill not found" |}, d).
Proof.
  intros Hnd Hin Hother Hoid Hid.
  assert (Hnone : find_bill user (castObjectId id) d = None).
  { unfold find_bill. apply find_none_all. intros x Hx.
    rewrite Hid. destruct (String.eqb (bill_id x) (bill_id b)) eqn:E; [|reflexivity].
    apply String.eqb_eq in E.
    pose proof (findById_unique bill_id _ x Hnd Hx) as H1.
    pose proof (findById_unique bill_id _ b Hnd Hin) as H2.
    rewrite E in H1. assert (x = b) as -> by congruence.
    simpl. now apply String.eqb_neq. }
  unfold getBillDetails, makePayment, plain, bind, get, respond.
  rewrite Hoid. cbv zeta. cbn [negb]. rewrite Hnone. split; reflexivity.
Qed.

Lemma foreign_bill_is_not_found_witness :
  getBillDetails Scenario.manager Scenario.bill Scenario.billed_db
  = ({| code := 404; message := "Bill not found" |}, None)
  /\ makePayment Scenario.env Scenario.manager Scenario.bill (Some 100%Q) "Cash" None
       Scenario.billed_db
     = ({| code := 404; message := "Bill not found" |}, Scenario.billed_db)
  /\ code (fst (getBillDetails Scenario.customer Scenario.bill Scenario.billed_db)) = 200.
Proof.
  destruct (foreign_bill_is_not_found Scenario.env Scenario.manager
              (Scenario.the_bill 100 "Unpaid") Scenario.bill (Some 100%Q) "Cash" None
              Scenario.billed_db)
    as [Hread Hpay].
  - simpl. constructor; [intros []|constructor].
  - left. reflexivity.
  - discriminate.
  - reflexivity.
  - reflexivity.
  - split; [exact Hread|]. split; [exact Hpay|reflexivity].
Defined.

(** ** Decisions other than an approval *)

(** X24.  A decision that is not an approval touches the request alone: the
    subscriptions are left as they were, whatever the answer.  The
    subscription that a New request created Active at submission is
    therefore still Active, and still billed and delivered, after the
    request is rejected. *)
Theorem rejection_leaves_subscriptions e manager id status comments d r d' :
  status <> Some "Approved" ->
  handleSubscriptionRequest e manager id status comments d = (r, d') ->
  subscriptions d' = subscriptions d
  /\ (forall m, billable_subscriptions m d' = billable_subscriptions m d)
  /\ (forall a, active_in_area a d' = active_in_area a d).
Proof.
  intros Hstatus Hrun.
  apply handleSubscriptionRequest_run in Hrun
    as [(_ & request & area & request' & w & _ & Hdec & _ & ->)|[_ ->]];
    [|repeat split].
  unfold apply_decision in Hdec.
  destruct (opt_eqb status "Approved") eqn:E.
  { exfalso. apply Hstatus. destruct status as [given|]; [|discriminate].
    simpl in E. apply String.eqb_eq in E. now subst. }
  unfold ret in Hdec. inversion Hdec; subst. repeat split.
Qed.

Lemma rejection_leaves_subscriptions_witness :
  map req_status (requests Scenario.rejected) = [Some "Rejected"]
  /\ billable_subscriptions Scenario.manager Scenario.rejected
     = billable_subscriptions Scenario.manager Scenario.submitted
  /\ map sub_status (billable_subscriptions Scenario.manager Scenario.rejected) = ["Active"].
Proof.
  pose (res := handleSubscriptionRequest Scenario.env Scenario.manager Scenario.request
                 (Some "Rejected") None Scenario.submitted).
  destruct (rejection_leaves_subscriptions Scenario.env Scenario.manager Scenario.request
              (Some "Rejected") None Scenario.submitted (fst res) (snd res))
    as (_ & Hbill & _).
  - discriminate.
  - apply surjective_pairing.
  - split; [reflexivity|]. split; [exact (Hbill Scenario.manager)|reflexivity].
Defined.

(** ** What every operation keeps *)

Lemma generateBills_subscriptions e manager month year d r d' :
  generateBills e manager month year d = (r, d') -> subscriptions d' = subscriptions d.
Proof.
  intros Hrun.
  apply generateBills_run in Hrun
    as [(_ & bs & m & due & from & to & _ & _ & _ & _ & _ & _ & _ & ->)|[_ ->]];
    reflexivity.
Qed.

Lemma updateSubscription_frame e user id quantity addressId d :
  snd (updateSubscription e user id quantity addressId d) = d.
Proof.
  unfold updateSubscription, plain, bind, get, try_modify, ret, respond, throw.
  destruct (is_oid id); cbv zeta; cbn [negb]; [|reflexivity].
  destruct (List.find _ (subscriptions d)); [|reflexivity].
  destruct (cast_opt addressId); reflexivity.
Qed.

Lemma cancelSubscription_frame e user id d r d' :
  cancelSubscription e user id d = (r, d') ->
  bills d' = bills d /\ subscriptions d' = subscriptions d.
Proof.
  intros Hrun.
  apply cancelSubscription_run in Hrun as [(_ & s & _ & _ & _ & ->)|[_ ->]];
    split; reflexivity.
Qed.

Lemma requestPause_frame e user subscriptionId startDate endDate reason st r st' :
  requestPause e user subscriptionId startDate endDate reason st = (r, st') ->
  bills (main st') = bills (main st)
  /\ (quantities_set (main st) -> quantities_set (main st')).
Proof.
  unfold requestPause, attempt, bind, get, try_modify, ret, respond, throw.
  destruct (cast_opt subscriptionId) as [sid|]; [|intros H; inversion H; now split].
  destruct (find_active_subscription _ _ _ _) as [s|] eqn:Hs;
    [|intros H; inversion H; now split].
  destruct sid as [sid|]; [|intros H; inversion H; now split].
  destruct startDate as [from|]; [|intros H; inversion H; now split].
  destruct endDate as [to|]; [|intros H; inversion H; now split].
  unfold save_new_pause. cbn [pauses].
  destruct (insertOne pause_id _ (pauses st)) as [l|]; [|intros H; inversion H; now split].
  unfold in_main, save_subscription. cbn [main set_pauses].
  destruct (validate_subscription (with_status "Paused" s));
    [|intros H; inversion H; now split].
  unfold log_activity. cbn [mem_str activity_types existsb String.eqb Ascii.eqb Bool.eqb orb].
  cbn [main set_main].
  intros H. inversion H; subst. cbn [main set_main bills subscriptions set_activities
                                       set_subscriptions].
  split; [reflexivity|]. intros Hq. unfold quantities_set.
  cbn [subscriptions set_activities set_subscriptions].
  apply replaceOne_quantities; [exact Hq|]. simpl. apply Hq.
  unfold find_active_subscription in Hs. now apply find_some in Hs.
Qed.

Lemma sendPaymentReminders_frame e manager st r st' :
  sendPaymentReminders e manager st = (r, st') -> main st' = main st.
Proof.
  intros Hrun. apply sendPaymentReminders_run in Hrun as [(docs & _ & -> & _)|[_ ->]];
    reflexivity.
Qed.

Lemma create_routeAddresses_main docs st :
  match create_routeAddresses docs st with
  | Val _ st' | Ret _ st' | Throw _ st' => main st' = main st
  end.
Proof.
  unfold create_routeAddresses. destruct (create_each ra_id docs (routeAddresses st)) as [l ok].
  destruct ok; reflexivity.
Qed.

Lemma createRoute_frame e manager personnelId routeName areaId criteria addressIds st r st' :
  createRoute e manager personnelId routeName areaId criteria addressIds st = (r, st') ->
  bills (main st') = bills (main st) /\ subscriptions (main st') = subscriptions (main st).
Proof.
  unfold createRoute, attempt.
  destruct (given personnelId) as [pid|]; [|intros H; inversion H; now split].
  destruct (given routeName) as [name|]; [|intros H; inversion H; now split].
  destruct (given areaId) as [aid|]; [|intros H; inversion H; now split].
  destruct (is_oid aid); cbv zeta; cbn [negb]; [|intros H; inversion H; now split].
  unfold bind at 1. unfold get at 1.
  destruct (List.find _ (areas (main st))); [|intros H; inversion H; now split].
  destruct (is_oid pid); cbn [negb]; [|intros H; inversion H; now split].
  destruct (List.find _ (personnel (main st))); [|intros H; inversion H; now split].
  destruct (negb (mem_str _ _)); [intros H; inversion H; now split|].
  unfold bind at 1. unfold try_modify, in_main.
  destruct (insertOne route_id _ (routes (main st))) as [l|];
    [|intros H; inversion H; now split].
  set (st1 := set_main (set_routes l (main st)) st).
  assert (H1 : bills (main st1) = bills (main st)
               /\ subscriptions (main st1) = subscriptions (main st)) by now split.
  unfold bind at 1. unfold get at 1. unfold bind at 1.
  assert (Hrest : forall stops,
            match
              ((if (0 <? length stops)%nat then
                  create_routeAddresses (with_ids e 1 (fun i f => f i) stops)
                else ret tt) ;;
               ret {| code := 201; message := "Delivery route created successfully" |}) st1
            with
            | Val r0 s | Ret r0 s => (r0, s)
            | Throw e0 s => (handleError e0, s)
            end = (r, st') ->
            bills (main st') = bills (main st)
            /\ subscriptions (main st') = subscriptions (main st)).
  { intros stops. unfold bind, ret.
    destruct (0 <? length stops)%nat; [|intros H; inversion H; subst; exact H1].
    pose proof (create_routeAddresses_main (with_ids e 1 (fun i f => f i) stops) st1) as Hm.
    destruct (create_routeAddresses _ st1) as [u st2|resp st2|err st2];
      intros H; inversion H; subst; rewrite Hm; exact H1. }
  destruct (0 <? length addressIds)%nat.
  - destruct (negb (forallb _ addressIds)); [intros H; inversion H; subst; exact H1|].
    exact (Hrest _).
  - destruct (stops_of_area _ _ (main st1));
      [exact (Hrest _)|intros H; inversion H; subst; exact H1].
Qed.

(** Every operation leaves the bills as they are, but for a billing run and
    a payment. *)
Lemma perform_bills e op st :
  writes_bills op = false -> bills (main (snd (perform e op st))) = bills (main st).
Proof.
  destruct op; simpl; try discriminate; intros _; unfold on_main; cbn [snd main set_main].
  - eapply handleSubscriptionRequest_frame, surjective_pairing.
  - eapply createSchedule_frame, surjective_pairing.
  - eapply processDelivererPayments_frame, surjective_pairing.
  - eapply updateDeliveryStatus_frame, surjective_pairing.
  - eapply createSubscription_frame, surjective_pairing.
  - now rewrite updateSubscription_frame.
  - eapply cancelSubscription_frame, surjective_pairing.
  - eapply requestPause_frame, surjective_pairing.
  - erewrite sendPaymentReminders_frame; [reflexivity|apply surjective_pairing].
  - eapply createRoute_frame, surjective_pairing.
Qed.

(** No operation stores a subscription of quantity 0: a submission takes
    positive integers only, an approval takes the quantity 0 of a request for
    no quantity at all, and the other operations leave the quantities as
    they are. *)
Lemma quantities_set_kept e op st :
  quantities_set (main st) -> quantities_set (main (snd (perform e op st))).
Proof.
  intros Hq.
  assert (Hsame : forall d', subscriptions d' = subscriptions (main st) -> quantities_set d').
  { intros d' H s Hs. rewrite H in Hs. now apply Hq. }
  destruct op; simpl; unfold on_main; cbn [snd main set_main].
  - apply Hsame. eapply generateBills_subscriptions, surjective_pairing.
  - apply Hsame.
    destruct (makePayment_run e user billId amount paymentMethod referenceNumber (main st)
                _ _ (surjective_pairing _)) as [(_ & a & b & _ & _ & _ & H)|[_ H]];
      [exact H|now rewrite H].
  - eapply handleSubscriptionRequest_frame; [apply surjective_pairing|exact Hq].
  - apply Hsame. eapply createSchedule_frame, surjective_pairing.
  - apply Hsame. eapply processDelivererPayments_frame, surjective_pairing.
  - apply Hsame. eapply updateDeliveryStatus_frame, surjective_pairing.
  - eapply createSubscription_frame; [apply surjective_pairing|exact Hq].
  - now rewrite updateSubscription_frame.
  - apply Hsame. eapply cancelSubscription_frame, surjective_pairing.
  - eapply requestPause_frame; [apply surjective_pairing|exact Hq].
  - erewrite sendPaymentReminders_frame; [exact Hq|apply surjective_pairing].
  - apply Hsame. eapply createRoute_frame, surjective_pairing.
Qed.

(** ** The invariant of bills, over the operations *)

(** The claim of C6 fails for bill generation: nothing keeps a price from
    being negative, and a subscription to a publication priced -5 is billed
    with an outstanding amount of -5. *)
Lemma generateBills_negative_outstanding :
  exists b,
    bills (Scenario.db (-5) 1 "Active") = []
    /\ bills (snd (generateBills Scenario.env Scenario.manager 6 2024
                    (Scenario.db (-5) 1 "Active"))) = [b]
    /\ (bill_outstandingAmount b == -5)%Q
    /\ ~ bill_invariant b.
Proof.
  eexists. split; [reflexivity|]. split; [reflexivity|]. split; [reflexivity|].
  intros [H _]. vm_compute in H. apply H. reflexivity.
Qed.

Lemma generateBills_keeps_invariant e manager month year d r d' :
  generateBills e manager month year d = (r, d') ->
  (forall b, In b (new_bills d d') -> bill_outstandingAmount b = bill_totalAmount b)
  /\ (amounts_nonnegative d ->
      Forall bill_invariant (bills d) -> Forall bill_invariant (bills d')).
Proof.
  intros Hrun.
  assert (Hnew : forall b, In b (new_bills d d') ->
            bill_outstandingAmount b = bill_totalAmount b
            /\ (amounts_nonnegative d -> (0 <= bill_totalAmount b)%Q)).
  { intros b Hb.
    destruct (generateBills_new_bills _ _ _ _ _ _ _ _ Hrun Hb)
      as (_ & bs & m & i & nb & due & Hloop & Hnb & _ & ->).
    apply (billing_inv_loop _ _ _ _ _ [] _ _ (billing_inv_init e month year d)) in Hloop.
    destruct (inv_amounts _ _ _ _ _ _ Hloop i nb Hnb) as [Ht Ho].
    pose proof (inv_lines _ _ _ _ _ _ Hloop i nb Hnb) as Hl. simpl in *.
    split; [congruence|]. intros [Hp Hq]. rewrite Ht. apply sum_lines_nonneg.
    intros it Hit. apply Forall2_of_map in Hl.
    destruct (In_Forall2_r _ _ _ _ Hl Hit) as (s & Hs & Hline).
    apply filter_In in Hs as [Hs _]. apply filter_In in Hs as [Hs _].
    unfold line in Hline.
    destruct (findById pub_id (sub_publicationId s) (publications d)) as [p|] eqn:Ep;
      [|discriminate].
    inversion Hline; subst it. simpl. apply findById_In in Ep.
    apply Qmult_le_0_compat; auto. }
  split; [intros b Hb; now apply Hnew|].
  intros Hpos Hinv.
  assert (bills d' = bills d ++ new_bills d d') as ->.
  { apply generateBills_run in Hrun
      as [(_ & bs & m & due & from & to & _ & _ & _ & _ & _ & _ & _ & ->)|[_ ->]];
      unfold new_bills; simpl.
    - now rewrite skipn_length_app.
    - now rewrite skipn_all, app_nil_r. }
  apply Forall_app. split; [assumption|]. apply List.Forall_forall. intros b Hb.
  destruct (Hnew b Hb) as [Ho Ht]. specialize (Ht Hpos).
  unfold bill_invariant. rewrite Ho. split; [assumption|apply Qle_refl].
Qed.

Lemma makePayment_keeps_invariant e user billId amount method ref d r d' :
  (forall a, amount = Some a -> (0 < a)%Q) ->
  makePayment e user billId amount method ref d = (r, d') ->
  Forall bill_invariant (bills d) -> Forall bill_invariant (bills d').
Proof.
  intros Hpos Hrun Hinv.
  apply makePayment_run in Hrun as [(_ & a & b & -> & Hb & -> & _)|[_ ->]]; [|assumption].
  apply List.Forall_forall. intros x Hx. rewrite List.Forall_forall in Hinv.
  apply In_replaceOne in Hx as [->|Hx]; [|now apply Hinv].
  apply pay_bill_invariant; [now apply Hpos|]. apply Hinv.
  unfold find_bill in Hb. now apply find_some in Hb.
Qed.

(** C6, amended.  Bill generation gives every new bill an outstandingAmount
    equal to its totalAmount and leaves the other bills alone, so it keeps
    0 <= outstandingAmount <= totalAmount on all bills provided no price and
    no quantity is negative; a payment of a positive amount keeps it,
    whatever the answer to the payment; every other operation,
    handleSubscriptionRequest, createSchedule, createRoute,
    processDelivererPayments, sendPaymentReminders, updateDeliveryStatus,
    createSubscription, updateSubscription, cancelSubscription and
    requestPause, leaves the bills as they are; and so every one of these
    operations keeps the invariant on all bills, a payment being of a
    positive amount and no price and no quantity negative. *)
Theorem bill_invariant_preserved :
  (forall e manager month year d r d',
      generateBills e manager month year d = (r, d') ->
      (forall b, In b (new_bills d d') -> bill_outstandingAmount b = bill_totalAmount b)
      /\ (amounts_nonnegative d ->
          Forall bill_invariant (bills d) -> Forall bill_invariant (bills d')))
  /\ (forall e user billId amount method ref d r d',
      (forall a, amount = Some a -> (0 < a)%Q) ->
      makePayment e user billId amount method ref d = (r, d') ->
      Forall bill_invariant (bills d) -> Forall bill_invariant (bills d'))
  /\ (forall e op st,
      writes_bills op = false -> bills (main (snd (perform e op st))) = bills (main st))
  /\ (forall e op st,
      amounts_nonnegative (main st) -> pays_positive op ->
      Forall bill_invariant (bills (main st)) ->
      Forall bill_invariant (bills (main (snd (perform e op st))))).
Proof.
  split; [exact generateBills_keeps_invariant|].
  split; [exact makePayment_keeps_invariant|].
  split; [exact perform_bills|].
  intros e op st Hpos Hpay Hinv.
  destruct (writes_bills op) eqn:Hw; [|now rewrite perform_bills].
  destruct op; try discriminate; simpl; unfold on_main; cbn [snd main set_main].
  - eapply generateBills_keeps_invariant; [apply surjective_pairing|exact Hpos|exact Hinv].
  - eapply makePayment_keeps_invariant; [|apply surjective_pairing|exact Hinv].
    intros a ->. exact Hpay.
Qed.

Lemma bill_invariant_preserved_witness :
  Forall bill_invariant
    (bills (snd (generateBills Scenario.env Scenario.manager 6 2024 (Scenario.db 50 2 "Active"))))
  /\ Forall bill_invariant
       (bills (snd (makePayment Scenario.env Scenario.customer Scenario.bill (Some 150%Q) "UPI"
                      None Scenario.billed_db)))
  /\ bills (main (snd (perform Scenario.env
                         (CreateSchedule Scenario.manager (Some Scenario.deliverer)
                            (Some Scenario.area) (Some Scenario.route)
                            (DateValue (Scenario.day 2024 6 10)) None)
                         (Desk.store Scenario.billed_db))))
     = [Scenario.the_bill 100 "Unpaid"]
  /\ Forall bill_invariant
       (bills (main (snd (perform Scenario.env
                            (MakePayment Scenario.customer Scenario.bill (Some 30%Q) "UPI"
                               None)
                            (Desk.store Scenario.billed_db))))).
Proof.
  destruct bill_invariant_preserved as (Hgen & Hpay & Hother & Hall).
  assert (Hbilled : Forall bill_invariant (bills Scenario.billed_db)).
  { constructor; [|constructor]. split; simpl; discriminate. }
  split; [|split; [|split]].
  - pose (res := generateBills Scenario.env Scenario.manager 6 2024 (Scenario.db 50 2 "Active")).
    destruct (Hgen Scenario.env Scenario.manager 6 2024 (Scenario.db 50 2 "Active")
                (fst res) (snd res) (surjective_pairing res)) as [_ Hinv].
    apply Hinv.
    + split.
      * intros p [<-|[]]. simpl. discriminate.
      * intros s [<-|[]]. simpl. discriminate.
    + constructor.
  - pose (res := makePayment Scenario.env Scenario.customer Scenario.bill (Some 150%Q) "UPI"
                   None Scenario.billed_db).
    apply (Hpay Scenario.env Scenario.customer Scenario.bill (Some 150%Q) "UPI" None
             Scenario.billed_db (fst res) (snd res)).
    + intros a [= <-]. reflexivity.
    + apply surjective_pairing.
    + exact Hbilled.
  - rewrite Hother; reflexivity.
  - apply Hall.
    + split.
      * intros p [<-|[]]. simpl. discriminate.
      * intros s [<-|[]]. simpl. discriminate.
    + reflexivity.
    + exact Hbilled.
Defined.
